(** * Wallet session page (src/app/page.tsx): a shallow embedding

    The page component keeps eleven React state slots and drives them from
    its handlers.  Embedded below are [checkAndSwitchNetwork],
    [getBalance], [validateTransaction], [sendTransaction],
    [handleAccountsChanged], [handleChainChanged], [getLastTransactions]
    and [connectWallet], as computations in a small monad carrying the
    pending state updates, the log of calls made to external capabilities,
    and JavaScript's abrupt completions (early [return], [throw]); and the
    branching parts of the status box the page renders.

    The handlers call into the JavaScript runtime ([BigInt], [parseInt],
    [parseFloat], [Number.prototype.toFixed]) and into the ethers v6
    library ([isAddress], [parseUnits], [formatEther]).  Neither is part of
    the repository; both are modelled here from their published
    definitions (ECMA-262 and the ethers v6 sources) so that the handlers
    can be evaluated on concrete inputs.

    Strings are Rocq strings: sequences of code units below 256. *)

From Stdlib Require Import String Ascii ZArith NArith List Bool Lia.
Import ListNotations.
Local Open Scope string_scope.
Local Open Scope Z_scope.

(* ===================================================================== *)
(** * Characters and digit strings *)
(* ===================================================================== *)

Module Chars.

Definition code (c : ascii) : Z := Z.of_N (N_of_ascii c).

Definition between (lo hi : Z) (c : ascii) : bool :=
  (lo <=? code c) && (code c <=? hi).

(** [0-9] *)
Definition is_digit (c : ascii) : bool := between 48 57 c.
Definition is_upper (c : ascii) : bool := between 65 90 c.
Definition is_lower (c : ascii) : bool := between 97 122 c.
(** [0-9a-fA-F] *)
Definition is_hex (c : ascii) : bool :=
  is_digit c || between 65 70 c || between 97 102 c.
(** [0-9A-Za-z] *)
Definition is_alnum (c : ascii) : bool := is_digit c || is_upper c || is_lower c.

(** ECMA-262 WhiteSpace and LineTerminator code points below 256:
    TAB, LF, VT, FF, CR, SP, NBSP. *)
Definition is_space (c : ascii) : bool :=
  between 9 13 c || (code c =? 32) || (code c =? 160).

Definition of_code (z : Z) : ascii := ascii_of_N (Z.to_N z).

Definition to_lower (c : ascii) : ascii :=
  if is_upper c then of_code (code c + 32) else c.
Definition to_upper (c : ascii) : ascii :=
  if is_lower c then of_code (code c - 32) else c.

(** Value of a digit in a radix up to 36; [None] when the character is not
    a digit of that radix. *)
Definition digit_value (radix : Z) (c : ascii) : option Z :=
  let v := if is_digit c then code c - 48
           else if is_upper c then code c - 55
           else if is_lower c then code c - 87
           else 36 in
  if v <? radix then Some v else None.

Definition is_radix_digit (radix : Z) (c : ascii) : bool :=
  match digit_value radix c with Some _ => true | None => false end.

Definition digit_char (d : Z) : ascii :=
  if d <? 10 then of_code (48 + d) else of_code (87 + d).

End Chars.

Module Str.

Fixpoint all (p : ascii -> bool) (s : string) : bool :=
  match s with
  | EmptyString => true
  | String c r => p c && all p r
  end.

(** Longest prefix of characters satisfying [p], and the rest. *)
Fixpoint span (p : ascii -> bool) (s : string) : string * string :=
  match s with
  | EmptyString => (EmptyString, EmptyString)
  | String c r =>
      if p c then let '(a, b) := span p r in (String c a, b)
      else (EmptyString, s)
  end.

Fixpoint drop_while (p : ascii -> bool) (s : string) : string :=
  match s with
  | EmptyString => EmptyString
  | String c r => if p c then drop_while p r else s
  end.

Definition rev (s : string) : string :=
  string_of_list_ascii (List.rev (list_ascii_of_string s)).

Definition len (s : string) : Z := Z.of_nat (String.length s).

Definition map (f : ascii -> ascii) (s : string) : string :=
  string_of_list_ascii (List.map f (list_ascii_of_string s)).

(** [s.substring(n)] for [0 <= n]. *)
Fixpoint drop (n : nat) (s : string) : string :=
  match n, s with
  | O, _ => s
  | S n', EmptyString => EmptyString
  | S n', String _ r => drop n' r
  end.

(** [s.substring(0, n)]. *)
Fixpoint take (n : nat) (s : string) : string :=
  match n, s with
  | O, _ => EmptyString
  | S n', EmptyString => EmptyString
  | S n', String c r => String c (take n' r)
  end.

Fixpoint repeat (c : ascii) (n : nat) : string :=
  match n with
  | O => EmptyString
  | S n' => String c (repeat c n')
  end.

(** If [s] starts with [p], the remainder after [p]. *)
Fixpoint strip_prefix (p s : string) : option string :=
  match p, s with
  | EmptyString, _ => Some s
  | String a p', String b s' =>
      if Ascii.eqb a b then strip_prefix p' s' else None
  | String _ _, EmptyString => None
  end.

(** Mathematical value of a string of radix digits, most significant
    first; characters that are not digits count as zero (callers only pass
    digit strings). *)
Fixpoint digits_value_from (radix : Z) (acc : Z) (s : string) : Z :=
  match s with
  | EmptyString => acc
  | String c r =>
      let d := match Chars.digit_value radix c with Some v => v | None => 0 end in
      digits_value_from radix (acc * radix + d) r
  end.

Definition digits_value (radix : Z) (s : string) : Z :=
  digits_value_from radix 0 s.

(** Decimal digits of a non-negative integer, least significant first. *)
Fixpoint digits_rev (radix : Z) (fuel : nat) (n : Z) : list ascii :=
  match fuel with
  | O => []
  | S f =>
      if n <? radix then [Chars.digit_char n]
      else Chars.digit_char (n mod radix) :: digits_rev radix f (n / radix)
  end.

(** [n.toString(radix)] for a non-negative integer [n] (BigInt or integral
    Number below 1e21): no leading zeros, ["0"] for zero.  The fuel
    [log2 n + 1] bounds the number of digits in every radix >= 2. *)
Definition of_Z (radix : Z) (n : Z) : string :=
  string_of_list_ascii
    (List.rev (digits_rev radix (S (Z.to_nat (Z.log2 n))) n)).

End Str.

(* ===================================================================== *)
(** * Keccak-256, as used by ethers' address checksum *)
(* ===================================================================== *)

Module Keccak.

Definition w64 : Z := Z.ones 64.

Definition rotl (x n : Z) : Z :=
  Z.land (Z.lor (Z.shiftl x n) (Z.shiftr x (64 - n))) w64.

(** The state is 25 lanes of 64 bits; lane (x, y) sits at index x + 5y. *)
Definition lane (st : list Z) (x y : nat) : Z :=
  nth ((x mod 5) + 5 * (y mod 5))%nat st 0.

Definition build (f : nat -> nat -> Z) : list Z :=
  List.map (fun i => f (i mod 5)%nat (i / 5)%nat) (seq 0 25).

Definition rotation_offsets : list Z :=
  [  0;  1; 62; 28; 27;
    36; 44;  6; 55; 20;
     3; 10; 43; 25; 39;
    41; 45; 15; 21;  8;
    18;  2; 61; 56; 14 ].

Definition round_constants : list Z :=
  [ 0x0000000000000001; 0x0000000000008082; 0x800000000000808A;
    0x8000000080008000; 0x000000000000808B; 0x0000000080000001;
    0x8000000080008081; 0x8000000000008009; 0x000000000000008A;
    0x0000000000000088; 0x0000000080008009; 0x000000008000000A;
    0x000000008000808B; 0x800000000000008B; 0x8000000000008089;
    0x8000000000008003; 0x8000000000008002; 0x8000000000000080;
    0x000000000000800A; 0x800000008000000A; 0x8000000080008081;
    0x8000000000008080; 0x0000000080000001; 0x8000000080008008 ].

Definition theta (st : list Z) : list Z :=
  let C x := Z.lxor (lane st x 0) (Z.lxor (lane st x 1)
             (Z.lxor (lane st x 2) (Z.lxor (lane st x 3) (lane st x 4)))) in
  let D x := Z.lxor (C (x + 4)%nat) (rotl (C (x + 1)%nat) 1) in
  build (fun x y => Z.lxor (lane st x y) (D x)).

(** B[y][2x+3y] = rotl(A[x][y], r[x][y]), read from the target side. *)
Definition rho_pi (st : list Z) : list Z :=
  build (fun X Y =>
    let x := ((X + 3 * Y) mod 5)%nat in
    rotl (lane st x X) (nth (x + 5 * X)%nat rotation_offsets 0)).

Definition chi (st : list Z) : list Z :=
  build (fun x y =>
    Z.lxor (lane st x y)
      (Z.land (Z.lxor (lane st (x + 1) y) w64) (lane st (x + 2) y))).

Definition iota (rc : Z) (st : list Z) : list Z :=
  match st with
  | a :: r => Z.lxor a rc :: r
  | [] => []
  end.

Definition round (st : list Z) (rc : Z) : list Z :=
  iota rc (chi (rho_pi (theta st))).

Definition keccak_f (st : list Z) : list Z :=
  fold_left round round_constants st.

(** Little-endian lane of eight bytes. *)
Fixpoint lane_of_bytes (bs : list Z) : Z :=
  match bs with
  | [] => 0
  | b :: r => Z.lor b (Z.shiftl (lane_of_bytes r) 8)
  end.

Fixpoint lanes_of_bytes (n : nat) (bs : list Z) : list Z :=
  match n with
  | O => []
  | S n' => lane_of_bytes (firstn 8 bs) :: lanes_of_bytes n' (skipn 8 bs)
  end.

Definition bytes_of_lane (l : Z) : list Z :=
  List.map (fun i => Z.land (Z.shiftr l (8 * Z.of_nat i)) 255) (seq 0 8).

Definition rate : nat := 136.

(** pad10*1 with the Keccak domain byte 0x01: the padded message is a
    whole number of 136-byte blocks. *)
Definition pad (msg : list Z) : list Z :=
  let r := (rate - (List.length msg mod rate))%nat in
  if (r =? 1)%nat then msg ++ [0x81]
  else msg ++ [0x01] ++ List.repeat 0 (r - 2) ++ [0x80].

Definition xor_lanes (st blk : list Z) : list Z :=
  List.map (fun p => Z.lxor (fst p) (snd p))
    (combine st (blk ++ List.repeat 0 (25 - List.length blk))).

Fixpoint absorb (blocks : nat) (st : list Z) (bs : list Z) : list Z :=
  match blocks with
  | O => st
  | S n =>
      let blk := lanes_of_bytes 17 (firstn rate bs) in
      absorb n (keccak_f (xor_lanes st blk)) (skipn rate bs)
  end.

(** keccak256 of a byte sequence: the 32-byte digest. *)
Definition keccak256 (msg : list Z) : list Z :=
  let p := pad msg in
  let st := absorb (List.length p / rate) (List.repeat 0 25) p in
  firstn 32 (flat_map bytes_of_lane (firstn 4 st)).

End Keccak.

(* ===================================================================== *)
(** * The JavaScript runtime functions the page calls *)
(* ===================================================================== *)

Module JS.

(** ** Number: IEEE 754 binary64

    A finite Number is [(-1)^neg * m * 2^e] with [0 <= m < 2^53] and
    [-1074 <= e <= 971], where [m >= 2^52] unless [e = -1074]; this
    representation is unique. *)
Inductive number : Type :=
| NaN
| Inf (neg : bool)
| Fin (neg : bool) (m e : Z).

(** The Number value for the non-negative rational [n / d] (0 <= n,
    0 < d): round to nearest, ties to even. *)
Definition round_ratio (neg : bool) (n d : Z) : number :=
  if n =? 0 then Fin neg 0 (-1074) else
  let scaled e := if 0 <=? e then (n, d * 2 ^ e) else (n * 2 ^ (- e), d) in
  let e1 := Z.log2 n - Z.log2 d - 53 in
  let e2 := let '(a, b) := scaled e1 in
            if 2 ^ 53 <=? a / b then e1 + 1 else e1 in
  let e := Z.max e2 (-1074) in
  let '(a, b) := scaled e in
  let q := a / b in
  let r := a mod b in
  let m := if 2 * r <? b then q
           else if b <? 2 * r then q + 1
           else if Z.even q then q else q + 1 in
  let '(m, e) := if m =? 2 ^ 53 then (2 ^ 52, e + 1) else (m, e) in
  if 971 <? e then Inf neg else Fin neg m e.

(** The Number value for a mathematical integer. *)
Definition of_Z (z : Z) : number := round_ratio (z <? 0) (Z.abs z) 1.

(** The mathematical value of an integral Number; [None] for NaN, the
    infinities and Numbers with a fractional part. *)
Definition to_Z (x : number) : option Z :=
  match x with
  | Fin neg m e =>
      let sign := if neg then -1 else 1 in
      if 0 <=? e then Some (sign * (m * 2 ^ e))
      else if m mod 2 ^ (- e) =? 0 then Some (sign * (m / 2 ^ (- e)))
      else None
  | _ => None
  end.

(** ToBoolean on a Number: false for +0, -0 and NaN. *)
Definition truthy (x : number) : bool :=
  match x with
  | NaN => false
  | Inf _ => true
  | Fin _ m _ => negb (m =? 0)
  end.

(** [BigInt(x)] on a Number: a RangeError ([None]) unless [x] is integral. *)
Definition BigInt_of_number (x : number) : option Z := to_Z x.

(** ** Strings to numbers *)

Definition trim_start (s : string) : string := Str.drop_while Chars.is_space s.
Definition trim (s : string) : string :=
  Str.rev (Str.drop_while Chars.is_space (Str.rev (trim_start s))).

Definition nonempty (s : string) : bool :=
  match s with EmptyString => false | _ => true end.

Definition digits_only (radix : Z) (s : string) : option Z :=
  if nonempty s && Str.all (Chars.is_radix_digit radix) s
  then Some (Str.digits_value radix s) else None.

(** A literal with a radix prefix 0x, 0o or 0b (in either case): its radix
    and the text after the prefix. *)
Definition prefixed_literal (t : string) : option (Z * string) :=
  match t with
  | String z (String k body) =>
      if Ascii.eqb z "0" then
        if Ascii.eqb (Chars.to_lower k) "x" then Some (16, body)
        else if Ascii.eqb (Chars.to_lower k) "o" then Some (8, body)
        else if Ascii.eqb (Chars.to_lower k) "b" then Some (2, body)
        else None
      else None
  | _ => None
  end.

(** [BigInt(s)] on a string (StringToBigInt): surrounding white space is
    ignored, the empty string is 0n, then either a signed decimal literal
    or an unsigned 0x / 0o / 0b literal; anything else is a SyntaxError
    ([None]). *)
Definition BigInt (s : string) : option Z :=
  let t := trim s in
  match t with
  | EmptyString => Some 0
  | String c r =>
      if Ascii.eqb c "+" then digits_only 10 r
      else if Ascii.eqb c "-" then option_map Z.opp (digits_only 10 r)
      else match prefixed_literal t with
           | Some (radix, body) => digits_only radix body
           | None => digits_only 10 t
           end
  end.

(** [parseInt(s, radix)]; [radix = 0] stands for an absent radix.  The
    longest prefix of radix digits after optional white space and sign is
    read; the result is NaN when there is none. *)
Definition parseInt (s : string) (radix : Z) : number :=
  let s1 := trim_start s in
  let '(neg, s2) := match s1 with
                    | String "-" r => (true, r)
                    | String "+" r => (false, r)
                    | _ => (false, s1)
                    end in
  if negb (radix =? 0) && ((radix <? 2) || (36 <? radix)) then NaN else
  let strip := (radix =? 0) || (radix =? 16) in
  let R := if radix =? 0 then 10 else radix in
  let '(R, s3) := match s2 with
                  | String "0" (String "x" r) | String "0" (String "X" r) =>
                      if strip then (16, r) else (R, s2)
                  | _ => (R, s2)
                  end in
  let '(ds, _) := Str.span (Chars.is_radix_digit R) s3 in
  match ds with
  | EmptyString => NaN
  | _ => round_ratio neg (Str.digits_value R ds) 1
  end.

(** Optional exponent part [eE][+-]?[0-9]+ at the head of [s]; 0 when it
    is absent or incomplete. *)
Definition exponent_part (s : string) : Z :=
  match s with
  | String c r =>
      if Ascii.eqb c "e" || Ascii.eqb c "E" then
        let '(eneg, r1) := match r with
                           | String "-" t => (true, t)
                           | String "+" t => (false, t)
                           | _ => (false, r)
                           end in
        let '(ds, _) := Str.span Chars.is_digit r1 in
        match ds with
        | EmptyString => 0
        | _ => if eneg then - Str.digits_value 10 ds else Str.digits_value 10 ds
        end
      else 0
  | EmptyString => 0
  end.

(** [parseFloat(s)]: the longest prefix of the trimmed string that is a
    StrDecimalLiteral, or NaN. *)
Definition parseFloat (s : string) : number :=
  let s1 := trim_start s in
  let '(neg, s2) := match s1 with
                    | String "-" r => (true, r)
                    | String "+" r => (false, r)
                    | _ => (false, s1)
                    end in
  match Str.strip_prefix "Infinity" s2 with
  | Some _ => Inf neg
  | None =>
      let '(ip, r1) := Str.span Chars.is_digit s2 in
      let '(fp, r2) := match r1 with
                       | String "." t => Str.span Chars.is_digit t
                       | _ => (EmptyString, r1)
                       end in
      if negb (nonempty ip) && negb (nonempty fp) then NaN else
      let mant := Str.digits_value 10 (ip ++ fp) in
      let ex := exponent_part r2 - Str.len fp in
      if 0 <=? ex then round_ratio neg (mant * 10 ^ ex) 1
      else round_ratio neg mant (10 ^ (- ex))
  end.

(** ** Numbers to strings *)

(** Number of decimal digits of a positive integer. *)
Definition decimal_length (n : Z) : Z := Str.len (Str.of_Z 10 n).

(** Number::toString for a finite Number [x = m * 2^e >= 10^21]: the
    shortest digit string [s] of [k] digits with the Number value of
    [s * 10^(n-k)] equal to [x] (the candidate nearest to [x] when two
    qualify), printed in exponential notation. *)
Definition shortest_digits (m e : Z) : Z * Z :=
  let X := m * 2 ^ e in
  let n0 := decimal_length X in
  let fits s n k := match round_ratio false (s * 10 ^ (n - k)) 1 with
                    | Fin _ m' e' => (m' =? m) && (e' =? e)
                    | _ => false
                    end in
  let fix search (fuel : nat) (k : Z) : Z * Z :=
    match fuel with
    | O => (X, n0)
    | S fuel' =>
        let unit := 10 ^ (n0 - k) in
        let lo := X / unit in
        let hi := lo + 1 in
        let lo_ok := fits lo n0 k in
        let hi_ok := if hi =? 10 ^ k then fits (10 ^ (k - 1)) (n0 + 1) k
                     else fits hi n0 k in
        let hi_res := if hi =? 10 ^ k then (10 ^ (k - 1), n0 + 1) else (hi, n0) in
        let dlo := X - lo * unit in
        let dhi := hi * unit - X in
        if lo_ok && hi_ok then
          if dlo <? dhi then (lo, n0)
          else if dhi <? dlo then hi_res
          else if Z.even lo then (lo, n0) else hi_res
        else if lo_ok then (lo, n0)
        else if hi_ok then hi_res
        else search fuel' (k + 1)
    end in
  search 17%nat 1.

Definition toString_large (m e : Z) : string :=
  let '(s, n) := shortest_digits m e in
  let ds := Str.of_Z 10 s in
  let expo := "e+" ++ Str.of_Z 10 (n - 1) in
  match ds with
  | String d EmptyString => String d expo
  | String d rest => String d ("." ++ rest) ++ expo
  | EmptyString => expo
  end.

(** The integer part of the non-negative real [m * 2^e]. *)
Definition integer_part (m e : Z) : Z :=
  if 0 <=? e then m * 2 ^ e else m / 2 ^ (- e).

(** The integer [n] for which [n / 10^f] is nearest to [m * 2^e], the
    larger one when two are equally near: floor (m * 2^e * 10^f + 1/2). *)
Definition scaled_nearest (m e : Z) (f : nat) : Z :=
  let p := 10 ^ Z.of_nat f in
  if 0 <=? e then m * 2 ^ e * p
  else (2 * m * p + 2 ^ (- e)) / 2 ^ (1 - e).

(** [x.toFixed(f)] for [0 <= f <= 100].  Below 10^21 the result is the
    integer [n] nearest to [x * 10^f] (the larger one on a tie) written
    with [f] fractional digits. *)
Definition toFixed (x : number) (f : nat) : string :=
  match x with
  | NaN => "NaN"
  | Inf false => "Infinity"
  | Inf true => "-Infinity"
  | Fin neg m e =>
      let s := if neg && negb (m =? 0) then "-" else EmptyString in
      if 10 ^ 21 <=? integer_part m e then s ++ toString_large m e else
      let n := scaled_nearest m e f in
      let ds := if n =? 0 then "0" else Str.of_Z 10 n in
      match f with
      | O => s ++ ds
      | _ =>
          let k := String.length ds in
          let ds := if (k <=? f)%nat then Str.repeat "0" (f + 1 - k) ++ ds else ds in
          let k := String.length ds in
          s ++ Str.take (k - f) ds ++ "." ++ Str.drop (k - f) ds
      end
  end.

End JS.

(* ===================================================================== *)
(** * The ethers v6 functions the page calls *)
(* ===================================================================== *)

Module Ethers.

(** ** Addresses (ethers: address/address.ts) *)

(** Nibble [i] of a digest, high nibble first. *)
Definition nibble (digest : list Z) (i : nat) : Z :=
  let b := nth (i / 2) digest 0 in
  if Nat.even i then Z.shiftr b 4 else Z.land b 15.

Fixpoint checksum_case (digest : list Z) (i : nat) (chars : list ascii)
  : list ascii :=
  match chars with
  | [] => []
  | c :: r =>
      (if (i <? 40)%nat && (8 <=? nibble digest i) then Chars.to_upper c else c)
        :: checksum_case digest (S i) r
  end.

(** getChecksumAddress: lower-case the input, hash the 40 characters after
    the 0x prefix as ASCII, and upper-case character [i] when nibble [i]
    of the digest is at least 8. *)
Definition getChecksumAddress (address : string) : string :=
  let chars := list_ascii_of_string (Str.drop 2 (Str.map Chars.to_lower address)) in
  let hashed := Keccak.keccak256 (List.map Chars.code (firstn 40 chars)) in
  "0x" ++ string_of_list_ascii (checksum_case hashed 0 chars).

(** ibanChecksum: move the first four characters behind the rest with the
    check digits zeroed, expand letters to 10..35, and take 98 minus the
    remainder modulo 97, on two digits. *)
Definition ibanChecksum (address : string) : string :=
  let up := Str.map Chars.to_upper address in
  let moved := Str.drop 4 up ++ Str.take 2 up ++ "00" in
  let expanded :=
    String.concat EmptyString
      (List.map (fun c => match Chars.digit_value 36 c with
                          | Some v => Str.of_Z 10 v
                          | None => EmptyString
                          end)
                (list_ascii_of_string moved)) in
  let checksum := Str.of_Z 10 (98 - Str.digits_value 10 expanded mod 97) in
  if (String.length checksum <? 2)%nat then "0" ++ checksum else checksum.

(** /^(0x)?[0-9a-fA-F]{40}$/ *)
Definition is_hex_address (address : string) : bool :=
  let body := match Str.strip_prefix "0x" address with
              | Some r => r
              | None => address
              end in
  (String.length body =? 40)%nat && Str.all Chars.is_hex body.

(** /([A-F].*[a-f])|([a-f].*[A-F])/ *)
Definition is_mixed_case (address : string) : bool :=
  negb (Str.all (fun c => negb (Chars.between 65 70 c)) address) &&
  negb (Str.all (fun c => negb (Chars.between 97 102 c)) address).

(** /^XE[0-9]{2}[0-9A-Za-z]{30,31}$/ *)
Definition is_icap_address (address : string) : bool :=
  match Str.strip_prefix "XE" address with
  | Some r =>
      Str.all Chars.is_digit (Str.take 2 r) &&
      Str.all Chars.is_alnum (Str.drop 2 r) &&
      ((String.length r =? 32)%nat || (String.length r =? 33)%nat)
  | None => false
  end.

(** isAddress: getAddress does not throw.  A 40-digit hex string is
    accepted unless it mixes upper- and lower-case digits and differs from
    its checksummed form; an ICAP string is accepted when its check digits
    are right. *)
Definition isAddress (value : string) : bool :=
  if is_hex_address value then
    let address := match Str.strip_prefix "0x" value with
                   | Some _ => value
                   | None => "0x" ++ value
                   end in
    negb (is_mixed_case address) || String.eqb (getChecksumAddress address) address
  else if is_icap_address value then
    String.eqb (Str.take 2 (Str.drop 2 value)) (ibanChecksum value)
  else false.

(** ** Fixed-point strings (ethers: utils/fixednumber.ts, utils/units.ts) *)

Definition names : list string :=
  ["wei"; "kwei"; "mwei"; "gwei"; "szabo"; "finney"; "ether"].

Fixpoint index_of (x : string) (l : list string) : option nat :=
  match l with
  | [] => None
  | y :: r => if String.eqb x y then Some O
              else option_map S (index_of x r)
  end.

(** Decimals of a named unit: three times its index in [names]. *)
Definition unit_decimals (unit : string) : option nat :=
  option_map (fun i => (3 * i)%nat) (index_of unit names).

(** checkValue for the signed 512-bit format: the value must lie in
    [-2^511, 2^511). *)
Definition checkValue (v : Z) : option Z :=
  if (- 2 ^ 511 <=? v) && (v <? 2 ^ 511) then Some v else None.

(** [while (decimal.length < decimals) decimal += "0000"] *)
Fixpoint pad_right (fuel decimals : nat) (decimal : string) : string :=
  match fuel with
  | O => decimal
  | S f => if (String.length decimal <? decimals)%nat
           then pad_right f decimals (decimal ++ "0000") else decimal
  end.

(** FixedNumber.fromString(value, {decimals, width: 512}).value; [None]
    when it throws.  The string must be an optional minus sign, digits, an
    optional point and digits, with at least one digit in all, and must
    not carry non-zero digits beyond [decimals] fractional places. *)
Definition fromString (value : string) (decimals : nat) : option Z :=
  let '(sign, r0) := match Str.strip_prefix "-" value with
                     | Some r => ("-", r)
                     | None => (EmptyString, value)
                     end in
  let '(whole, r1) := Str.span Chars.is_digit r0 in
  let r2 := match Str.strip_prefix "." r1 with Some r => r | None => r1 end in
  let '(decimal, r3) := Str.span Chars.is_digit r2 in
  match r3 with
  | EmptyString =>
      if (String.length whole + String.length decimal =? 0)%nat then None else
      let whole := if JS.nonempty whole then whole else "0" in
      let decimal := pad_right (S decimals) decimals decimal in
      if Str.all (Ascii.eqb "0") (Str.drop decimals decimal) then
        match JS.BigInt (sign ++ whole ++ Str.take decimals decimal) with
        | Some v => checkValue v
        | None => None
        end
      else None
  | _ => None
  end.

(** parseUnits(value, unit) for a named unit. *)
Definition parseUnits (value unit : string) : option Z :=
  match unit_decimals unit with
  | Some decimals => fromString value decimals
  | None => None
  end.

(** [while (str.length <= decimals) str = "0000" + str] *)
Fixpoint pad_left (fuel decimals : nat) (str : string) : string :=
  match fuel with
  | O => str
  | S f => if (String.length str <=? decimals)%nat
           then pad_left f decimals ("0000" ++ str) else str
  end.

(** [while (str[0] === "0" && str[1] !== ".") str = str.substring(1)],
    on the whole part: leading zeros go while another digit follows. *)
Fixpoint trim_whole (whole : string) : string :=
  match whole with
  | String c (String _ _ as r) => if Ascii.eqb c "0" then trim_whole r else whole
  | _ => whole
  end.

(** The same loop from the right end, on the fractional part. *)
Definition trim_fraction (frac : string) : string :=
  Str.rev (trim_whole (Str.rev frac)).

(** The string of a fixed-point value with [decimals] fractional digits:
    at least one digit on each side of the point, no other padding. *)
Definition toString (val : Z) (decimals : nat) : string :=
  let negative := if val <? 0 then "-" else EmptyString in
  let str := Str.of_Z 10 (Z.abs val) in
  match decimals with
  | O => negative ++ str
  | _ =>
      let str := pad_left (S decimals) decimals str in
      let index := (String.length str - decimals)%nat in
      negative ++ trim_whole (Str.take index str) ++ "."
               ++ trim_fraction (Str.drop index str)
  end.

(** formatUnits(value, decimals): FixedNumber.fromValue(value, decimals,
    {decimals, width: 512}).toString(); [None] when the value does not fit
    the format. *)
Definition formatUnits (value : Z) (decimals : nat) : option string :=
  match checkValue value with
  | Some v => Some (toString v decimals)
  | None => None
  end.

(** formatEther(wei) = formatUnits(wei, 18). *)
Definition formatEther (wei : Z) : option string := formatUnits wei 18.

End Ethers.

(* ===================================================================== *)
(** * The page: state, external capabilities, handlers *)
(* ===================================================================== *)

(** ** Data *)

(** [interface Transaction]: a stored history record. *)
Record Transaction : Type := mkTransaction {
  tx_hash : string;
  tx_from : string;
  tx_to : string;
  tx_value : Z;                 (* bigint *)
  tx_timestamp : JS.number
}.

(** [interface BSCTransaction]: a raw explorer record, all fields strings. *)
Record BSCTransaction : Type := mkBSCTransaction {
  raw_hash : string;
  raw_from : string;
  raw_to : string;
  raw_value : string;
  raw_timeStamp : string
}.

(** The eleven [useState] slots of the component. *)
Record State : Type := mkState {
  account : string;
  connected : bool;
  error : string;
  balance : string;
  networkError : string;
  recipientAddress : string;
  amount : string;
  isLoading : bool;
  txStatus : string;
  txHash : string;
  transactions : list Transaction
}.

(** The values of the first render. *)
Definition initial_state : State :=
  {| account := EmptyString; connected := false; error := EmptyString;
     balance := "0"; networkError := EmptyString;
     recipientAddress := EmptyString; amount := EmptyString;
     isLoading := false; txStatus := EmptyString; txHash := EmptyString;
     transactions := [] |}.

Record NativeCurrency : Type := mkNativeCurrency {
  name : string;
  symbol : string;
  decimals : Z
}.

Record ChainConfig : Type := mkChainConfig {
  chainId : string;
  chainName : string;
  nativeCurrency : NativeCurrency;
  rpcUrls : list string;
  blockExplorerUrls : list string
}.

(** A template literal prints an absent environment variable as
    "undefined". *)
Definition env_text (v : option string) : string :=
  match v with Some s => s | None => "undefined" end.

Definition OPBNB_TESTNET_CONFIG (rpc_url : option string) : ChainConfig :=
  {| chainId := "0x15eb";
     chainName := "opBNB Testnet";
     nativeCurrency := {| name := "tBNB"; symbol := "tBNB"; decimals := 18 |};
     rpcUrls := ["https://opbnb-testnet.infura.io/v3/" ++ env_text rpc_url];
     blockExplorerUrls := ["https://testnet.opbnbscan.com/"] |}.

(** ** External capabilities *)

(** A value caught by [catch]: whether it is an [Error] instance, its
    [message], and its numeric [code] if it has one. *)
Record thrown : Type := mkThrown {
  is_Error : bool;
  message : string;
  code : option Z
}.

(** [e.code === n] *)
Definition has_code (e : thrown) (n : Z) : bool :=
  match code e with
  | Some c => c =? n
  | None => false
  end.

(** How an awaited promise settles. *)
Inductive outcome (A : Type) : Type :=
| Resolved (a : A)
| Rejected (e : thrown).
Arguments Resolved {A} a.
Arguments Rejected {A} e.

(** The two [window.ethereum.request] calls of the network guard. *)
Inductive request : Type :=
| wallet_switchEthereumChain (chain : string)
| wallet_addEthereumChain (config : ChainConfig).

(** The parsed body of the explorer response, as far as the page looks at
    it.  [JsonNull] is a body on which reading a property throws.
    Otherwise [json_status] is [Some s] when [data.status] is the string
    [s], and [json_result] is [Some l] when [data.result] is an array; its
    elements are taken at their declared type [BSCTransaction]. *)
Inductive json : Type :=
| JsonNull
| JsonObject (json_status : option string)
             (json_result : option (list BSCTransaction)).

(** [v === s] for a property that holds the string [v] or no string. *)
Definition strict_equal (v : option string) (s : string) : bool :=
  match v with
  | Some t => String.eqb t s
  | None => false
  end.

(** The calls a handler makes to the outside, logged in order. *)
Inductive Event : Type :=
| PreventDefault
| EthereumRequest (r : request)
| GetNetwork
| GetBalance (address : string)
| GetSigner
| SendTransaction (to : string) (value : Z)
| Wait (hash : string)
| Fetch (url : string)
| ResponseJson
| ConsoleError (label : string).

(** The answers of the outside world during one run of a handler. *)
Record World : Type := mkWorld {
  ethereum : bool;                              (* window.ethereum is set *)
  NEXT_PUBLIC_RPC_URL : option string;
  NEXT_PUBLIC_SCAN : option string;
  request_result : request -> outcome unit;
  getNetwork_result : outcome Z;                (* network.chainId *)
  getBalance_result : string -> outcome Z;
  getSigner_result : outcome unit;
  sendTransaction_result : string -> Z -> outcome string;  (* transaction.hash *)
  wait_result : string -> outcome unit;
  fetch_result : string -> outcome (outcome json);         (* fetch, then .json() *)
  fault_message : string     (* message of an Error raised by ethers or the runtime *)
}.

(** An [Error] thrown by a library function. *)
Definition fault (w : World) : thrown :=
  {| is_Error := true; message := fault_message w; code := None |}.

(** ** Handlers as computations *)

(** How a block of statements completes: normally with a value, by
    [return r], or by [throw e]. *)
Inductive completion (R A : Type) : Type :=
| Normal (a : A)
| Return (r : R)
| Throw (e : thrown).
Arguments Normal {R A} a.
Arguments Return {R A} r.
Arguments Throw {R A} e.

(** A computation threads the state the setters have produced so far and
    the log of external calls. *)
Definition M (R A : Type) : Type :=
  State -> list Event -> completion R A * State * list Event.

Definition ret {R A} (a : A) : M R A := fun s l => (Normal a, s, l).

Definition bind {R A B} (c : M R A) (k : A -> M R B) : M R B :=
  fun s l =>
    match c s l with
    | (Normal a, s', l') => k a s' l'
    | (Return r, s', l') => (Return r, s', l')
    | (Throw e, s', l') => (Throw e, s', l')
    end.

Declare Scope js_scope.
Delimit Scope js_scope with js.
Notation "x <- c ;; k" := (bind c (fun x => k))
  (at level 100, c at next level, right associativity) : js_scope.
Notation "c ;; k" := (bind c (fun _ => k))
  (at level 100, right associativity) : js_scope.
Local Open Scope js_scope.

Definition skip {R} : M R unit := ret tt.
Definition return_ {R A} (r : R) : M R A := fun s l => (Return r, s, l).
Definition throw {R A} (e : thrown) : M R A := fun s l => (Throw e, s, l).
Definition emit {R} (ev : Event) : M R unit := fun s l => (Normal tt, s, (l ++ [ev])%list).
Definition modify {R} (f : State -> State) : M R unit :=
  fun s l => (Normal tt, f s, l).

(** [await] on an external call: the call is logged, then the promise
    resolves or rejects. *)
Definition await {R A} (ev : Event) (o : outcome A) : M R A :=
  emit ev ;;
  match o with
  | Resolved a => ret a
  | Rejected e => throw e
  end.

(** A library call that returns or throws. *)
Definition library {R A} (w : World) (o : option A) : M R A :=
  match o with
  | Some a => ret a
  | None => throw (fault w)
  end.

(** [try { body } catch (e) { handler }] *)
Definition try_catch {R A} (body : M R A) (handler : thrown -> M R A) : M R A :=
  fun s l =>
    match body s l with
    | (Throw e, s', l') => handler e s' l'
    | other => other
    end.

(** [try { body } finally { fin }]: [fin] always runs; the completion of
    [body] stands unless [fin] completes abruptly itself. *)
Definition try_finally {R A} (body : M R A) (fin : M R unit) : M R A :=
  fun s l =>
    match body s l with
    | (c, s', l') =>
        match fin s' l' with
        | (Normal _, s'', l'') => (c, s'', l'')
        | (Return r, s'', l'') => (Return r, s'', l'')
        | (Throw e, s'', l'') => (Throw e, s'', l'')
        end
    end.

(** Calling a function: [return r] hands [r] to the caller. *)
Definition call {R R'} (f : M R R) : M R' R :=
  fun s l =>
    match f s l with
    | (Normal a, s', l') => (Normal a, s', l')
    | (Return r, s', l') => (Normal r, s', l')
    | (Throw e, s', l') => (Throw e, s', l')
    end.

(** [array.map(f)] where [f] may throw. *)
Fixpoint array_map {R A B} (f : A -> M R B) (l : list A) : M R (list B) :=
  match l with
  | [] => ret []
  | a :: r => b <- f a ;; bs <- array_map f r ;; ret (b :: bs)
  end.

(** The state setters. *)
Definition setAccount {R} (v : string) : M R unit :=
  modify (fun s => mkState v (connected s) (error s) (balance s) (networkError s)
    (recipientAddress s) (amount s) (isLoading s) (txStatus s) (txHash s) (transactions s)).
Definition setConnected {R} (v : bool) : M R unit :=
  modify (fun s => mkState (account s) v (error s) (balance s) (networkError s)
    (recipientAddress s) (amount s) (isLoading s) (txStatus s) (txHash s) (transactions s)).
Definition setError {R} (v : string) : M R unit :=
  modify (fun s => mkState (account s) (connected s) v (balance s) (networkError s)
    (recipientAddress s) (amount s) (isLoading s) (txStatus s) (txHash s) (transactions s)).
Definition setBalance {R} (v : string) : M R unit :=
  modify (fun s => mkState (account s) (connected s) (error s) v (networkError s)
    (recipientAddress s) (amount s) (isLoading s) (txStatus s) (txHash s) (transactions s)).
Definition setNetworkError {R} (v : string) : M R unit :=
  modify (fun s => mkState (account s) (connected s) (error s) (balance s) v
    (recipientAddress s) (amount s) (isLoading s) (txStatus s) (txHash s) (transactions s)).
Definition setRecipientAddress {R} (v : string) : M R unit :=
  modify (fun s => mkState (account s) (connected s) (error s) (balance s) (networkError s)
    v (amount s) (isLoading s) (txStatus s) (txHash s) (transactions s)).
Definition setAmount {R} (v : string) : M R unit :=
  modify (fun s => mkState (account s) (connected s) (error s) (balance s) (networkError s)
    (recipientAddress s) v (isLoading s) (txStatus s) (txHash s) (transactions s)).
Definition setIsLoading {R} (v : bool) : M R unit :=
  modify (fun s => mkState (account s) (connected s) (error s) (balance s) (networkError s)
    (recipientAddress s) (amount s) v (txStatus s) (txHash s) (transactions s)).
Definition setTxStatus {R} (v : string) : M R unit :=
  modify (fun s => mkState (account s) (connected s) (error s) (balance s) (networkError s)
    (recipientAddress s) (amount s) (isLoading s) v (txHash s) (transactions s)).
Definition setTxHash {R} (v : string) : M R unit :=
  modify (fun s => mkState (account s) (connected s) (error s) (balance s) (networkError s)
    (recipientAddress s) (amount s) (isLoading s) (txStatus s) v (transactions s)).
Definition setTransactions {R} (v : list Transaction) : M R unit :=
  modify (fun s => mkState (account s) (connected s) (error s) (balance s) (networkError s)
    (recipientAddress s) (amount s) (isLoading s) (txStatus s) (txHash s) v).

(** ** The handlers

    A handler closes over the values of the render that created it: [p]
    below is that snapshot, read for [account], [balance], [amount] and
    [recipientAddress]; the setters act on the threaded state. *)

Section Handlers.

Variable w : World.

Let config : ChainConfig := OPBNB_TESTNET_CONFIG (NEXT_PUBLIC_RPC_URL w).

Definition checkAndSwitchNetwork : M unit unit :=
  try_catch
    ((if negb (ethereum w) then return_ tt else skip) ;;
     try_catch
       (await (EthereumRequest (wallet_switchEthereumChain (chainId config)))
              (request_result w (wallet_switchEthereumChain (chainId config))))
       (fun switchError =>
          if has_code switchError 4902 then
            await (EthereumRequest (wallet_addEthereumChain config))
                  (request_result w (wallet_addEthereumChain config))
          else throw switchError) ;;
     setNetworkError EmptyString)
    (fun _ =>
       setNetworkError "Failed to switch to opBNB Testnet. Please switch manually.").

Definition getBalance (address : string) : M unit unit :=
  try_catch
    ((if negb (ethereum w) then return_ tt else skip) ;;
     network_chainId <- await GetNetwork (getNetwork_result w) ;;
     expected <- library w (JS.BigInt_of_number (JS.parseInt (chainId config) 16)) ;;
     (if negb (network_chainId =? expected) then
        setNetworkError "Please switch to opBNB Testnet" ;; return_ tt
      else skip) ;;
     balanceWei <- await (GetBalance address) (getBalance_result w address) ;;
     balanceEth <- library w (Ethers.formatEther balanceWei) ;;
     setBalance (JS.toFixed (JS.parseFloat balanceEth) 4) ;;
     setNetworkError EmptyString)
    (fun _ =>
       emit (ConsoleError "Error fetching balance:") ;;
       setBalance "Error").

Definition validateTransaction (p : State) : M bool bool :=
  setError EmptyString ;;
  (if negb (Ethers.isAddress (recipientAddress p)) then
     setError "Invalid recipient address" ;; return_ false
   else skip) ;;
  try_catch
    (amountWei <- library w (Ethers.parseUnits (amount p) "wei") ;;
     (if amountWei <=? 0 then
        setError "Amount must be greater than 0" ;; return_ false
      else skip) ;;
     balanceWei <- library w (Ethers.parseUnits (balance p) "ether") ;;
     (if amountWei >? balanceWei then
        setError "Insufficient balance" ;; return_ false
      else skip))
    (fun _ => setError "Invalid amount" ;; return_ false) ;;
  return_ true.

Definition sendTransaction (p : State) : M unit unit :=
  emit PreventDefault ;;
  valid <- call (validateTransaction p) ;;
  (if negb valid then return_ tt else skip) ;;
  setIsLoading true ;;
  setTxStatus "Initiating transaction..." ;;
  setTxHash EmptyString ;;
  try_finally
    (try_catch
       ((if negb (ethereum w) then
           throw {| is_Error := true; message := "No wallet found!"; code := None |}
         else skip) ;;
        await GetSigner (getSigner_result w) ;;
        tx_value <- library w (Ethers.parseUnits (amount p) "wei") ;;
        setTxStatus "Please confirm the transaction in your wallet..." ;;
        transaction_hash <-
          await (SendTransaction (recipientAddress p) tx_value)
                (sendTransaction_result w (recipientAddress p) tx_value) ;;
        setTxStatus "Transaction submitted! Waiting for confirmation..." ;;
        setTxHash transaction_hash ;;
        await (Wait transaction_hash) (wait_result w transaction_hash) ;;
        setTxStatus "Transaction confirmed!" ;;
        call (getBalance (account p)) ;;
        setAmount EmptyString ;;
        setRecipientAddress EmptyString)
       (fun err =>
          emit (ConsoleError "Transaction error:") ;;
          setError (if is_Error err then message err else "Transaction failed") ;;
          setTxStatus "Transaction failed!"))
    (setIsLoading false).

Definition handleAccountsChanged (accounts : list string) : M unit unit :=
  match accounts with
  | first :: _ =>
      setAccount first ;;
      call (getBalance first)
  | [] =>
      setAccount EmptyString ;;
      setConnected false ;;
      setBalance "0"
  end.

Definition handleChainChanged (p : State) (_chainId : string) : M unit unit :=
  if negb (String.eqb _chainId (chainId config)) then
    setNetworkError "Please switch to opBNB Testnet" ;;
    setBalance "0"
  else
    setNetworkError EmptyString ;;
    if JS.nonempty (account p) then call (getBalance (account p)) else skip.

Definition txlist_url (address key : string) : string :=
  "https://api-testnet.bscscan.com/api?module=account&action=txlist&address="
  ++ address
  ++ "&startblock=0&endblock=99999999&page=1&offset=5&sort=desc&apikey="
  ++ key.

(** The callback of [data.result.map]. *)
Definition format_tx {R} (tx : BSCTransaction) : M R Transaction :=
  v <- library w (JS.BigInt (raw_value tx)) ;;
  ret {| tx_hash := raw_hash tx;
         tx_from := raw_from tx;
         tx_to := raw_to tx;
         tx_value := v;
         tx_timestamp := JS.parseInt (raw_timeStamp tx) 0 |}.

Definition getLastTransactions (address : string) : M unit unit :=
  try_catch
    (key <- match NEXT_PUBLIC_SCAN w with
            | None | Some EmptyString =>
                emit (ConsoleError "BSC API key not found") ;; return_ tt
            | Some key => ret key
            end ;;
     response <- await (Fetch (txlist_url address key))
                       (fetch_result w (txlist_url address key)) ;;
     data <- await ResponseJson response ;;
     match data with
     | JsonNull => throw (fault w)
     | JsonObject status result =>
         if strict_equal status "1" then
           match result with
           | Some txs =>
               formattedTxs <- array_map format_tx txs ;;
               setTransactions formattedTxs
           | None => skip
           end
         else skip
     end)
    (fun _ => emit (ConsoleError "Error fetching transactions:")).

End Handlers.

(** Running a handler from a committed state: the closure snapshot is that
    state and the log starts empty. *)
Definition run {R A} (c : M R A) (s : State) : completion R A * State * list Event :=
  c s [].
Definition state_after {R A} (c : M R A) (s : State) : State := snd (fst (run c s)).
Definition calls_of {R A} (c : M R A) (s : State) : list Event := snd (run c s).
Definition completion_of {R A} (c : M R A) (s : State) : completion R A :=
  fst (fst (run c s)).

(* ===================================================================== *)
(** * The page, continued: connecting and rendering *)
(* ===================================================================== *)

(** ** connectWallet

    Connecting runs the network guard, then issues the eth_requestAccounts
    request, then refreshes the balance.  Its log is over a wider
    alphabet: the account request, or a call logged by the guard or the
    refresh. *)
Inductive ConnectEvent : Type :=
| RequestAccounts
| Logged (ev : Event).

(** The array an accepted eth_requestAccounts request resolves with, taken
    to hold at least one address: [accounts[0]] is [first_account].  (On
    an empty array [accounts[0]] is undefined, which no string slot
    holds.) *)
Record Accounts : Type := mkAccounts {
  first_account : string;
  more_accounts : list string
}.

Definition MC (R A : Type) : Type :=
  State -> list ConnectEvent -> completion R A * State * list ConnectEvent.

(** A computation of the narrower log, run inside the wider one. *)
Definition inner {R A} (c : M R A) : MC R A :=
  fun s l =>
    match c s [] with
    | (r, s', l') => (r, s', (l ++ List.map Logged l')%list)
    end.

Definition connect_bind {R A B} (c : MC R A) (k : A -> MC R B) : MC R B :=
  fun s l =>
    match c s l with
    | (Normal a, s', l') => k a s' l'
    | (Return r, s', l') => (Return r, s', l')
    | (Throw e, s', l') => (Throw e, s', l')
    end.

Definition connect_try_catch {R A} (body : MC R A) (handler : thrown -> MC R A)
  : MC R A :=
  fun s l =>
    match body s l with
    | (Throw e, s', l') => handler e s' l'
    | other => other
    end.

(** [await window.ethereum.request({ method: "eth_requestAccounts" })] *)
Definition request_accounts {R} (answer : outcome Accounts) : MC R Accounts :=
  fun s l =>
    match answer with
    | Resolved a => (Normal a, s, (l ++ [RequestAccounts])%list)
    | Rejected e => (Throw e, s, (l ++ [RequestAccounts])%list)
    end.

Definition connectWallet (w : World) (answer : outcome Accounts) : MC unit unit :=
  connect_try_catch
    (connect_bind
       (inner (if negb (ethereum w) then
                 throw {| is_Error := true;
                          message := "No wallet found! Please install MetaMask.";
                          code := None |}
               else skip)) (fun _ =>
     connect_bind (inner (call (checkAndSwitchNetwork w))) (fun _ =>
     connect_bind (request_accounts answer) (fun accounts =>
     inner (setAccount (first_account accounts) ;;
            setConnected true ;;
            setError EmptyString ;;
            call (getBalance w (first_account accounts)))))))
    (fun err =>
       inner (setError (if is_Error err then message err
                        else "An unknown error occurred") ;;
              setConnected false)).

Definition run_connect {R A} (c : MC R A) (s : State)
  : completion R A * State * list ConnectEvent :=
  c s [].

(** ** Rendering

    The markup is a projection of the state; these are the parts of it
    that branch. *)

(** [s.includes(sub)] *)
Fixpoint includes (s sub : string) : bool :=
  match Str.strip_prefix sub s with
  | Some _ => true
  | None =>
      match s with
      | EmptyString => false
      | String _ r => includes r sub
      end
  end.

Inductive StatusColor : Type :=
| StatusRed
| StatusGreen
| StatusBlue.

(** The status box under the form: absent while [txStatus] is empty, red
    when it includes "failed", else green when it includes "confirmed",
    else blue. *)
Definition status_box (s : State) : option StatusColor :=
  if JS.nonempty (txStatus s) then
    Some (if includes (txStatus s) "failed" then StatusRed
          else if includes (txStatus s) "confirmed" then StatusGreen
          else StatusBlue)
  else None.

(** The "View on Explorer" link inside the status box. *)
Definition status_link (s : State) : option string :=
  if JS.nonempty (txStatus s) && JS.nonempty (txHash s)
  then Some ("https://testnet.opbnbscan.com/tx/" ++ txHash s)
  else None.

(* ===================================================================== *)
(** * Case tables, predicates and sample data for the statements *)
(* ===================================================================== *)

(** ** The validator as a decision table *)

Inductive ValidationError : Type :=
| InvalidRecipient
| InvalidAmount
| AmountNotPositive
| InsufficientBalance.

(** The messages [validateTransaction] stores in the [error] slot. *)
Definition error_message (e : option ValidationError) : string :=
  match e with
  | None => EmptyString
  | Some InvalidRecipient => "Invalid recipient address"
  | Some InvalidAmount => "Invalid amount"
  | Some AmountNotPositive => "Amount must be greater than 0"
  | Some InsufficientBalance => "Insufficient balance"
  end.

Definition passes (r : option ValidationError) : bool :=
  match r with None => true | Some _ => false end.

(** The order of the checks, with the case of a balance string that does
    not convert: it is reported as an invalid amount. *)
Definition validation_table (recipient amount_text balance_text : string)
  : option ValidationError :=
  if Ethers.isAddress recipient then
    match Ethers.parseUnits amount_text "wei" with
    | None => Some InvalidAmount
    | Some amountWei =>
        if amountWei <=? 0 then Some AmountNotPositive
        else match Ethers.parseUnits balance_text "ether" with
             | None => Some InvalidAmount
             | Some balanceWei =>
                 if amountWei >? balanceWei then Some InsufficientBalance
                 else None
             end
    end
  else Some InvalidRecipient.

(** The order of the checks as the specification words it, where every
    balance string is taken to convert to the smallest unit: an amount is
    only ever compared with a balance that exists. *)
Definition specified_validation (recipient amount_text balance_text : string)
  : option ValidationError :=
  if Ethers.isAddress recipient then
    match Ethers.parseUnits amount_text "wei" with
    | None => Some InvalidAmount
    | Some amountWei =>
        if amountWei <=? 0 then Some AmountNotPositive
        else match Ethers.parseUnits balance_text "ether" with
             | Some balanceWei =>
                 if amountWei >? balanceWei then Some InsufficientBalance
                 else None
             | None => None
             end
    end
  else Some InvalidRecipient.

(** The balance side of the comparison in [validateTransaction]:
    [ethers.parseUnits(balance, "ether")] on the stored display string. *)
Definition balance_operand (s : State) : option Z :=
  Ethers.parseUnits (balance s) "ether".

(** ** States with one slot overwritten *)

(** The state with the [error] slot overwritten. *)
Definition with_error (msg : string) (s : State) : State :=
  mkState (account s) (connected s) msg (balance s) (networkError s)
    (recipientAddress s) (amount s) (isLoading s) (txStatus s) (txHash s)
    (transactions s).

Definition with_networkError (msg : string) (s : State) : State :=
  mkState (account s) (connected s) (error s) (balance s) msg
    (recipientAddress s) (amount s) (isLoading s) (txStatus s) (txHash s)
    (transactions s).

Definition with_balance (v : string) (s : State) : State :=
  mkState (account s) (connected s) (error s) v (networkError s)
    (recipientAddress s) (amount s) (isLoading s) (txStatus s) (txHash s)
    (transactions s).

Definition with_transactions (v : list Transaction) (s : State) : State :=
  mkState (account s) (connected s) (error s) (balance s) (networkError s)
    (recipientAddress s) (amount s) (isLoading s) (txStatus s) (txHash s) v.

(** ** Calls and messages *)

(** Calls that reach the wallet provider, the signer or the RPC node. *)
Definition contacts_wallet (ev : Event) : bool :=
  match ev with
  | EthereumRequest _ | GetNetwork | GetBalance _ | GetSigner
  | SendTransaction _ _ | Wait _ => true
  | PreventDefault | Fetch _ | ResponseJson | ConsoleError _ => false
  end.

Definition switch_request : request := wallet_switchEthereumChain "0x15eb".

Definition add_request (w : World) : request :=
  wallet_addEthereumChain (OPBNB_TESTNET_CONFIG (NEXT_PUBLIC_RPC_URL w)).

Definition switch_failed : string :=
  "Failed to switch to opBNB Testnet. Please switch manually.".

Definition wrong_network : string := "Please switch to opBNB Testnet".

(** ** One balance refresh, by cases *)

(** What one refresh does, by the answers of the world. *)
Definition refresh (w : World) (address : string) (s : State)
  : completion unit unit * State * list Event :=
  if ethereum w then
    match getNetwork_result w with
    | Rejected _ =>
        (Normal tt, with_balance "Error" s,
         [GetNetwork; ConsoleError "Error fetching balance:"])
    | Resolved c =>
        if c =? 5611 then
          match getBalance_result w address with
          | Rejected _ =>
              (Normal tt, with_balance "Error" s,
               [GetNetwork; GetBalance address;
                ConsoleError "Error fetching balance:"])
          | Resolved wei =>
              match Ethers.formatEther wei with
              | Some eth =>
                  (Normal tt,
                   with_networkError EmptyString
                     (with_balance (JS.toFixed (JS.parseFloat eth) 4) s),
                   [GetNetwork; GetBalance address])
              | None =>
                  (Normal tt, with_balance "Error" s,
                   [GetNetwork; GetBalance address;
                    ConsoleError "Error fetching balance:"])
              end
          end
        else (Return tt, with_networkError wrong_network s, [GetNetwork])
    end
  else (Return tt, s, []).

(** ** History records *)

(** Whether a library call gave a result instead of throwing. *)
Definition accepted {A} (o : option A) : bool :=
  match o with Some _ => true | None => false end.

(** The record the map callback builds, when [BigInt] accepts the value. *)
Definition format_record (tx : BSCTransaction) : option Transaction :=
  match JS.BigInt (raw_value tx) with
  | Some v =>
      Some {| tx_hash := raw_hash tx; tx_from := raw_from tx; tx_to := raw_to tx;
              tx_value := v; tx_timestamp := JS.parseInt (raw_timeStamp tx) 0 |}
  | None => None
  end.

(** The whole mapped array, when every value is accepted. *)
Fixpoint format_all (l : list BSCTransaction) : option (list Transaction) :=
  match l with
  | [] => Some []
  | tx :: r =>
      match format_record tx, format_all r with
      | Some t, Some ts => Some (t :: ts)
      | _, _ => None
      end
  end.

Definition success_body (l : list BSCTransaction) : json :=
  JsonObject (Some "1") (Some l).

(** The value cell of a history row: [ethers.formatEther(tx.value)]. *)
Definition render_value (t : Transaction) : option string :=
  Ethers.formatEther (tx_value t).

(** [a >= b] on the timestamps of two records, when both are integral. *)
Definition not_older (a b : Transaction) : bool :=
  match JS.to_Z (tx_timestamp a), JS.to_Z (tx_timestamp b) with
  | Some x, Some y => y <=? x
  | _, _ => false
  end.

(** Most recent first: no record is older than its successor. *)
Fixpoint most_recent_first (l : list Transaction) : bool :=
  match l with
  | a :: (b :: _) as r => not_older a b && most_recent_first r
  | _ => true
  end.

(** ** Digit lists *)

(** The value of digits listed least significant first. *)
Fixpoint value_le (l : list ascii) : Z :=
  match l with
  | [] => 0
  | c :: r =>
      match Chars.digit_value 10 c with Some v => v | None => 0 end + 10 * value_le r
  end.

(** ** Sample worlds and states for concrete runs *)

Definition rejection (msg : string) (c : option Z) : thrown :=
  {| is_Error := true; message := msg; code := c |}.

(** No wallet is installed and every request fails. *)
Definition offline : World :=
  {| ethereum := false;
     NEXT_PUBLIC_RPC_URL := None;
     NEXT_PUBLIC_SCAN := None;
     request_result := fun _ => Rejected (rejection "offline" None);
     getNetwork_result := Rejected (rejection "offline" None);
     getBalance_result := fun _ => Rejected (rejection "offline" None);
     getSigner_result := Rejected (rejection "offline" None);
     sendTransaction_result := fun _ _ => Rejected (rejection "offline" None);
     wait_result := fun _ => Rejected (rejection "offline" None);
     fetch_result := fun _ => Rejected (rejection "offline" None);
     fault_message := "invalid argument" |}.

(** A wallet on the required chain holding [wei]; every request succeeds
    and the explorer answers [body]. *)
Definition online (wei : Z) (body : json) : World :=
  {| ethereum := true;
     NEXT_PUBLIC_RPC_URL := Some "rpc-key";
     NEXT_PUBLIC_SCAN := Some "scan-key";
     request_result := fun _ => Resolved tt;
     getNetwork_result := Resolved 5611;
     getBalance_result := fun _ => Resolved wei;
     getSigner_result := Resolved tt;
     sendTransaction_result := fun _ _ => Resolved "0xfeed";
     wait_result := fun _ => Resolved tt;
     fetch_result := fun _ => Resolved (Resolved body);
     fault_message := "invalid argument" |}.

(** A wallet that does not know the chain yet and accepts its
    registration. *)
Definition unknown_chain : World :=
  {| ethereum := true;
     NEXT_PUBLIC_RPC_URL := Some "rpc-key";
     NEXT_PUBLIC_SCAN := Some "scan-key";
     request_result := fun r =>
       match r with
       | wallet_switchEthereumChain _ =>
           Rejected (rejection "Unrecognized chain ID" (Some 4902))
       | wallet_addEthereumChain _ => Resolved tt
       end;
     getNetwork_result := Resolved 5611;
     getBalance_result := fun _ => Resolved 0;
     getSigner_result := Resolved tt;
     sendTransaction_result := fun _ _ => Resolved "0xfeed";
     wait_result := fun _ => Resolved tt;
     fetch_result := fun _ => Resolved (Resolved JsonNull);
     fault_message := "invalid argument" |}.

Definition alice : string := "0x00000000000000000000000000000000000000a1".

Definition bob : string := "0x00000000000000000000000000000000000000b2".

(** A connected session of [alice] with the transfer form filled in. *)
Definition form (recipient amount_text balance_text : string) : State :=
  {| account := alice; connected := true; error := EmptyString;
     balance := balance_text; networkError := EmptyString;
     recipientAddress := recipient; amount := amount_text;
     isLoading := false; txStatus := EmptyString; txHash := EmptyString;
     transactions := [] |}.

(** A wallet holding one wei more than 1 tBNB. *)
Definition dust_world : World := online (10 ^ 18 + 1) JsonNull.

(** A wallet holding 2.00045 tBNB. *)
Definition drift_world : World := online 2000450000000000000 JsonNull.

(** Six raw records, oldest first. *)
Definition six_records : list BSCTransaction :=
  [ mkBSCTransaction "0xa1" alice bob "1" "1700000001";
    mkBSCTransaction "0xa2" alice bob "2" "1700000002";
    mkBSCTransaction "0xa3" alice bob "3" "1700000003";
    mkBSCTransaction "0xa4" alice bob "4" "1700000004";
    mkBSCTransaction "0xa5" alice bob "5" "1700000005";
    mkBSCTransaction "0xa6" alice bob "6" "1700000006" ].

(** {hash:"0xabc", from:"0x1", to:"0x2", value:"1000000000000000000",
    timeStamp:"1700000000"} *)
Definition sample_record : BSCTransaction :=
  mkBSCTransaction "0xabc" "0x1" "0x2" "1000000000000000000" "1700000000".

(** The explorer's refusal, {status:"0"}. *)
Definition refused_body : json := JsonObject (Some "0") None.

(** A record with an empty value and a timestamp that is no number. *)
Definition blank_record : BSCTransaction :=
  mkBSCTransaction "0xdead" alice bob EmptyString "abc".

Definition earlier_transfer : Transaction :=
  {| tx_hash := "0xabc"; tx_from := alice; tx_to := bob;
     tx_value := 1000000000000000000; tx_timestamp := JS.of_Z 1700000000 |}.

(** A session whose history already holds one transfer. *)
Definition with_history : State :=
  with_transactions [earlier_transfer] (form bob "5" "1.0000").

(** A wallet on another chain (BSC testnet, 97). *)
Definition foreign_chain : World :=
  {| ethereum := true;
     NEXT_PUBLIC_RPC_URL := Some "rpc-key";
     NEXT_PUBLIC_SCAN := Some "scan-key";
     request_result := fun _ => Rejected (rejection "User rejected the request." (Some 4001));
     getNetwork_result := Resolved 97;
     getBalance_result := fun _ => Resolved 5;
     getSigner_result := Resolved tt;
     sendTransaction_result := fun _ _ => Resolved "0xfeed";
     wait_result := fun _ => Resolved tt;
     fetch_result := fun _ => Resolved (Resolved JsonNull);
     fault_message := "invalid argument" |}.

(** A session whose explorer cannot be reached. *)
Definition unreachable_explorer : World :=
  {| ethereum := true;
     NEXT_PUBLIC_RPC_URL := Some "rpc-key";
     NEXT_PUBLIC_SCAN := Some "scan-key";
     request_result := fun _ => Resolved tt;
     getNetwork_result := Resolved 5611;
     getBalance_result := fun _ => Resolved 0;
     getSigner_result := Resolved tt;
     sendTransaction_result := fun _ _ => Resolved "0xfeed";
     wait_result := fun _ => Resolved tt;
     fetch_result := fun _ => Rejected (rejection "Failed to fetch" None);
     fault_message := "invalid argument" |}.

(** A wallet that accepts the transfer, after which the transaction is
    reverted on chain. *)
Definition reverting : World :=
  {| ethereum := true;
     NEXT_PUBLIC_RPC_URL := Some "rpc-key";
     NEXT_PUBLIC_SCAN := Some "scan-key";
     request_result := fun _ => Resolved tt;
     getNetwork_result := Resolved 5611;
     getBalance_result := fun _ => Resolved (10 ^ 18);
     getSigner_result := Resolved tt;
     sendTransaction_result := fun _ _ => Resolved "0xfeed";
     wait_result := fun _ => Rejected (rejection "transaction execution reverted" None);
     fetch_result := fun _ => Resolved (Resolved JsonNull);
     fault_message := "invalid argument" |}.

(** ** One submission, by cases *)

(** [err instanceof Error ? err.message : "Transaction failed"] *)
Definition failure_text (e : thrown) : string :=
  if is_Error e then message e else "Transaction failed".

Definition no_wallet : thrown :=
  {| is_Error := true; message := "No wallet found!"; code := None |}.

(** The state a failed submission leaves: the form as submitted, the
    failure in the error slot, the hash obtained so far. *)
Definition failed_state (e : thrown) (hash : string) (p : State) : State :=
  mkState (account p) (connected p) (failure_text e) (balance p) (networkError p)
    (recipientAddress p) (amount p) false "Transaction failed!" hash
    (transactions p).

(** The state a confirmed submission leaves: the form cleared, the
    balance and network error as the closing refresh set them. *)
Definition confirmed_state (w : World) (hash : string) (p : State) : State :=
  mkState (account p) (connected p) EmptyString
    (balance (snd (fst (refresh w (account p) p))))
    (networkError (snd (fst (refresh w (account p) p))))
    EmptyString EmptyString false "Transaction confirmed!" hash (transactions p).

(** What one submission does, by the outcome of validation and the
    answers of the world. *)
Definition submission (w : World) (p : State)
  : completion unit unit * State * list Event :=
  match validation_table (recipientAddress p) (amount p) (balance p) with
  | Some e =>
      (Return tt, with_error (error_message (Some e)) p, [PreventDefault])
  | None =>
      if ethereum w then
        match getSigner_result w with
        | Rejected e =>
            (Normal tt, failed_state e EmptyString p,
             [PreventDefault; GetSigner; ConsoleError "Transaction error:"])
        | Resolved _ =>
            match Ethers.parseUnits (amount p) "wei" with
            | None =>
                (Normal tt, failed_state (fault w) EmptyString p,
                 [PreventDefault; GetSigner; ConsoleError "Transaction error:"])
            | Some v =>
                match sendTransaction_result w (recipientAddress p) v with
                | Rejected e =>
                    (Normal tt, failed_state e EmptyString p,
                     [PreventDefault; GetSigner;
                      SendTransaction (recipientAddress p) v;
                      ConsoleError "Transaction error:"])
                | Resolved h =>
                    match wait_result w h with
                    | Rejected e =>
                        (Normal tt, failed_state e h p,
                         [PreventDefault; GetSigner;
                          SendTransaction (recipientAddress p) v; Wait h;
                          ConsoleError "Transaction error:"])
                    | Resolved _ =>
                        (Normal tt, confirmed_state w h p,
                         ([PreventDefault; GetSigner;
                           SendTransaction (recipientAddress p) v; Wait h]
                          ++ snd (refresh w (account p) p))%list)
                    end
                end
            end
        end
      else
        (Normal tt, failed_state no_wallet EmptyString p,
         [PreventDefault; ConsoleError "Transaction error:"])
  end.

(** ** Connecting *)

Definition connect_state {R A} (c : MC R A) (s : State) : State :=
  snd (fst (run_connect c s)).
Definition connect_calls {R A} (c : MC R A) (s : State) : list ConnectEvent :=
  snd (run_connect c s).

(** The state once the account request is granted, before the refresh. *)
Definition granted (first : string) (s : State) : State :=
  mkState first true EmptyString (balance s) (networkError s)
    (recipientAddress s) (amount s) (isLoading s) (txStatus s) (txHash s)
    (transactions s).

(* ===================================================================== *)
(** * Reasoning support *)
(* ===================================================================== *)

(** Unfolds the control operators and setters, leaving library calls and
    the answers of the world in place for case analysis. *)
Ltac js_unfold :=
  cbv beta iota delta
    [bind ret skip return_ throw emit modify await library try_catch
     try_finally call negb
     setAccount setConnected setError setBalance setNetworkError
     setRecipientAddress setAmount setIsLoading setTxStatus setTxHash
     setTransactions].

(** Unfolds the control operators and then the state projections. *)
Ltac js_simpl :=
  js_unfold;
  cbn [fst snd app passes error_message with_error with_balance with_networkError
       account connected error balance networkError recipientAddress amount
       isLoading txStatus txHash transactions].

(* ===================================================================== *)
(** * Digit strings: printing and reading back *)
(* ===================================================================== *)

Module StrFacts.

Lemma digit_facts (c : ascii) :
  Chars.is_digit c = true ->
  Ascii.eqb "-" c = false /\ Ascii.eqb c "+" = false /\ Ascii.eqb c "-" = false /\
  Ascii.eqb "." c = false /\ Chars.is_space c = false /\
  Chars.is_radix_digit 10 c = true /\
  Ascii.eqb (Chars.to_lower c) "x" = false /\
  Ascii.eqb (Chars.to_lower c) "o" = false /\
  Ascii.eqb (Chars.to_lower c) "b" = false.
Proof.
  destruct c as [[] [] [] [] [] [] [] []]; intros H;
    solve [discriminate H | vm_compute; repeat split; reflexivity].
Qed.

Lemma digit_char_spec (d : Z) :
  0 <= d < 10 ->
  Chars.is_digit (Chars.digit_char d) = true /\
  Chars.digit_value 10 (Chars.digit_char d) = Some d.
Proof.
  intros H.
  assert (d = 0 \/ d = 1 \/ d = 2 \/ d = 3 \/ d = 4 \/ d = 5 \/ d = 6 \/ d = 7
          \/ d = 8 \/ d = 9) as Hd by lia.
  repeat (destruct Hd as [-> | Hd]; [split; reflexivity |]).
  subst d. split; reflexivity.
Qed.

Lemma append_assoc (a b c : string) : ((a ++ b) ++ c = a ++ (b ++ c))%string.
Proof. induction a as [| x a IH]; cbn; [reflexivity | now rewrite IH]. Qed.

Lemma append_empty (a : string) : (a ++ EmptyString)%string = a.
Proof. induction a as [| x a IH]; cbn; [reflexivity | now rewrite IH]. Qed.

Lemma length_append (a b : string) :
  String.length (a ++ b) = (String.length a + String.length b)%nat.
Proof. induction a as [| x a IH]; cbn; [reflexivity | now rewrite IH]. Qed.

Lemma of_list_app (l1 l2 : list ascii) :
  string_of_list_ascii (l1 ++ l2)
  = (string_of_list_ascii l1 ++ string_of_list_ascii l2)%string.
Proof. induction l1 as [| x l1 IH]; cbn; [reflexivity | now rewrite IH]. Qed.

Lemma all_append (p : ascii -> bool) (a b : string) :
  Str.all p (a ++ b) = Str.all p a && Str.all p b.
Proof.
  induction a as [| x a IH]; cbn; [reflexivity |].
  rewrite IH. now rewrite andb_assoc.
Qed.

Lemma all_of_list (p : ascii -> bool) (l : list ascii) :
  Str.all p (string_of_list_ascii l) = forallb p l.
Proof. induction l as [| x l IH]; cbn; [reflexivity | now rewrite IH]. Qed.

Lemma forallb_rev (p : ascii -> bool) (l : list ascii) :
  forallb p (List.rev l) = forallb p l.
Proof.
  induction l as [| x l IH]; cbn; [reflexivity |].
  rewrite forallb_app, IH. cbn. rewrite andb_true_r. apply andb_comm.
Qed.

Lemma all_repeat (p : ascii -> bool) (c : ascii) (n : nat) :
  p c = true -> Str.all p (Str.repeat c n) = true.
Proof. intros H. induction n as [| n IH]; cbn; [reflexivity | now rewrite H, IH]. Qed.

Lemma length_repeat (c : ascii) (n : nat) : String.length (Str.repeat c n) = n.
Proof. induction n as [| n IH]; cbn; [reflexivity | now rewrite IH]. Qed.

Lemma take_drop (n : nat) (s : string) : (Str.take n s ++ Str.drop n s)%string = s.
Proof.
  revert s. induction n as [| n IH]; intros [| c s]; cbn; try reflexivity.
  now rewrite IH.
Qed.

Lemma length_take (n : nat) (s : string) :
  (n <= String.length s)%nat -> String.length (Str.take n s) = n.
Proof.
  revert s. induction n as [| n IH]; intros [| c s] H; cbn in *; try lia.
  rewrite IH; lia.
Qed.

Lemma length_drop (n : nat) (s : string) :
  String.length (Str.drop n s) = (String.length s - n)%nat.
Proof.
  revert s. induction n as [| n IH]; intros [| c s]; cbn; try lia.
  apply IH.
Qed.

Lemma span_all (p : ascii -> bool) (s : string) :
  Str.all p s = true -> Str.span p s = (s, EmptyString).
Proof.
  induction s as [| c s IH]; cbn; [reflexivity |].
  intros H. apply andb_prop in H as [Hc Hs].
  rewrite Hc, (IH Hs). reflexivity.
Qed.

Lemma span_stop (p : ascii -> bool) (a : string) (c : ascii) (r : string) :
  Str.all p a = true -> p c = false ->
  Str.span p (a ++ String c r) = (a, String c r).
Proof.
  intros Ha Hc. induction a as [| x a IH]; cbn.
  - now rewrite Hc.
  - cbn in Ha. apply andb_prop in Ha as [Hx Ha].
    rewrite Hx, (IH Ha). reflexivity.
Qed.

(** Reading digits extends over concatenation. *)
Lemma digits_value_from_append (radix acc : Z) (a b : string) :
  Str.digits_value_from radix acc (a ++ b)
  = Str.digits_value_from radix (Str.digits_value_from radix acc a) b.
Proof.
  revert acc. induction a as [| x a IH]; intros acc; cbn; [reflexivity | apply IH].
Qed.

Lemma digits_value_from_nonneg (acc : Z) (s : string) :
  0 <= acc -> 0 <= Str.digits_value_from 10 acc s.
Proof.
  revert acc. induction s as [| c s IH]; intros acc H; cbn; [exact H |].
  apply IH. unfold Chars.digit_value.
  destruct (_ <? 10) eqn:Hlt.
  - destruct (Chars.is_digit c) eqn:Hd.
    + unfold Chars.is_digit, Chars.between in Hd.
      apply andb_prop in Hd as [H1 H2]. lia.
    + destruct (Chars.is_upper c) eqn:Hu.
      * unfold Chars.is_upper, Chars.between in Hu.
        apply andb_prop in Hu as [H1 H2]. lia.
      * destruct (Chars.is_lower c) eqn:Hl; [| lia].
        unfold Chars.is_lower, Chars.between in Hl.
        apply andb_prop in Hl as [H1 H2]. lia.
  - lia.
Qed.

(** Leading zeros do not change the value read. *)
Lemma digits_value_zeros (n : nat) (s : string) :
  Str.digits_value 10 (Str.repeat "0" n ++ s) = Str.digits_value 10 s.
Proof.
  unfold Str.digits_value. rewrite digits_value_from_append.
  induction n as [| n IH]; cbn; [reflexivity | exact IH].
Qed.

Lemma digits_value_rev (l : list ascii) :
  Str.digits_value 10 (string_of_list_ascii (List.rev l)) = value_le l.
Proof.
  induction l as [| c l IH]; [reflexivity |].
  cbn [List.rev value_le]. rewrite of_list_app.
  unfold Str.digits_value in *. rewrite digits_value_from_append, IH.
  cbn [string_of_list_ascii Str.digits_value_from]. lia.
Qed.

Lemma digits_rev_spec (fuel : nat) (n : Z) :
  0 <= n < 10 ^ Z.of_nat fuel -> (0 < fuel)%nat ->
  Str.digits_rev 10 fuel n <> [] /\
  forallb Chars.is_digit (Str.digits_rev 10 fuel n) = true /\
  value_le (Str.digits_rev 10 fuel n) = n.
Proof.
  revert n. induction fuel as [| fuel IH]; intros n Hn Hf; [lia |].
  cbn [Str.digits_rev].
  destruct (n <? 10) eqn:Hlt.
  - apply Z.ltb_lt in Hlt.
    destruct (digit_char_spec n ltac:(lia)) as [Hd Hv].
    cbn [forallb value_le]. rewrite Hd, Hv. repeat split; [discriminate | lia].
  - apply Z.ltb_ge in Hlt.
    assert (Hf' : (0 < fuel)%nat).
    { destruct fuel; [cbn in Hn; lia | lia]. }
    assert (Hq : 0 <= n / 10 < 10 ^ Z.of_nat fuel).
    { split; [apply Z.div_pos; lia |].
      apply Z.div_lt_upper_bound; [lia |].
      replace (10 * 10 ^ Z.of_nat fuel) with (10 ^ Z.of_nat (S fuel)); [lia |].
      rewrite Nat2Z.inj_succ, Z.pow_succ_r; lia. }
    destruct (IH (n / 10) Hq Hf') as (Hne & Hall & Hval).
    destruct (digit_char_spec (n mod 10)) as [Hd Hv];
      [apply Z.mod_pos_bound; lia |].
    cbn [forallb value_le]. rewrite Hd, Hv, Hall, Hval.
    repeat split; [discriminate |].
    pose proof (Z.div_mod n 10 ltac:(lia)). lia.
Qed.

Lemma fuel_enough (n : Z) :
  0 <= n -> n < 10 ^ Z.of_nat (S (Z.to_nat (Z.log2 n))).
Proof.
  intros Hn.
  rewrite Nat2Z.inj_succ, Z2Nat.id by apply Z.log2_nonneg.
  destruct (Z.eq_dec n 0) as [-> | Hnz]; [cbn; lia |].
  pose proof (Z.log2_spec n ltac:(lia)) as [_ Hup].
  assert (2 ^ Z.succ (Z.log2 n) <= 10 ^ Z.succ (Z.log2 n)).
  { apply Z.pow_le_mono_l. lia. }
  lia.
Qed.

(** Printing a non-negative integer gives a non-empty digit string that
    reads back as the integer. *)
Lemma of_Z_spec (n : Z) :
  0 <= n ->
  Str.of_Z 10 n <> EmptyString /\
  Str.all Chars.is_digit (Str.of_Z 10 n) = true /\
  Str.digits_value 10 (Str.of_Z 10 n) = n.
Proof.
  intros Hn. unfold Str.of_Z.
  destruct (digits_rev_spec (S (Z.to_nat (Z.log2 n))) n) as (Hne & Hall & Hval).
  { split; [exact Hn | apply fuel_enough; exact Hn]. }
  { lia. }
  rewrite all_of_list, forallb_rev, digits_value_rev.
  repeat split; try assumption.
  intros H. apply Hne.
  apply (f_equal list_ascii_of_string) in H.
  rewrite list_ascii_of_string_of_list_ascii in H. cbn in H.
  apply (f_equal (@List.rev ascii)) in H. rewrite rev_involutive in H. exact H.
Qed.

End StrFacts.

Module Roundtrip.

Import StrFacts.

Lemma rev_rev (s : string) : Str.rev (Str.rev s) = s.
Proof.
  unfold Str.rev.
  now rewrite list_ascii_of_string_of_list_ascii, rev_involutive,
    string_of_list_ascii_of_string.
Qed.

Lemma all_rev (p : ascii -> bool) (s : string) :
  Str.all p (Str.rev s) = Str.all p s.
Proof.
  unfold Str.rev. rewrite all_of_list, forallb_rev, <- all_of_list.
  now rewrite string_of_list_ascii_of_string.
Qed.

Lemma drop_spaces_digits (s : string) :
  Str.all Chars.is_digit s = true -> Str.drop_while Chars.is_space s = s.
Proof.
  destruct s as [| c r]; [reflexivity |]. cbn. intros H.
  apply andb_prop in H as [Hc _].
  destruct (digit_facts c Hc) as (_ & _ & _ & _ & Hs & _). now rewrite Hs.
Qed.

Lemma trim_digits (s : string) :
  Str.all Chars.is_digit s = true -> JS.trim s = s.
Proof.
  intros H. unfold JS.trim, JS.trim_start.
  rewrite (drop_spaces_digits s H).
  rewrite drop_spaces_digits by (now rewrite all_rev).
  apply rev_rev.
Qed.

Lemma all_radix_digits (s : string) :
  Str.all Chars.is_digit s = true ->
  Str.all (Chars.is_radix_digit 10) s = true.
Proof.
  induction s as [| c r IH]; [reflexivity |]. cbn. intros H.
  apply andb_prop in H as [Hc Hr].
  destruct (digit_facts c Hc) as (_ & _ & _ & _ & _ & Hd & _).
  now rewrite Hd, (IH Hr).
Qed.

(** BigInt reads a non-empty digit string as its decimal value. *)
Lemma BigInt_digits (t : string) :
  t <> EmptyString -> Str.all Chars.is_digit t = true ->
  JS.BigInt t = Some (Str.digits_value 10 t).
Proof.
  intros Hne Hall. unfold JS.BigInt. rewrite (trim_digits t Hall).
  pose proof (all_radix_digits t Hall) as Hrad.
  destruct t as [| c r]; [contradiction Hne; reflexivity |].
  pose proof Hall as Hall'. cbn in Hall'. apply andb_prop in Hall' as [Hc Hr].
  destruct (digit_facts c Hc) as (_ & Hplus & Hminus & _).
  rewrite Hplus, Hminus.
  assert (Hpre : JS.prefixed_literal (String c r) = None).
  { unfold JS.prefixed_literal. destruct r as [| k body]; [reflexivity |].
    cbn in Hr. apply andb_prop in Hr as [Hk _].
    destruct (digit_facts k Hk) as (_ & _ & _ & _ & _ & _ & Hx & Ho & Hb).
    rewrite Hx, Ho, Hb. destruct (Ascii.eqb c "0"); reflexivity. }
  rewrite Hpre. unfold JS.digits_only. rewrite Hrad. reflexivity.
Qed.

Lemma strip_minus_digits (s : string) :
  s <> EmptyString -> Str.all Chars.is_digit s = true ->
  forall r, Str.strip_prefix "-" (s ++ r) = None.
Proof.
  intros Hne Hall r. destruct s as [| c t]; [contradiction Hne; reflexivity |].
  cbn in Hall. apply andb_prop in Hall as [Hc _].
  destruct (digit_facts c Hc) as (Hm & _).
  cbn [Str.strip_prefix append]. now rewrite Hm.
Qed.

(** A decimal with four fractional digits converts to the smallest unit
    of an 18-decimal currency by appending fourteen zeros. *)
Lemma fromString_four_digits (a b : string) :
  a <> EmptyString -> Str.all Chars.is_digit a = true ->
  Str.all Chars.is_digit b = true -> String.length b = 4%nat ->
  Str.digits_value 10 (a ++ b) * 10 ^ 14 < 2 ^ 511 ->
  Ethers.fromString (a ++ String "." b) 18
  = Some (Str.digits_value 10 (a ++ b) * 10 ^ 14).
Proof.
  intros Hne Ha Hb Hlen Hbound.
  unfold Ethers.fromString.
  rewrite (strip_minus_digits a Hne Ha).
  rewrite (span_stop Chars.is_digit a "." b Ha eq_refl).
  cbn [Str.strip_prefix Ascii.eqb Bool.eqb].
  rewrite (span_all Chars.is_digit b Hb).
  rewrite Hlen.
  replace (String.length a + 4 =? 0)%nat with false
    by (symmetry; apply Nat.eqb_neq; lia).
  assert (Hn : JS.nonempty a = true)
    by (destruct a; [contradiction Hne; reflexivity | reflexivity]).
  rewrite Hn.
  destruct b as [| b1 [| b2 [| b3 [| b4 [| b5 b]]]]]; try discriminate Hlen.
  cbn [Ethers.pad_right String.length Nat.ltb Nat.leb append Str.drop Str.take
       Str.all Ascii.eqb Bool.eqb andb].
  cbn [append].
  assert (Hall : Str.all Chars.is_digit
                   (a ++ String b1 (String b2 (String b3 (String b4
                      "00000000000000")))) = true).
  { rewrite all_append, Ha. cbn in Hb. cbn.
    repeat (apply andb_prop in Hb as [-> Hb]). reflexivity. }
  rewrite BigInt_digits; [| destruct a; [contradiction Hne; reflexivity | discriminate] | exact Hall].
  assert (Hval : Str.digits_value 10
                   (a ++ String b1 (String b2 (String b3 (String b4
                      "00000000000000"))))
                 = Str.digits_value 10 (a ++ String b1 (String b2 (String b3
                      (String b4 EmptyString)))) * 10 ^ 14).
  { unfold Str.digits_value. rewrite !digits_value_from_append.
    cbn [Str.digits_value_from]. 
    change (Chars.digit_value 10 "0") with (Some 0). cbv iota. lia. }
  rewrite Hval. unfold Ethers.checkValue.
  pose proof (digits_value_from_nonneg 0
                (a ++ String b1 (String b2 (String b3 (String b4 EmptyString))))
                ltac:(lia)) as Hpos.
  fold (Str.digits_value 10
          (a ++ String b1 (String b2 (String b3 (String b4 EmptyString))))) in Hpos.
  replace (- 2 ^ 511 <=? _) with true by (symmetry; apply Z.leb_le; lia).
  replace (_ <? 2 ^ 511) with true by (symmetry; apply Z.ltb_lt; lia).
  reflexivity.
Qed.

End Roundtrip.

Module Display.

Import StrFacts Roundtrip.

Lemma scaled_nearest_bounds (m e : Z) :
  0 <= m -> JS.integer_part m e < 10 ^ 21 ->
  0 <= JS.scaled_nearest m e 4 <= 10 ^ 25.
Proof.
  unfold JS.integer_part, JS.scaled_nearest. intros Hm Hw.
  change (10 ^ Z.of_nat 4) with 10000.
  destruct (0 <=? e) eqn:He.
  - apply Z.leb_le in He.
    assert (0 < 2 ^ e) by (apply Z.pow_pos_nonneg; lia).
    split; [nia | lia].
  - apply Z.leb_gt in He.
    assert (Hq : 0 < 2 ^ (- e)) by (apply Z.pow_pos_nonneg; lia).
    replace (2 ^ (1 - e)) with (2 * 2 ^ (- e))
      by (replace (1 - e) with (Z.succ (- e)) by lia;
          rewrite Z.pow_succ_r by lia; reflexivity).
    assert (Hmq : m < 10 ^ 21 * 2 ^ (- e)).
    { pose proof (Z.div_mod m (2 ^ (- e)) ltac:(lia)) as Hdm.
      pose proof (Z.mod_pos_bound m (2 ^ (- e)) Hq) as Hmod.
      nia. }
    split.
    + apply Z.div_pos; nia.
    + apply Z.lt_succ_r. apply Z.div_lt_upper_bound; [lia |]. nia.
Qed.

(** The four-digit display string of a non-negative Number below 10^21
    converts back to the smallest unit as the displayed integer times
    10^14. *)
Lemma parseUnits_toFixed (m e : Z) :
  0 <= m -> JS.integer_part m e < 10 ^ 21 ->
  Ethers.parseUnits (JS.toFixed (JS.Fin false m e) 4) "ether"
  = Some (JS.scaled_nearest m e 4 * 10 ^ 14).
Proof.
  intros Hm Hw.
  destruct (scaled_nearest_bounds m e Hm Hw) as [Hn0 Hn1].
  unfold JS.toFixed. cbn [andb].
  replace (10 ^ 21 <=? JS.integer_part m e) with false
    by (symmetry; apply Z.leb_gt; exact Hw).
  set (n := JS.scaled_nearest m e 4) in *.
  assert (Hds : (if n =? 0 then "0" else Str.of_Z 10 n) = Str.of_Z 10 n).
  { destruct (n =? 0) eqn:Hz; [| reflexivity].
    apply Z.eqb_eq in Hz. rewrite Hz. reflexivity. }
  rewrite Hds.
  destruct (of_Z_spec n Hn0) as (Hne & Hall & Hval).
  set (ds0 := Str.of_Z 10 n) in *.
  set (ds := if (String.length ds0 <=? 4)%nat
             then (Str.repeat "0" (4 + 1 - String.length ds0) ++ ds0)%string
             else ds0).
  assert (Hds_all : Str.all Chars.is_digit ds = true).
  { unfold ds. destruct (String.length ds0 <=? 4)%nat; [| exact Hall].
    rewrite all_append, Hall, all_repeat; reflexivity. }
  assert (Hds_val : Str.digits_value 10 ds = n).
  { unfold ds. destruct (String.length ds0 <=? 4)%nat; [| exact Hval].
    rewrite digits_value_zeros. exact Hval. }
  assert (Hds_len : (5 <= String.length ds)%nat).
  { unfold ds. destruct (String.length ds0 <=? 4)%nat eqn:Hk.
    - apply Nat.leb_le in Hk. rewrite length_append, length_repeat. lia.
    - apply Nat.leb_gt in Hk. lia. }
  cbn [append].
  unfold Ethers.parseUnits.
  change (Ethers.unit_decimals "ether") with (Some 18%nat). cbv iota.
  set (k := String.length ds) in *.
  pose proof (take_drop (k - 4) ds) as Hsplit.
  assert (Hparts : Str.all Chars.is_digit (Str.take (k - 4) ds) = true /\
                   Str.all Chars.is_digit (Str.drop (k - 4) ds) = true).
  { rewrite <- Hsplit in Hds_all. rewrite all_append in Hds_all.
    apply andb_prop in Hds_all. exact Hds_all. }
  destruct Hparts as [Ha Hb].
  rewrite fromString_four_digits; try assumption.
  - rewrite Hsplit, Hds_val. reflexivity.
  - intros Hempty.
    pose proof (length_take (k - 4) ds ltac:(lia)) as Hlt.
    rewrite Hempty in Hlt. cbn in Hlt. lia.
  - rewrite length_drop. fold k. lia.
  - rewrite Hsplit, Hds_val.
    assert (10 ^ 25 * 10 ^ 14 < 2 ^ 511) by (vm_compute; reflexivity).
    nia.
Qed.

End Display.

(* ===================================================================== *)
(** * Validation (validateTransaction) *)
(* ===================================================================== *)

Lemma validateTransaction_run (w : World) (p s : State) (l : list Event) :
  validateTransaction w p s l =
  let r := validation_table (recipientAddress p) (amount p) (balance p) in
  (Return (passes r), with_error (error_message r) s, l).
Proof.
  unfold validateTransaction, validation_table.
  js_unfold.
  destruct (Ethers.isAddress (recipientAddress p)); [| reflexivity].
  destruct (Ethers.parseUnits (amount p) "wei") as [a |]; [| reflexivity].
  destruct (a <=? 0); [reflexivity |].
  destruct (Ethers.parseUnits (balance p) "ether") as [b |]; [| reflexivity].
  destruct (a >? b); reflexivity.
Qed.

(** C1, as amended.  For every recipient, amount and balance string the
    validator checks in a fixed order: an ill-formed recipient gives
    "Invalid recipient address"; otherwise an amount that does not parse
    gives "Invalid amount" and a parsed amount that is zero or negative
    gives "Amount must be greater than 0", both before the balance is
    looked at; otherwise a balance string that does not convert to the
    smallest unit gives "Invalid amount"; otherwise an amount strictly
    greater than the converted balance gives "Insufficient balance";
    otherwise validation succeeds with the error slot empty.  Nothing but
    the error slot changes and no external call is made. *)
Theorem validate_checks_in_order (w : World) (p : State) :
  run (validateTransaction w p) p =
  (Return (passes (validation_table (recipientAddress p) (amount p) (balance p))),
   with_error
     (error_message (validation_table (recipientAddress p) (amount p) (balance p)))
     p,
   []).
Proof.
  unfold run. rewrite validateTransaction_run. reflexivity.
Qed.

(** C1 as stated fails on the query-failure sentinel: with a well-formed
    recipient and the positive amount 1, the balance string "Error" makes
    the validator answer "Invalid amount", where the stated order leaves
    only success. *)
Lemma validate_order_counterexample :
  run (validateTransaction offline (form bob "1" "Error")) (form bob "1" "Error")
  = (Return false, with_error "Invalid amount" (form bob "1" "Error"), []) /\
  run (validateTransaction offline (form bob "1" "Error")) (form bob "1" "Error")
  <> (Return (passes (specified_validation bob "1" "Error")),
      with_error (error_message (specified_validation bob "1" "Error"))
                 (form bob "1" "Error"),
      []).
Proof.
  split; [vm_compute; reflexivity |].
  intros H. vm_compute in H. discriminate H.
Qed.

(** C10, as amended.  When the stored balance string does not convert to
    the smallest unit, a well-formed recipient together with an amount
    that parses to a positive integer (or does not parse at all) is
    answered "Invalid amount"; an ill-formed recipient is still answered
    "Invalid recipient address" and a zero or negative amount "Amount must
    be greater than 0", because those checks run before the balance is
    converted. *)
Theorem unparseable_balance_rejects (w : World) (p : State) :
  Ethers.parseUnits (balance p) "ether" = None ->
  run (validateTransaction w p) p =
  (Return false,
   with_error
     (if Ethers.isAddress (recipientAddress p) then
        match Ethers.parseUnits (amount p) "wei" with
        | Some amountWei =>
            if amountWei <=? 0 then "Amount must be greater than 0"
            else "Invalid amount"
        | None => "Invalid amount"
        end
      else "Invalid recipient address")
     p,
   []).
Proof.
  intros Hbal. unfold run. rewrite validateTransaction_run.
  unfold validation_table. rewrite Hbal.
  destruct (Ethers.isAddress (recipientAddress p)); [| reflexivity].
  destruct (Ethers.parseUnits (amount p) "wei") as [a |]; [| reflexivity].
  destruct (a <=? 0); reflexivity.
Qed.

Lemma unparseable_balance_rejects_witness :
  Ethers.parseUnits "Error" "ether" = None /\
  run (validateTransaction offline (form bob "1" "Error")) (form bob "1" "Error")
  = (Return false, with_error "Invalid amount" (form bob "1" "Error"), []).
Proof.
  split; [reflexivity |].
  exact (unparseable_balance_rejects offline (form bob "1" "Error") eq_refl).
Defined.

(** C10 as stated fails for an ill-formed recipient: with the balance
    sentinel "Error" and an empty recipient field the answer is "Invalid
    recipient address", not "Invalid amount"; and for the amount 0 it is
    "Amount must be greater than 0". *)
Lemma unparseable_balance_counterexample :
  Ethers.parseUnits "Error" "ether" = None /\
  error (state_after (validateTransaction offline (form EmptyString "1" "Error"))
                     (form EmptyString "1" "Error"))
  = "Invalid recipient address" /\
  error (state_after (validateTransaction offline (form bob "0" "Error"))
                     (form bob "0" "Error"))
  = "Amount must be greater than 0" /\
  error (state_after (validateTransaction offline (form EmptyString "1" "Error"))
                     (form EmptyString "1" "Error"))
  <> error_message (Some InvalidAmount).
Proof.
  repeat split; try (vm_compute; reflexivity).
  intros H. vm_compute in H. discriminate H.
Qed.

(* ===================================================================== *)
(** * The balance refresh (getBalance) *)
(* ===================================================================== *)

(** The chain id the refresh compares with: BigInt(parseInt("0x15eb", 16)). *)
Lemma expected_chain :
  JS.BigInt_of_number (JS.parseInt "0x15eb" 16) = Some 5611.
Proof. vm_compute. reflexivity. Qed.

Lemma getBalance_run (w : World) (address : string) (s : State) (l : list Event) :
  getBalance w address s l =
  (fst (fst (refresh w address s)), snd (fst (refresh w address s)),
   (l ++ snd (refresh w address s))%list).
Proof.
  unfold getBalance, refresh. js_unfold.
  cbn [chainId OPBNB_TESTNET_CONFIG]. rewrite expected_chain.
  destruct (ethereum w); cbn [fst snd]; [| now rewrite app_nil_r].
  destruct (getNetwork_result w) as [c | e]; cbn [fst snd];
    [| now rewrite <- app_assoc].
  destruct (c =? 5611); cbn [fst snd]; [| reflexivity].
  destruct (getBalance_result w address) as [wei | e]; cbn [fst snd];
    [| now rewrite <- !app_assoc].
  destruct (Ethers.formatEther wei); cbn [fst snd]; now rewrite <- !app_assoc.
Qed.

(** A refresh never throws, and writes only the balance and network-error
    slots. *)
Lemma refresh_frame (w : World) (address : string) (s : State) :
  let s' := snd (fst (refresh w address s)) in
  (fst (fst (refresh w address s)) = Normal tt \/
   fst (fst (refresh w address s)) = Return tt) /\
  account s' = account s /\ connected s' = connected s /\
  error s' = error s /\ recipientAddress s' = recipientAddress s /\
  amount s' = amount s /\ isLoading s' = isLoading s /\
  txStatus s' = txStatus s /\ txHash s' = txHash s /\
  transactions s' = transactions s.
Proof.
  unfold refresh.
  destruct (ethereum w); [| cbn; tauto].
  destruct (getNetwork_result w) as [c | e]; [| cbn; tauto].
  destruct (c =? 5611); [| cbn; tauto].
  destruct (getBalance_result w address) as [wei | e]; [| cbn; tauto].
  destruct (Ethers.formatEther wei); cbn [fst snd with_networkError with_balance
    account connected error recipientAddress amount isLoading txStatus txHash
    transactions]; tauto.
Qed.

(** The calls of a refresh do not depend on the state it starts from. *)
Lemma refresh_calls_state (w : World) (address : string) (s s' : State) :
  snd (refresh w address s) = snd (refresh w address s').
Proof.
  unfold refresh.
  destruct (ethereum w); [| reflexivity].
  destruct (getNetwork_result w); [| reflexivity].
  destruct (_ =? _); [| reflexivity].
  destruct (getBalance_result w address) as [wei | e]; [| reflexivity].
  destruct (Ethers.formatEther wei); reflexivity.
Qed.

(** The balance and network-error slots after a refresh depend on the
    starting state through those two slots only. *)
Lemma refresh_slots (w : World) (address : string) (s s' : State) :
  balance s = balance s' -> networkError s = networkError s' ->
  balance (snd (fst (refresh w address s)))
    = balance (snd (fst (refresh w address s'))) /\
  networkError (snd (fst (refresh w address s)))
    = networkError (snd (fst (refresh w address s'))).
Proof.
  intros Hb Hn. unfold refresh.
  destruct (ethereum w); [| cbn; tauto].
  destruct (getNetwork_result w) as [c | e]; [| cbn; tauto].
  destruct (c =? 5611); [| cbn; tauto].
  destruct (getBalance_result w address) as [wei | e]; [| cbn; tauto].
  destruct (Ethers.formatEther wei); cbn; tauto.
Qed.

(* ===================================================================== *)
(** * The balance operand of the validator *)
(* ===================================================================== *)

(** C2, as amended.  The amount is parsed to an integer of the smallest
    unit and compared as an integer.  The balance is not kept as an
    integer: a successful refresh stores the four-digit display string
    obtained from the raw balance through parseFloat and toFixed, and the
    validator converts that string back.  For a raw balance whose Number
    value [m * 2^e] is non-negative and below 10^21, the operand is the
    displayed integer [floor (m * 2^e * 10^4 + 1/2)] times 10^14, and a
    well-formed recipient with a positive amount passes exactly when the
    amount does not exceed that operand. *)
Theorem balance_operand_is_display_value
        (w : World) (address : string) (s : State) (wei : Z) (eth : string)
        (m e : Z) :
  ethereum w = true ->
  getNetwork_result w = Resolved 5611 ->
  getBalance_result w address = Resolved wei ->
  Ethers.formatEther wei = Some eth ->
  JS.parseFloat eth = JS.Fin false m e ->
  0 <= m -> JS.integer_part m e < 10 ^ 21 ->
  balance (state_after (getBalance w address) s) = JS.toFixed (JS.parseFloat eth) 4 /\
  balance_operand (state_after (getBalance w address) s)
    = Some (JS.scaled_nearest m e 4 * 10 ^ 14) /\
  forall (p : State) (amountWei : Z),
    balance p = balance (state_after (getBalance w address) s) ->
    Ethers.isAddress (recipientAddress p) = true ->
    Ethers.parseUnits (amount p) "wei" = Some amountWei ->
    0 < amountWei ->
    completion_of (validateTransaction w p) p
    = Return (amountWei <=? JS.scaled_nearest m e 4 * 10 ^ 14).
Proof.
  intros Hw Hnet Hbal Heth Hfloat Hm Hsmall.
  assert (Hstored : balance (state_after (getBalance w address) s)
                    = JS.toFixed (JS.parseFloat eth) 4).
  { unfold state_after, run. rewrite getBalance_run. unfold refresh.
    rewrite Hw, Hnet, Hbal, Heth. reflexivity. }
  assert (Hop : balance_operand (state_after (getBalance w address) s)
                = Some (JS.scaled_nearest m e 4 * 10 ^ 14)).
  { unfold balance_operand. rewrite Hstored, Hfloat.
    apply Display.parseUnits_toFixed; assumption. }
  split; [exact Hstored |]. split; [exact Hop |].
  intros p a Hp Haddr Hamount Hpos.
  unfold completion_of, run. rewrite validateTransaction_run. cbn [fst].
  unfold validation_table. rewrite Haddr, Hamount.
  replace (a <=? 0) with false by (symmetry; apply Z.leb_gt; exact Hpos).
  unfold balance_operand in Hop. rewrite Hp, Hop.
  rewrite Z.gtb_ltb.
  destruct (Z.ltb_spec (JS.scaled_nearest m e 4 * 10 ^ 14) a) as [Hlt | Hge];
    cbn [passes]; f_equal; symmetry; [apply Z.leb_gt | apply Z.leb_le]; lia.
Qed.

Lemma balance_operand_is_display_value_witness :
  balance_operand (state_after (getBalance dust_world alice) initial_state)
  = Some (10 ^ 18).
Proof.
  exact (proj1 (proj2
    (balance_operand_is_display_value dust_world alice initial_state
       (10 ^ 18 + 1) "1.000000000000000001" (2 ^ 52) (-52)
       eq_refl eq_refl eq_refl eq_refl eq_refl
       ltac:(vm_compute; discriminate) ltac:(vm_compute; reflexivity)))).
Defined.

(** C2 as stated fails.  With a raw balance of 10^18 + 1 wei the stored
    balance is "1.0000", the validator's operand is 10^18, and sending
    exactly the raw balance is refused.  With a raw balance of
    2000450000000000000 wei the stored string is "2.0004": the binary64
    value nearest to 2.00045 lies below it, so the display rounds down
    where the decimal itself would round up. *)
Lemma balance_operand_counterexample :
  getBalance_result dust_world alice = Resolved (10 ^ 18 + 1) /\
  balance (state_after (getBalance dust_world alice) initial_state) = "1.0000" /\
  balance_operand (state_after (getBalance dust_world alice) initial_state)
    <> Some (10 ^ 18 + 1) /\
  error (state_after (validateTransaction dust_world (form bob "1000000000000000001" "1.0000"))
                     (form bob "1000000000000000001" "1.0000"))
    = "Insufficient balance" /\
  balance (state_after (getBalance drift_world alice) initial_state) = "2.0004".
Proof.
  split; [reflexivity |].
  split; [vm_compute; reflexivity |].
  split; [intros H; vm_compute in H; discriminate H |].
  split; vm_compute; reflexivity.
Qed.

(* ===================================================================== *)
(** * Submission (sendTransaction) *)
(* ===================================================================== *)

(** C4.  When validation fails, [sendTransaction] returns right after it:
    the only call made is the form event's [preventDefault], so no
    provider request is issued and no transfer is handed to a signer; the
    state is the one validation left, with the validation message in the
    error slot; and the transfer status, hash and loading flag keep their
    values. *)
Theorem failed_validation_stops_submit (w : World) (p : State) :
  completion_of (validateTransaction w p) p = Return false ->
  calls_of (sendTransaction w p) p = [PreventDefault] /\
  forallb (fun ev => negb (contacts_wallet ev)) (calls_of (sendTransaction w p) p) = true /\
  state_after (sendTransaction w p) p = state_after (validateTransaction w p) p /\
  error (state_after (sendTransaction w p) p)
    = error_message (validation_table (recipientAddress p) (amount p) (balance p)) /\
  error (state_after (sendTransaction w p) p) <> EmptyString /\
  txStatus (state_after (sendTransaction w p) p) = txStatus p /\
  txHash (state_after (sendTransaction w p) p) = txHash p /\
  isLoading (state_after (sendTransaction w p) p) = isLoading p.
Proof.
  unfold completion_of, calls_of, state_after, run, sendTransaction.
  js_unfold. rewrite !validateTransaction_run. cbn zeta.
  destruct (validation_table (recipientAddress p) (amount p) (balance p))
    as [e |] eqn:He; cbn [passes fst snd]; [intros _ | discriminate].
  repeat split; destruct e; cbn; discriminate.
Qed.

Lemma failed_validation_stops_submit_witness :
  calls_of (sendTransaction (online (10 ^ 18) JsonNull) (form bob "5" "0.0000"))
           (form bob "5" "0.0000") = [PreventDefault] /\
  error (state_after (sendTransaction (online (10 ^ 18) JsonNull) (form bob "5" "0.0000"))
                     (form bob "5" "0.0000")) = "Insufficient balance".
Proof.
  pose proof (failed_validation_stops_submit (online (10 ^ 18) JsonNull)
                (form bob "5" "0.0000") eq_refl) as H.
  split; [exact (proj1 H) |].
  exact (proj1 (proj2 (proj2 (proj2 H)))).
Defined.

(** C7.  A submission that passes validation ends with the status
    "Transaction confirmed!" or "Transaction failed!".  When it ends
    confirmed, the recipient and amount fields are empty afterwards and a
    balance refresh for the session's account ran after the confirmation:
    its calls close the log and its balance and network-error results are
    the stored ones.  When it ends failed, both fields hold the values
    they had at submission. *)
Theorem confirmed_clears_failed_preserves (w : World) (p : State) :
  completion_of (validateTransaction w p) p = Return true ->
  (txStatus (state_after (sendTransaction w p) p) = "Transaction confirmed!" \/
   txStatus (state_after (sendTransaction w p) p) = "Transaction failed!") /\
  (txStatus (state_after (sendTransaction w p) p) = "Transaction confirmed!" ->
   recipientAddress (state_after (sendTransaction w p) p) = EmptyString /\
   amount (state_after (sendTransaction w p) p) = EmptyString /\
   balance (state_after (sendTransaction w p) p)
     = balance (state_after (getBalance w (account p)) p) /\
   networkError (state_after (sendTransaction w p) p)
     = networkError (state_after (getBalance w (account p)) p) /\
   exists v h,
     calls_of (sendTransaction w p) p
     = ([PreventDefault; GetSigner; SendTransaction (recipientAddress p) v; Wait h]
        ++ calls_of (getBalance w (account p)) p)%list) /\
  (txStatus (state_after (sendTransaction w p) p) = "Transaction failed!" ->
   recipientAddress (state_after (sendTransaction w p) p) = recipientAddress p /\
   amount (state_after (sendTransaction w p) p) = amount p).
Proof.
  intros Hv. unfold completion_of, run in Hv.
  rewrite validateTransaction_run in Hv. cbn [fst] in Hv.
  assert (Hr : validation_table (recipientAddress p) (amount p) (balance p) = None).
  { destruct (validation_table _ _ _); [discriminate | reflexivity]. }
  clear Hv.
  unfold state_after, calls_of, run, sendTransaction.
  js_unfold. rewrite !validateTransaction_run, !getBalance_run. rewrite Hr. js_simpl.
  destruct (ethereum w) eqn:He;
    [| js_simpl; repeat split; auto; discriminate].
  destruct (getSigner_result w) as [[] | e1]; js_simpl;
    [| repeat split; auto; discriminate].
  destruct (Ethers.parseUnits (amount p) "wei") as [v |]; js_simpl;
    [| repeat split; auto; discriminate].
  destruct (sendTransaction_result w (recipientAddress p) v) as [h | e2]; js_simpl;
    [| repeat split; auto; discriminate].
  destruct (wait_result w h) as [[] | e3]; js_simpl;
    [| repeat split; auto; discriminate].
  rewrite getBalance_run.
  match goal with
  | |- context [refresh w (account p) ?s1] =>
      destruct (refresh_frame w (account p) s1)
        as (Hc & _ & _ & _ & Hrc & Ham & _ & Hst & _);
      destruct (refresh_slots w (account p) s1 p eq_refl eq_refl) as (Hb & Hn);
      rewrite (refresh_calls_state w (account p) p s1)
  end.
  destruct Hc as [Hc | Hc]; rewrite Hc; js_simpl; rewrite Hst.
  all: split; [left; reflexivity |].
  all: split; [intros _ | intros H; discriminate H].
  all: repeat split; auto; exists v, h; reflexivity.
Qed.

Lemma confirmed_clears_failed_preserves_witness :
  txStatus (state_after (sendTransaction (online (10 ^ 18) JsonNull) (form bob "5" "1.0000"))
                        (form bob "5" "1.0000")) = "Transaction confirmed!" /\
  recipientAddress
    (state_after (sendTransaction (online (10 ^ 18) JsonNull) (form bob "5" "1.0000"))
                 (form bob "5" "1.0000")) = EmptyString.
Proof.
  pose proof (confirmed_clears_failed_preserves (online (10 ^ 18) JsonNull)
                (form bob "5" "1.0000") eq_refl) as H.
  split; [vm_compute; reflexivity |].
  apply (proj1 (proj2 H)). vm_compute. reflexivity.
Defined.

(* ===================================================================== *)
(** * The network guard (checkAndSwitchNetwork) *)
(* ===================================================================== *)

(** Without a wallet the guard does nothing at all. *)
Lemma checkAndSwitchNetwork_no_wallet (w : World) (s : State) :
  ethereum w = false ->
  run (checkAndSwitchNetwork w) s = (Return tt, s, []).
Proof.
  intros H. unfold run, checkAndSwitchNetwork. js_unfold. rewrite H. reflexivity.
Qed.

(** C5.  With a wallet present, the guard first asks it to switch to chain
    0x15eb.  If that succeeds, the recorded network error is cleared after
    this single request.  If it is rejected with code 4902, and only then,
    one registration request carrying the whole chain configuration
    follows; its success clears the network error and its failure records
    the switch-failed message.  Any other rejection records the
    switch-failed message after the single switch request.  No request is
    repeated, and nothing but the network error slot changes. *)
Theorem network_guard_behaviour (w : World) (s : State) :
  ethereum w = true ->
  match request_result w switch_request with
  | Resolved _ =>
      run (checkAndSwitchNetwork w) s
      = (Normal tt, with_networkError EmptyString s,
         [EthereumRequest switch_request])
  | Rejected e =>
      if has_code e 4902 then
        match request_result w (add_request w) with
        | Resolved _ =>
            run (checkAndSwitchNetwork w) s
            = (Normal tt, with_networkError EmptyString s,
               [EthereumRequest switch_request; EthereumRequest (add_request w)])
        | Rejected _ =>
            run (checkAndSwitchNetwork w) s
            = (Normal tt, with_networkError switch_failed s,
               [EthereumRequest switch_request; EthereumRequest (add_request w)])
        end
      else
        run (checkAndSwitchNetwork w) s
        = (Normal tt, with_networkError switch_failed s,
           [EthereumRequest switch_request])
  end.
Proof.
  intros Hw.
  unfold run, checkAndSwitchNetwork, switch_request, add_request.
  js_unfold. rewrite Hw. cbn [chainId OPBNB_TESTNET_CONFIG].
  destruct (request_result w (wallet_switchEthereumChain "0x15eb")) as [[] | e].
  - reflexivity.
  - destruct (has_code e 4902); [| reflexivity].
    destruct (request_result w _) as [[] | e']; reflexivity.
Qed.

Lemma network_guard_behaviour_witness :
  run (checkAndSwitchNetwork (online 0 JsonNull)) initial_state
  = (Normal tt, initial_state, [EthereumRequest switch_request]).
Proof.
  exact (network_guard_behaviour (online 0 JsonNull) initial_state eq_refl).
Defined.

(* ===================================================================== *)
(** * Wallet events (handleAccountsChanged) *)
(* ===================================================================== *)

(** C6.  When the accountsChanged event delivers no account, the session
    afterwards is disconnected, the account is the empty string and the
    balance is "0", and no call is made.  When it delivers at least one
    account, the account becomes the first one delivered and a balance
    refresh for that address runs on the resulting state; the connection
    flag is the one from before. *)
Theorem accounts_changed_behaviour (w : World) (s : State) :
  (connected (state_after (handleAccountsChanged w []) s) = false /\
   account (state_after (handleAccountsChanged w []) s) = EmptyString /\
   balance (state_after (handleAccountsChanged w []) s) = "0" /\
   calls_of (handleAccountsChanged w []) s = []) /\
  (forall first rest,
     account (state_after (handleAccountsChanged w (first :: rest)) s) = first /\
     connected (state_after (handleAccountsChanged w (first :: rest)) s)
       = connected s /\
     state_after (handleAccountsChanged w (first :: rest)) s
       = state_after (getBalance w first)
           (mkState first (connected s) (error s) (balance s) (networkError s)
              (recipientAddress s) (amount s) (isLoading s) (txStatus s)
              (txHash s) (transactions s)) /\
     calls_of (handleAccountsChanged w (first :: rest)) s
       = calls_of (getBalance w first) s).
Proof.
  split; [repeat split |].
  intros first rest.
  unfold state_after, calls_of, run, handleAccountsChanged.
  js_unfold. rewrite !getBalance_run. cbn [fst snd app].
  set (s1 := mkState first _ _ _ _ _ _ _ _ _ _).
  destruct (refresh_frame w first s1) as (Hc & Ha & Hn & _).
  rewrite (refresh_calls_state w first s s1).
  destruct Hc as [Hc | Hc]; rewrite Hc; cbn [fst snd]; rewrite Ha, Hn;
    repeat split.
Qed.

(* ===================================================================== *)
(** * Transaction history (getLastTransactions) *)
(* ===================================================================== *)

Lemma array_map_format_tx (w : World) (txs : list BSCTransaction)
      (s : State) (l : list Event) :
  array_map (format_tx w (R := unit)) txs s l =
  match format_all txs with
  | Some ts => (Normal ts, s, l)
  | None => (Throw (fault w), s, l)
  end.
Proof.
  induction txs as [| tx r IH]; [reflexivity |].
  cbn [array_map format_all]. unfold format_tx at 1, format_record.
  js_unfold.
  destruct (JS.BigInt (raw_value tx)) as [v |]; [| reflexivity].
  rewrite IH. destruct (format_all r); reflexivity.
Qed.

Lemma format_all_length (l : list BSCTransaction) (ts : list Transaction) :
  format_all l = Some ts -> List.length ts = List.length l.
Proof.
  revert ts. induction l as [| tx r IH]; intros ts H; cbn in H.
  - injection H as <-. reflexivity.
  - destruct (format_record tx); [| discriminate].
    destruct (format_all r) as [ts' |]; [| discriminate].
    injection H as <-. cbn. f_equal. apply IH. reflexivity.
Qed.

Lemma format_all_Forall2 (l : list BSCTransaction) (ts : list Transaction) :
  format_all l = Some ts ->
  Forall2 (fun raw t => format_record raw = Some t) l ts.
Proof.
  revert ts. induction l as [| tx r IH]; intros ts H; cbn in H.
  - injection H as <-. constructor.
  - destruct (format_record tx) as [t |] eqn:Ht; [| discriminate].
    destruct (format_all r) as [ts' |]; [| discriminate].
    injection H as <-. constructor; [exact Ht | apply IH; reflexivity].
Qed.

(** The mapped array exists exactly when BigInt accepts every value. *)
Lemma format_all_accepts (l : list BSCTransaction) (ts : list Transaction) :
  format_all l = Some ts ->
  forallb (fun tx => accepted (JS.BigInt (raw_value tx))) l = true.
Proof.
  revert ts. induction l as [| tx r IH]; intros ts H; [reflexivity |].
  cbn [format_all forallb] in *. unfold format_record in H.
  destruct (JS.BigInt (raw_value tx)); [| discriminate].
  destruct (format_all r) as [ts' |]; [| discriminate].
  cbn [accepted andb]. apply (IH ts'). reflexivity.
Qed.

Lemma format_all_refuses (l : list BSCTransaction) :
  format_all l = None ->
  existsb (fun tx => negb (accepted (JS.BigInt (raw_value tx)))) l = true.
Proof.
  induction l as [| tx r IH]; intros H; [discriminate |].
  cbn [format_all existsb] in *. unfold format_record in H.
  destruct (JS.BigInt (raw_value tx)); [| reflexivity].
  cbn [accepted negb orb].
  destruct (format_all r); [discriminate |]. apply IH. reflexivity.
Qed.

(** What one history fetch does once the explorer has answered [d]. *)
Lemma getLastTransactions_answered (w : World) (address key : string) (d : json)
      (s : State) :
  NEXT_PUBLIC_SCAN w = Some key -> key <> EmptyString ->
  fetch_result w (txlist_url address key) = Resolved (Resolved d) ->
  run (getLastTransactions w address) s =
  match d with
  | JsonNull =>
      (Normal tt, s,
       [Fetch (txlist_url address key); ResponseJson;
        ConsoleError "Error fetching transactions:"])
  | JsonObject st r =>
      if strict_equal st "1" then
        match r with
        | Some txs =>
            match format_all txs with
            | Some ts =>
                (Normal tt, with_transactions ts s,
                 [Fetch (txlist_url address key); ResponseJson])
            | None =>
                (Normal tt, s,
                 [Fetch (txlist_url address key); ResponseJson;
                  ConsoleError "Error fetching transactions:"])
            end
        | None => (Normal tt, s, [Fetch (txlist_url address key); ResponseJson])
        end
      else (Normal tt, s, [Fetch (txlist_url address key); ResponseJson])
  end.
Proof.
  intros Hkey Hne Hfetch.
  unfold run, getLastTransactions. rewrite Hkey.
  destruct key as [| c k]; [contradiction Hne; reflexivity |].
  js_unfold. rewrite Hfetch. cbn [app].
  destruct d as [| st r]; [reflexivity |].
  destruct (strict_equal st "1"); [| reflexivity].
  destruct r as [txs |]; [| reflexivity].
  rewrite array_map_format_tx.
  destruct (format_all txs); reflexivity.
Qed.

(** A fetch answered with status "1" and an array of acceptable records. *)
Lemma getLastTransactions_accepted (w : World) (s : State) (address key : string)
      (l : list BSCTransaction) (ts : list Transaction) :
  NEXT_PUBLIC_SCAN w = Some key -> key <> EmptyString ->
  fetch_result w (txlist_url address key)
    = Resolved (Resolved (JsonObject (Some "1") (Some l))) ->
  format_all l = Some ts ->
  run (getLastTransactions w address) s
  = (Normal tt, with_transactions ts s,
     [Fetch (txlist_url address key); ResponseJson]).
Proof.
  intros Hkey Hne Hfetch Hall.
  rewrite (getLastTransactions_answered w address key _ s Hkey Hne Hfetch).
  cbn [strict_equal String.eqb Ascii.eqb Bool.eqb]. rewrite Hall. reflexivity.
Qed.

(** C8, as amended.  Once the explorer has answered, the fetch completes
    normally and writes neither error slot, whatever the body is.  A body
    whose status is not "1", or whose result is not an array, leaves the
    whole state as it was and nothing is logged: the only calls are the
    request and the body read.  The console is written exactly when
    something throws, which is a body whose properties cannot be read or
    an array holding a value that BigInt rejects; the state is then also
    left as it was.  A status "1" array whose every value BigInt accepts
    replaces the stored history by its mapped records. *)
Theorem explorer_answer_handling (w : World) (s : State)
        (address key : string) (d : json) :
  NEXT_PUBLIC_SCAN w = Some key -> key <> EmptyString ->
  fetch_result w (txlist_url address key) = Resolved (Resolved d) ->
  completion_of (getLastTransactions w address) s = Normal tt /\
  error (state_after (getLastTransactions w address) s) = error s /\
  networkError (state_after (getLastTransactions w address) s) = networkError s /\
  match d with
  | JsonNull =>
      state_after (getLastTransactions w address) s = s /\
      calls_of (getLastTransactions w address) s
        = [Fetch (txlist_url address key); ResponseJson;
           ConsoleError "Error fetching transactions:"]
  | JsonObject st r =>
      match (if strict_equal st "1" then r else None) with
      | None =>
          state_after (getLastTransactions w address) s = s /\
          calls_of (getLastTransactions w address) s
            = [Fetch (txlist_url address key); ResponseJson]
      | Some txs =>
          match format_all txs with
          | None =>
              existsb (fun tx => negb (accepted (JS.BigInt (raw_value tx)))) txs = true /\
              state_after (getLastTransactions w address) s = s /\
              calls_of (getLastTransactions w address) s
                = [Fetch (txlist_url address key); ResponseJson;
                   ConsoleError "Error fetching transactions:"]
          | Some ts =>
              forallb (fun tx => accepted (JS.BigInt (raw_value tx))) txs = true /\
              state_after (getLastTransactions w address) s = with_transactions ts s /\
              calls_of (getLastTransactions w address) s
                = [Fetch (txlist_url address key); ResponseJson]
          end
      end
  end.
Proof.
  intros Hkey Hne Hfetch.
  unfold completion_of, state_after, calls_of.
  rewrite (getLastTransactions_answered w address key d s Hkey Hne Hfetch).
  destruct d as [| st r]; [repeat split |].
  destruct (strict_equal st "1"); [| repeat split].
  destruct r as [txs |]; [| repeat split].
  destruct (format_all txs) as [ts |] eqn:Hall.
  - repeat split. apply format_all_accepts with (ts := ts). exact Hall.
  - repeat split. apply format_all_refuses. exact Hall.
Qed.

Lemma explorer_answer_handling_witness :
  state_after (getLastTransactions (online 0 refused_body) alice) with_history
    = with_history /\
  calls_of (getLastTransactions (online 0 refused_body) alice) with_history
    = [Fetch (txlist_url alice "scan-key"); ResponseJson].
Proof.
  refine (proj2 (proj2 (proj2
    (explorer_answer_handling (online 0 refused_body) with_history
       alice "scan-key" refused_body eq_refl _ eq_refl)))).
  discriminate.
Defined.

(** C8 as stated fails twice.  The answer {status:"0"} is not logged: no
    console call is made.  And an array whose one record has an empty
    value and a timestamp that is no number is stored, as value 0 and
    timestamp NaN, in place of the history held before. *)
Lemma explorer_answer_counterexample :
  (forall label,
     ~ In (ConsoleError label)
          (calls_of (getLastTransactions (online 0 refused_body) alice) with_history)) /\
  transactions with_history = [earlier_transfer] /\
  transactions (state_after (getLastTransactions (online 0 (success_body [blank_record])) alice)
                            with_history)
    = [ {| tx_hash := "0xdead"; tx_from := alice; tx_to := bob;
           tx_value := 0; tx_timestamp := JS.NaN |} ] /\
  transactions (state_after (getLastTransactions (online 0 (success_body [blank_record])) alice)
                            with_history)
    <> transactions with_history.
Proof.
  split; [| split; [| split]].
  - intros label H. vm_compute in H.
    destruct H as [H | [H | []]]; discriminate H.
  - reflexivity.
  - vm_compute. reflexivity.
  - intros H. vm_compute in H. discriminate H.
Qed.

(** C9, as amended.  After a fetch whose answer has status "1" and an
    array of records with acceptable values, the stored history is the
    image of that array under the record conversion: it has the length
    and the order of the payload, whatever they are, and it does not
    depend on the history stored before; no other slot changes.  The cap
    of five and the descending order are requested from the explorer in
    the query string and hold of the stored sequence only when the
    payload has them. *)
Theorem history_is_mapped_payload (w : World) (s : State) (address key : string)
        (l : list BSCTransaction) (ts : list Transaction) :
  NEXT_PUBLIC_SCAN w = Some key -> key <> EmptyString ->
  fetch_result w (txlist_url address key)
    = Resolved (Resolved (JsonObject (Some "1") (Some l))) ->
  format_all l = Some ts ->
  state_after (getLastTransactions w address) s = with_transactions ts s /\
  transactions (state_after (getLastTransactions w address) s) = ts /\
  List.length (transactions (state_after (getLastTransactions w address) s))
    = List.length l /\
  Forall2 (fun raw t => format_record raw = Some t) l
          (transactions (state_after (getLastTransactions w address) s)) /\
  calls_of (getLastTransactions w address) s
    = [Fetch (txlist_url address key); ResponseJson].
Proof.
  intros Hkey Hne Hfetch Hall.
  unfold state_after, calls_of.
  rewrite (getLastTransactions_accepted w s address key l ts Hkey Hne Hfetch Hall).
  cbn [fst snd with_transactions transactions].
  repeat split.
  - apply format_all_length. exact Hall.
  - apply format_all_Forall2. exact Hall.
Qed.

Lemma history_is_mapped_payload_witness :
  List.length
    (transactions (state_after (getLastTransactions (online 0 (success_body six_records)) alice)
                               initial_state)) = 6%nat.
Proof.
  refine (proj1 (proj2 (proj2
    (history_is_mapped_payload (online 0 (success_body six_records)) initial_state
       alice "scan-key" six_records _ eq_refl _ eq_refl eq_refl)))).
  discriminate.
Defined.

(** C9 as stated fails: an accepted payload of six records in ascending
    time order is stored as it came, six long and oldest first. *)
Lemma history_cap_counterexample :
  ~ (List.length
       (transactions (state_after (getLastTransactions (online 0 (success_body six_records)) alice)
                                  initial_state)) <= 5)%nat /\
  most_recent_first
    (transactions (state_after (getLastTransactions (online 0 (success_body six_records)) alice)
                               initial_state)) = false.
Proof.
  split.
  - intros H. vm_compute in H. lia.
  - vm_compute. reflexivity.
Qed.

(** C3, as amended.  The record stored for the sample payload has the
    value 1000000000000000000 and the timestamp 1700000000, and the
    history row prints that value as "1.0"; the four-digit form "1.0000"
    is what the balance display makes of that string. *)
Theorem sample_record_round_trip (w : World) (s : State) (address key : string) :
  NEXT_PUBLIC_SCAN w = Some key -> key <> EmptyString ->
  fetch_result w (txlist_url address key)
    = Resolved (Resolved (success_body [sample_record])) ->
  transactions (state_after (getLastTransactions w address) s)
    = [ {| tx_hash := "0xabc"; tx_from := "0x1"; tx_to := "0x2";
           tx_value := 1000000000000000000;
           tx_timestamp := JS.of_Z 1700000000 |} ] /\
  JS.to_Z (JS.of_Z 1700000000) = Some 1700000000 /\
  List.map render_value (transactions (state_after (getLastTransactions w address) s))
    = [Some "1.0"] /\
  JS.toFixed (JS.parseFloat "1.0") 4 = "1.0000".
Proof.
  intros Hkey Hne Hfetch.
  assert (Hall : format_all [sample_record]
                 = Some [ {| tx_hash := "0xabc"; tx_from := "0x1"; tx_to := "0x2";
                             tx_value := 1000000000000000000;
                             tx_timestamp := JS.of_Z 1700000000 |} ])
    by (vm_compute; reflexivity).
  unfold state_after.
  rewrite (getLastTransactions_accepted w s address key _ _ Hkey Hne Hfetch Hall).
  cbn [fst snd with_transactions transactions].
  repeat split; vm_compute; reflexivity.
Qed.

Lemma sample_record_round_trip_witness :
  List.map render_value
    (transactions (state_after (getLastTransactions (online 0 (success_body [sample_record])) alice)
                               initial_state))
  = [Some "1.0"].
Proof.
  refine (proj1 (proj2 (proj2
    (sample_record_round_trip (online 0 (success_body [sample_record])) initial_state
       alice "scan-key" eq_refl _ eq_refl)))).
  discriminate.
Defined.

(** C3 as stated fails in its last part: the history row prints the
    sample value as "1.0", not "1.0000". *)
Lemma sample_record_counterexample :
  List.map render_value
    (transactions (state_after (getLastTransactions (online 0 (success_body [sample_record])) alice)
                               initial_state))
  <> [Some "1.0000"].
Proof.
  intros H. vm_compute in H. discriminate H.
Qed.

(* ===================================================================== *)
(** * Further properties: the balance refresh *)
(* ===================================================================== *)

(** X1.  On a wallet whose active chain is not 5611 (0x15eb) a refresh
    records "Please switch to opBNB Testnet" and stops there: the balance
    query is never issued and the balance shown before stays in place. *)
Theorem refresh_on_wrong_network (w : World) (address : string) (s : State) (c : Z) :
  ethereum w = true ->
  getNetwork_result w = Resolved c ->
  c <> 5611 ->
  run (getBalance w address) s
  = (Return tt, with_networkError wrong_network s, [GetNetwork]) /\
  balance (state_after (getBalance w address) s) = balance s.
Proof.
  intros Hw Hnet Hc.
  assert (Hrun : run (getBalance w address) s
                 = (Return tt, with_networkError wrong_network s, [GetNetwork])).
  { unfold run. rewrite getBalance_run. unfold refresh. rewrite Hw, Hnet.
    replace (c =? 5611) with false by (symmetry; apply Z.eqb_neq; exact Hc).
    reflexivity. }
  split; [exact Hrun |]. unfold state_after. rewrite Hrun. reflexivity.
Qed.

Lemma refresh_on_wrong_network_witness :
  run (getBalance foreign_chain alice) (form bob "5" "1.0000")
  = (Return tt, with_networkError wrong_network (form bob "5" "1.0000"), [GetNetwork]).
Proof.
  refine (proj1 (refresh_on_wrong_network foreign_chain alice (form bob "5" "1.0000") 97
                   eq_refl eq_refl _)).
  discriminate.
Defined.

(** X2.  When the network lookup is rejected, or the balance query is
    rejected, or the raw balance does not fit formatEther's 512-bit
    format, the refresh swallows the fault: it completes normally, writes
    the sentinel "Error" into the balance slot, leaves every other slot
    (the network error included) as it was, and ends with one console
    message. *)
Theorem refresh_failure_sentinel (w : World) (address : string) (s : State) :
  ethereum w = true ->
  ((exists e, getNetwork_result w = Rejected e) \/
   (getNetwork_result w = Resolved 5611 /\
    ((exists e, getBalance_result w address = Rejected e) \/
     (exists wei, getBalance_result w address = Resolved wei /\
                  Ethers.formatEther wei = None)))) ->
  completion_of (getBalance w address) s = Normal tt /\
  state_after (getBalance w address) s = with_balance "Error" s /\
  exists before,
    calls_of (getBalance w address) s
    = (before ++ [ConsoleError "Error fetching balance:"])%list /\
    forallb contacts_wallet before = true.
Proof.
  intros Hw Hfail.
  unfold completion_of, state_after, calls_of, run.
  rewrite getBalance_run. unfold refresh. rewrite Hw.
  destruct Hfail as [[e He] | [Hnet [[e He] | (wei & Hwei & Hfmt)]]].
  - rewrite He. repeat split. exists [GetNetwork]. split; reflexivity.
  - rewrite Hnet, He. repeat split.
    exists [GetNetwork; GetBalance address]. split; reflexivity.
  - rewrite Hnet, Hwei, Hfmt. repeat split.
    exists [GetNetwork; GetBalance address]. split; reflexivity.
Qed.

Lemma refresh_failure_sentinel_witness :
  state_after (getBalance (online (2 ^ 511) JsonNull) alice) (form bob "5" "1.0000")
  = with_balance "Error" (form bob "5" "1.0000").
Proof.
  refine (proj1 (proj2 (refresh_failure_sentinel (online (2 ^ 511) JsonNull) alice
                          (form bob "5" "1.0000") eq_refl _))).
  right. split; [reflexivity |]. right. exists (2 ^ 511). split; reflexivity.
Defined.

(** X3.  In every world a refresh completes without throwing and writes
    at most the balance and network-error slots; account, connection
    flag, error, form fields, loading flag, status, hash and history are
    the ones from before.  Without a wallet it makes no call and changes
    nothing. *)
Theorem refresh_never_throws (w : World) (address : string) (s : State) :
  (completion_of (getBalance w address) s = Normal tt \/
   completion_of (getBalance w address) s = Return tt) /\
  state_after (getBalance w address) s
  = with_networkError (networkError (state_after (getBalance w address) s))
      (with_balance (balance (state_after (getBalance w address) s)) s) /\
  (if ethereum w then True
   else run (getBalance w address) s = (Return tt, s, [])).
Proof.
  unfold completion_of, state_after, run. rewrite getBalance_run.
  cbn [fst snd app].
  destruct (refresh_frame w address s)
    as (Hc & Ha & Hcn & He & Hr & Ham & Hl & Hst & Hh & Ht).
  split; [exact Hc |]. split.
  - destruct (snd (fst (refresh w address s))) as [a c e b n r am l st h t].
    cbn in *. subst. destruct s; reflexivity.
  - unfold refresh. destruct (ethereum w); [exact I | reflexivity].
Qed.

(** X4.  A refresh repeated against the same answers changes nothing
    more: the state after two refreshes is the state after one.  A poll
    tick that finds the world unchanged is a no-op. *)
Theorem refresh_idempotent (w : World) (address : string) (s : State) :
  state_after (getBalance w address) (state_after (getBalance w address) s)
  = state_after (getBalance w address) s.
Proof.
  unfold state_after, run. rewrite !getBalance_run. cbn [fst snd].
  unfold refresh.
  destruct (ethereum w); [| reflexivity].
  destruct (getNetwork_result w) as [c | e]; [| reflexivity].
  destruct (c =? 5611); [| reflexivity].
  destruct (getBalance_result w address) as [wei | e]; [| reflexivity].
  destruct (Ethers.formatEther wei); reflexivity.
Qed.

(* ===================================================================== *)
(** * Further properties: the chainChanged event *)
(* ===================================================================== *)

(** X5.  A chainChanged event whose id is not literally "0x15eb" records
    the wrong-network message and zeroes the displayed balance without
    any call; the account and the connection flag stay, so the session is
    not disconnected.  The comparison is textual. *)
Theorem chain_changed_elsewhere (w : World) (p s : State) (id : string) :
  id <> "0x15eb" ->
  run (handleChainChanged w p id) s
  = (Normal tt, with_balance "0" (with_networkError wrong_network s), []) /\
  account (state_after (handleChainChanged w p id) s) = account s /\
  connected (state_after (handleChainChanged w p id) s) = connected s.
Proof.
  intros Hid. unfold state_after, run, handleChainChanged.
  cbn [chainId OPBNB_TESTNET_CONFIG].
  replace (String.eqb id "0x15eb") with false
    by (symmetry; apply String.eqb_neq; exact Hid).
  repeat split.
Qed.

Lemma chain_changed_elsewhere_witness :
  run (handleChainChanged offline (form bob "5" "1.0000") "0x15EB") (form bob "5" "1.0000")
  = (Normal tt,
     with_balance "0" (with_networkError wrong_network (form bob "5" "1.0000")), []).
Proof.
  refine (proj1 (chain_changed_elsewhere offline (form bob "5" "1.0000")
                   (form bob "5" "1.0000") "0x15EB" _)).
  discriminate.
Defined.

(** X6.  A chainChanged event with the id "0x15eb" clears the network
    error; with an account in the handler's closure it then runs a
    balance refresh for that account, and with none it makes no call and
    changes nothing else. *)
Theorem chain_changed_home (w : World) (p s : State) :
  match account p with
  | EmptyString =>
      run (handleChainChanged w p "0x15eb") s
      = (Normal tt, with_networkError EmptyString s, [])
  | _ =>
      state_after (handleChainChanged w p "0x15eb") s
      = state_after (getBalance w (account p)) (with_networkError EmptyString s) /\
      calls_of (handleChainChanged w p "0x15eb") s
      = calls_of (getBalance w (account p)) s /\
      completion_of (handleChainChanged w p "0x15eb") s = Normal tt
  end.
Proof.
  unfold state_after, calls_of, completion_of, run, handleChainChanged.
  cbn [chainId OPBNB_TESTNET_CONFIG String.eqb Ascii.eqb Bool.eqb negb].
  destruct (account p) as [| c r] eqn:Hacc; [reflexivity |].
  cbn [JS.nonempty]. unfold with_networkError. js_unfold.
  rewrite !getBalance_run. cbn [fst snd app].
  match goal with
  | |- context [fst (fst (refresh w ?a ?s1))] =>
      rewrite (refresh_calls_state w a s s1);
      destruct (refresh_frame w a s1) as ([Hc | Hc] & _); rewrite Hc
  end; repeat split.
Qed.

(* ===================================================================== *)
(** * Further properties: submission *)
(* ===================================================================== *)

Lemma sendTransaction_run (w : World) (p : State) :
  run (sendTransaction w p) p = submission w p.
Proof.
  unfold run, sendTransaction, submission.
  js_unfold. rewrite !validateTransaction_run.
  destruct (validation_table (recipientAddress p) (amount p) (balance p))
    as [e |]; js_simpl; [reflexivity |].
  destruct (ethereum w); js_simpl; [| reflexivity].
  destruct (getSigner_result w) as [[] | e1]; js_simpl; [| reflexivity].
  destruct (Ethers.parseUnits (amount p) "wei") as [v |]; js_simpl; [| reflexivity].
  destruct (sendTransaction_result w (recipientAddress p) v) as [h | e2]; js_simpl;
    [| reflexivity].
  destruct (wait_result w h) as [[] | e3]; js_simpl; [| reflexivity].
  rewrite getBalance_run.
  match goal with
  | |- context [refresh w (account p) ?s1] =>
      destruct (refresh_frame w (account p) s1)
        as (Hc & Ha & Hcn & He & Hrc & Ham & Hl & Hst & Hh & Ht);
      destruct (refresh_slots w (account p) s1 p eq_refl eq_refl) as (Hb & Hn);
      rewrite (refresh_calls_state w (account p) p s1)
  end.
  cbn [account connected error balance networkError recipientAddress amount
       isLoading txStatus txHash transactions] in Ha, Hcn, He, Hst, Hh, Ht.
  unfold confirmed_state. rewrite <- Hb, <- Hn.
  destruct Hc as [Hc | Hc]; rewrite Hc; js_simpl;
    rewrite Ha, Hcn, He, Hst, Hh, Ht; reflexivity.
Qed.

Lemma validation_passes_inv (r a b : string) :
  validation_table r a b = None ->
  Ethers.isAddress r = true /\
  exists x y, Ethers.parseUnits a "wei" = Some x /\ 0 < x /\
              Ethers.parseUnits b "ether" = Some y /\ x <= y.
Proof.
  unfold validation_table.
  destruct (Ethers.isAddress r); [| discriminate].
  destruct (Ethers.parseUnits a "wei") as [x |]; [| discriminate].
  destruct (x <=? 0) eqn:Hx; [discriminate |].
  destruct (Ethers.parseUnits b "ether") as [y |]; [| discriminate].
  destruct (x >? y) eqn:Hxy; [discriminate |].
  intros _. split; [reflexivity |]. exists x, y.
  apply Z.leb_gt in Hx. rewrite Z.gtb_ltb in Hxy. apply Z.ltb_ge in Hxy.
  repeat split; assumption.
Qed.

(** The calls of a refresh are the network lookup, the balance query and
    console output. *)
Lemma refresh_calls_kinds (w : World) (address : string) (s : State) (ev : Event) :
  In ev (snd (refresh w address s)) ->
  ev = GetNetwork \/ ev = GetBalance address \/
  ev = ConsoleError "Error fetching balance:".
Proof.
  unfold refresh.
  destruct (ethereum w); [| intros []].
  destruct (getNetwork_result w) as [c | e]; cbn [snd In].
  2:{ intuition auto. }
  destruct (c =? 5611); cbn [snd In]; [| intuition auto].
  destruct (getBalance_result w address) as [wei | e]; cbn [snd In];
    [| intuition auto].
  destruct (Ethers.formatEther wei); cbn [snd In]; intuition auto.
Qed.

(** X7.  Whatever is handed to the signer has been validated: a
    [sendTransaction] call of the signer carries the recipient of the
    form, which is a well-formed address, and the amount of the form
    parsed to a positive integer of the smallest unit that does not
    exceed the validator's balance operand. *)
Theorem signer_gets_validated_transfer (w : World) (p : State) (to : string) (v : Z) :
  In (SendTransaction to v) (calls_of (sendTransaction w p) p) ->
  to = recipientAddress p /\
  Ethers.isAddress to = true /\
  Ethers.parseUnits (amount p) "wei" = Some v /\
  0 < v /\
  exists b, balance_operand p = Some b /\ v <= b.
Proof.
  unfold calls_of. rewrite sendTransaction_run. unfold submission.
  destruct (validation_table (recipientAddress p) (amount p) (balance p))
    as [e |] eqn:Hval.
  { cbn. intros [H | []]. discriminate H. }
  destruct (validation_passes_inv _ _ _ Hval) as (Haddr & x & y & Hx & Hpos & Hy & Hle).
  assert (Hgoal : forall v', Ethers.parseUnits (amount p) "wei" = Some v' ->
            SendTransaction (recipientAddress p) v' = SendTransaction to v ->
            to = recipientAddress p /\ Ethers.isAddress to = true /\
            Ethers.parseUnits (amount p) "wei" = Some v /\ 0 < v /\
            exists b, balance_operand p = Some b /\ v <= b).
  { intros v' Hv' Heq. injection Heq as <- <-.
    rewrite Hx in Hv'. injection Hv' as <-.
    repeat split; try assumption. exists y. split; assumption. }
  destruct (ethereum w).
  2:{ cbn. intros [H | [H | []]]; discriminate H. }
  destruct (getSigner_result w) as [[] | e1].
  2:{ cbn. intros [H | [H | [H | []]]]; discriminate H. }
  destruct (Ethers.parseUnits (amount p) "wei") as [v' |] eqn:Hv'.
  2:{ cbn. intros [H | [H | [H | []]]]; discriminate H. }
  destruct (sendTransaction_result w (recipientAddress p) v') as [h | e2].
  2:{ cbn. intros [H | [H | [H | [H | []]]]]; try discriminate H.
      apply (Hgoal v' eq_refl H). }
  destruct (wait_result w h) as [[] | e3].
  2:{ cbn. intros [H | [H | [H | [H | [H | []]]]]]; try discriminate H.
      apply (Hgoal v' eq_refl H). }
  cbn [snd app In]. intros [H | [H | [H | [H | H]]]]; try discriminate H.
  - apply (Hgoal v' eq_refl H).
  - apply refresh_calls_kinds in H. destruct H as [H | [H | H]]; discriminate H.
Qed.

Lemma signer_gets_validated_transfer_witness :
  In (SendTransaction bob 5)
     (calls_of (sendTransaction (online (10 ^ 18) JsonNull) (form bob "5" "1.0000"))
               (form bob "5" "1.0000")) /\
  exists b, balance_operand (form bob "5" "1.0000") = Some b /\ 5 <= b.
Proof.
  assert (Hin : In (SendTransaction bob 5)
                  (calls_of (sendTransaction (online (10 ^ 18) JsonNull)
                                             (form bob "5" "1.0000"))
                            (form bob "5" "1.0000")))
    by (vm_compute; right; right; left; reflexivity).
  split; [exact Hin |].
  exact (proj2 (proj2 (proj2 (proj2
    (signer_gets_validated_transfer (online (10 ^ 18) JsonNull)
       (form bob "5" "1.0000") bob 5 Hin))))).
Defined.

(** X8.  A submission never throws to its caller and never touches the
    account, the connection flag or the history.  When validation passed,
    the loading flag is false at the end whatever happened in between
    (the [finally] block); when validation failed it is left as it was. *)
Theorem submission_settles (w : World) (p : State) :
  (completion_of (sendTransaction w p) p = Normal tt \/
   completion_of (sendTransaction w p) p = Return tt) /\
  account (state_after (sendTransaction w p) p) = account p /\
  connected (state_after (sendTransaction w p) p) = connected p /\
  transactions (state_after (sendTransaction w p) p) = transactions p /\
  isLoading (state_after (sendTransaction w p) p)
  = if passes (validation_table (recipientAddress p) (amount p) (balance p))
    then false else isLoading p.
Proof.
  unfold completion_of, state_after. rewrite sendTransaction_run. unfold submission.
  destruct (validation_table (recipientAddress p) (amount p) (balance p)) as [e |];
    cbn [passes]; [cbn; auto |].
  destruct (ethereum w); [| cbn; auto].
  destruct (getSigner_result w) as [[] | e1]; [| cbn; auto].
  destruct (Ethers.parseUnits (amount p) "wei") as [v |]; [| cbn; auto].
  destruct (sendTransaction_result w (recipientAddress p) v) as [h | e2]; [| cbn; auto].
  destruct (wait_result w h) as [[] | e3]; cbn; auto.
Qed.

(** X9.  Once the wallet has accepted the transfer, its hash stays on
    display even if the confirmation fails: when the signer resolves with
    hash [h] and waiting for the receipt is rejected, the run ends with
    the hash slot holding [h] and the explorer link rendered, the status
    "Transaction failed!", the rejection's message in the error slot (or
    "Transaction failed" when the rejection is not an Error), the form
    fields as submitted, and no balance refresh. *)
Theorem hash_survives_failed_confirmation
        (w : World) (p : State) (v : Z) (h : string) (e : thrown) :
  completion_of (validateTransaction w p) p = Return true ->
  ethereum w = true ->
  (exists u, getSigner_result w = Resolved u) ->
  Ethers.parseUnits (amount p) "wei" = Some v ->
  sendTransaction_result w (recipientAddress p) v = Resolved h ->
  wait_result w h = Rejected e ->
  run (sendTransaction w p) p
  = (Normal tt, failed_state e h p,
     [PreventDefault; GetSigner; SendTransaction (recipientAddress p) v; Wait h;
      ConsoleError "Transaction error:"]) /\
  txHash (state_after (sendTransaction w p) p) = h /\
  status_link (state_after (sendTransaction w p) p)
  = (if JS.nonempty h then Some ("https://testnet.opbnbscan.com/tx/" ++ h)
     else None) /\
  recipientAddress (state_after (sendTransaction w p) p) = recipientAddress p /\
  amount (state_after (sendTransaction w p) p) = amount p /\
  balance (state_after (sendTransaction w p) p) = balance p.
Proof.
  intros Hv Hw [u Hs] Hamt Hsend Hwait.
  unfold completion_of, run in Hv. rewrite validateTransaction_run in Hv.
  cbn [fst] in Hv.
  assert (Hr : validation_table (recipientAddress p) (amount p) (balance p) = None).
  { destruct (validation_table _ _ _); [discriminate | reflexivity]. }
  assert (Hrun : run (sendTransaction w p) p
                 = (Normal tt, failed_state e h p,
                    [PreventDefault; GetSigner;
                     SendTransaction (recipientAddress p) v; Wait h;
                     ConsoleError "Transaction error:"])).
  { rewrite sendTransaction_run. unfold submission.
    rewrite Hr, Hw, Hs, Hamt, Hsend, Hwait. reflexivity. }
  unfold state_after. rewrite Hrun.
  cbn [fst snd failed_state txHash recipientAddress amount balance].
  repeat split.
Qed.

Lemma hash_survives_failed_confirmation_witness :
  txHash (state_after (sendTransaction reverting (form bob "5" "1.0000"))
                      (form bob "5" "1.0000")) = "0xfeed".
Proof.
  exact (proj1 (proj2
    (hash_survives_failed_confirmation reverting (form bob "5" "1.0000") 5 "0xfeed"
       (rejection "transaction execution reverted" None)
       eq_refl eq_refl (ex_intro _ tt eq_refl) eq_refl eq_refl eq_refl))).
Defined.

(** X10.  A submission that passed validation but was stopped before the
    wallet accepted it (no wallet, the signer unavailable, or the send
    rejected, for instance by the user) ends failed with an empty hash
    slot, even if an earlier transfer had left a hash there; the error
    slot holds the message of what stopped it, and no receipt is waited
    for. *)
Theorem rejected_before_acceptance (w : World) (p : State) (v : Z) :
  completion_of (validateTransaction w p) p = Return true ->
  Ethers.parseUnits (amount p) "wei" = Some v ->
  (ethereum w = false \/
   (exists e, getSigner_result w = Rejected e) \/
   (exists e, sendTransaction_result w (recipientAddress p) v = Rejected e)) ->
  txStatus (state_after (sendTransaction w p) p) = "Transaction failed!" /\
  txHash (state_after (sendTransaction w p) p) = EmptyString /\
  status_link (state_after (sendTransaction w p) p) = None /\
  (forall h, ~ In (Wait h) (calls_of (sendTransaction w p) p)) /\
  error (state_after (sendTransaction w p) p)
  = (if ethereum w then
       match getSigner_result w with
       | Rejected e => failure_text e
       | Resolved _ =>
           match sendTransaction_result w (recipientAddress p) v with
           | Rejected e => failure_text e
           | Resolved _ => EmptyString
           end
       end
     else "No wallet found!").
Proof.
  intros Hv Hamt Hstop.
  unfold completion_of, run in Hv. rewrite validateTransaction_run in Hv.
  cbn [fst] in Hv.
  assert (Hr : validation_table (recipientAddress p) (amount p) (balance p) = None).
  { destruct (validation_table _ _ _); [discriminate | reflexivity]. }
  unfold state_after, calls_of. rewrite sendTransaction_run. unfold submission.
  rewrite Hr, Hamt.
  destruct (ethereum w) eqn:Hw.
  2:{ cbn. repeat split; auto. intros h [H | [H | []]]; discriminate H. }
  destruct (getSigner_result w) as [[] | e1] eqn:Hs.
  2:{ cbn. repeat split; auto. intros h [H | [H | [H | []]]]; discriminate H. }
  destruct (sendTransaction_result w (recipientAddress p) v) as [h | e2] eqn:Hsend.
  2:{ cbn. repeat split; auto.
      intros h [H | [H | [H | [H | []]]]]; discriminate H. }
  exfalso. destruct Hstop as [H | [[e H] | [e H]]]; discriminate H.
Qed.

Lemma rejected_before_acceptance_witness :
  txHash (state_after (sendTransaction offline (form bob "5" "1.0000"))
                      (form bob "5" "1.0000")) = EmptyString /\
  error (state_after (sendTransaction offline (form bob "5" "1.0000"))
                     (form bob "5" "1.0000")) = "No wallet found!".
Proof.
  pose proof (rejected_before_acceptance offline (form bob "5" "1.0000") 5
                eq_refl eq_refl (or_introl eq_refl)) as H.
  split; [exact (proj1 (proj2 H)) | exact (proj2 (proj2 (proj2 (proj2 H))))].
Defined.

(** X11.  The receipt is only waited for after the wallet has returned a
    hash: whenever [wait] was called for [h], the signer had been asked
    to send the validated transfer just before and had resolved with [h],
    and [h] is the hash on display afterwards. *)
Theorem wait_follows_hash (w : World) (p : State) (h : string) :
  In (Wait h) (calls_of (sendTransaction w p) p) ->
  txHash (state_after (sendTransaction w p) p) = h /\
  exists v,
    sendTransaction_result w (recipientAddress p) v = Resolved h /\
    firstn 4 (calls_of (sendTransaction w p) p)
    = [PreventDefault; GetSigner; SendTransaction (recipientAddress p) v; Wait h].
Proof.
  unfold calls_of, state_after. rewrite sendTransaction_run. unfold submission.
  destruct (validation_table (recipientAddress p) (amount p) (balance p)) as [e |].
  { cbn. intros [H | []]. discriminate H. }
  destruct (ethereum w).
  2:{ cbn. intros [H | [H | []]]; discriminate H. }
  destruct (getSigner_result w) as [[] | e1].
  2:{ cbn. intros [H | [H | [H | []]]]; discriminate H. }
  destruct (Ethers.parseUnits (amount p) "wei") as [v |].
  2:{ cbn. intros [H | [H | [H | []]]]; discriminate H. }
  destruct (sendTransaction_result w (recipientAddress p) v) as [h' | e2] eqn:Hsend.
  2:{ cbn. intros [H | [H | [H | [H | []]]]]; discriminate H. }
  destruct (wait_result w h') as [[] | e3].
  - cbn [snd fst app In firstn confirmed_state txHash].
    intros [H | [H | [H | [H | H]]]]; try discriminate H.
    + injection H as <-. split; [reflexivity |]. exists v. split; [exact Hsend | reflexivity].
    + apply refresh_calls_kinds in H. destruct H as [H | [H | H]]; discriminate H.
  - cbn [snd fst In firstn failed_state txHash].
    intros [H | [H | [H | [H | [H | []]]]]]; try discriminate H.
    injection H as <-. split; [reflexivity |]. exists v. split; [exact Hsend | reflexivity].
Qed.

Lemma wait_follows_hash_witness :
  txHash (state_after (sendTransaction reverting (form bob "5" "1.0000"))
                      (form bob "5" "1.0000")) = "0xfeed".
Proof.
  exact (proj1 (wait_follows_hash reverting (form bob "5" "1.0000") "0xfeed"
                  ltac:(vm_compute; right; right; right; left; reflexivity))).
Defined.

(** X12.  After a submission that passed validation the status box is
    never absent and never blue: it is green exactly when the status is
    "Transaction confirmed!" and red exactly when it is "Transaction
    failed!", and one of the two is the case. *)
Theorem status_box_after_submission (w : World) (p : State) :
  completion_of (validateTransaction w p) p = Return true ->
  (txStatus (state_after (sendTransaction w p) p) = "Transaction confirmed!" /\
   status_box (state_after (sendTransaction w p) p) = Some StatusGreen) \/
  (txStatus (state_after (sendTransaction w p) p) = "Transaction failed!" /\
   status_box (state_after (sendTransaction w p) p) = Some StatusRed).
Proof.
  intros Hv.
  unfold completion_of, run in Hv. rewrite validateTransaction_run in Hv.
  cbn [fst] in Hv.
  assert (Hr : validation_table (recipientAddress p) (amount p) (balance p) = None).
  { destruct (validation_table _ _ _); [discriminate | reflexivity]. }
  unfold state_after. rewrite sendTransaction_run. unfold submission. rewrite Hr.
  destruct (ethereum w); [| right; split; reflexivity].
  destruct (getSigner_result w) as [[] | e1]; [| right; split; reflexivity].
  destruct (Ethers.parseUnits (amount p) "wei") as [v |]; [| right; split; reflexivity].
  destruct (sendTransaction_result w (recipientAddress p) v) as [h | e2];
    [| right; split; reflexivity].
  destruct (wait_result w h) as [[] | e3]; [left | right]; split; reflexivity.
Qed.

Lemma status_box_after_submission_witness :
  status_box (state_after (sendTransaction reverting (form bob "5" "1.0000"))
                          (form bob "5" "1.0000")) = Some StatusRed.
Proof.
  destruct (status_box_after_submission reverting (form bob "5" "1.0000") eq_refl)
    as [[H _] | [_ H]]; [| exact H].
  vm_compute in H. discriminate H.
Defined.

(** X13.  While the balance slot holds "0" (the first render, a
    disconnect, a chain mismatch) or the failure sentinel "Error", no
    submission gets past validation: the wallet, the signer and the node
    are never contacted, whatever the form fields. *)
Theorem unusable_balance_blocks_submission (w : World) (p : State) :
  balance p = "0" \/ balance p = "Error" ->
  completion_of (validateTransaction w p) p = Return false /\
  calls_of (sendTransaction w p) p = [PreventDefault] /\
  error (state_after (sendTransaction w p) p) <> EmptyString.
Proof.
  intros Hb.
  assert (Hr : exists e, validation_table (recipientAddress p) (amount p) (balance p)
                         = Some e).
  { unfold validation_table.
    destruct (Ethers.isAddress (recipientAddress p)); [| eauto].
    destruct (Ethers.parseUnits (amount p) "wei") as [a |]; [| eauto].
    destruct (a <=? 0) eqn:Ha; [eauto |].
    apply Z.leb_gt in Ha.
    destruct Hb as [-> | ->].
    - change (Ethers.parseUnits "0" "ether") with (Some 0).
      cbv beta iota. rewrite Z.gtb_ltb.
      destruct (Z.ltb_spec 0 a); [eexists; reflexivity | lia].
    - change (Ethers.parseUnits "Error" "ether") with (@None Z).
      eexists; reflexivity. }
  destruct Hr as [e Hr].
  unfold completion_of, calls_of, state_after.
  rewrite sendTransaction_run. unfold run. rewrite validateTransaction_run.
  unfold submission. rewrite Hr. cbn [fst snd passes with_error error].
  repeat split. destruct e; discriminate.
Qed.

Lemma unusable_balance_blocks_submission_witness :
  calls_of (sendTransaction (online (10 ^ 18) JsonNull) (form bob "5" "0"))
           (form bob "5" "0") = [PreventDefault].
Proof.
  exact (proj1 (proj2 (unusable_balance_blocks_submission (online (10 ^ 18) JsonNull)
                         (form bob "5" "0") (or_introl eq_refl)))).
Defined.

(** X14.  The balance check is inclusive: with a well-formed recipient
    and a positive balance operand [b], the amount [b] itself passes
    validation and the amount [b + 1] is refused as "Insufficient
    balance". *)
Theorem whole_balance_is_spendable (w : World) (p q : State) (b : Z) :
  Ethers.isAddress (recipientAddress p) = true ->
  Ethers.isAddress (recipientAddress q) = true ->
  balance_operand p = Some b -> balance_operand q = Some b -> 0 < b ->
  Ethers.parseUnits (amount p) "wei" = Some b ->
  Ethers.parseUnits (amount q) "wei" = Some (b + 1) ->
  run (validateTransaction w p) p = (Return true, with_error EmptyString p, []) /\
  run (validateTransaction w q) q
  = (Return false, with_error "Insufficient balance" q, []).
Proof.
  intros Hp Hq Hbp Hbq Hpos Hap Haq.
  unfold run. rewrite !validateTransaction_run. unfold validation_table.
  unfold balance_operand in Hbp, Hbq.
  rewrite Hp, Hq, Hap, Haq, Hbp, Hbq.
  replace (b <=? 0) with false by (symmetry; apply Z.leb_gt; lia).
  replace (b + 1 <=? 0) with false by (symmetry; apply Z.leb_gt; lia).
  replace (b >? b) with false by (symmetry; rewrite Z.gtb_ltb; apply Z.ltb_ge; lia).
  replace (b + 1 >? b) with true by (symmetry; apply Z.gtb_lt; lia).
  split; reflexivity.
Qed.

Lemma whole_balance_is_spendable_witness :
  run (validateTransaction offline (form bob "1000000000000000000" "1.0000"))
      (form bob "1000000000000000000" "1.0000")
  = (Return true, with_error EmptyString (form bob "1000000000000000000" "1.0000"), []).
Proof.
  exact (proj1 (whole_balance_is_spendable offline
                  (form bob "1000000000000000000" "1.0000")
                  (form bob "1000000000000000001" "1.0000") (10 ^ 18)
                  eq_refl eq_refl eq_refl eq_refl eq_refl eq_refl eq_refl)).
Defined.

(* ===================================================================== *)
(** * Further properties: the history fetch *)
(* ===================================================================== *)

(** X15.  Without an explorer API key (the variable unset or empty) the
    history fetch asks nothing of the network: it writes one console
    message and returns, leaving the state as it was. *)
Theorem history_needs_api_key (w : World) (s : State) (address : string) :
  NEXT_PUBLIC_SCAN w = None \/ NEXT_PUBLIC_SCAN w = Some EmptyString ->
  run (getLastTransactions w address) s
  = (Return tt, s, [ConsoleError "BSC API key not found"]).
Proof.
  intros [H | H]; unfold run, getLastTransactions; rewrite H; reflexivity.
Qed.

Lemma history_needs_api_key_witness :
  run (getLastTransactions offline alice) (form bob "5" "1.0000")
  = (Return tt, form bob "5" "1.0000", [ConsoleError "BSC API key not found"]).
Proof.
  exact (history_needs_api_key offline (form bob "5" "1.0000") alice (or_introl eq_refl)).
Defined.

(** X16.  When the request to the explorer fails in transit, or its body
    cannot be read as JSON, the fetch completes normally with the state
    untouched and one console message after the calls made. *)
Theorem history_transport_failure (w : World) (s : State) (address key : string) :
  NEXT_PUBLIC_SCAN w = Some key -> key <> EmptyString ->
  ((exists e, fetch_result w (txlist_url address key) = Rejected e) \/
   (exists e, fetch_result w (txlist_url address key) = Resolved (Rejected e))) ->
  completion_of (getLastTransactions w address) s = Normal tt /\
  state_after (getLastTransactions w address) s = s /\
  exists before,
    calls_of (getLastTransactions w address) s
    = (before ++ [ConsoleError "Error fetching transactions:"])%list /\
    (before = [Fetch (txlist_url address key)] \/
     before = [Fetch (txlist_url address key); ResponseJson]).
Proof.
  intros Hkey Hne Hfail.
  unfold completion_of, state_after, calls_of, run, getLastTransactions.
  rewrite Hkey. destruct key as [| c k]; [contradiction Hne; reflexivity |].
  js_unfold. cbn [app].
  destruct Hfail as [[e He] | [e He]]; rewrite He; cbn [fst snd app]; repeat split.
  - exists [Fetch (txlist_url address (String c k))]. split; [reflexivity | left; reflexivity].
  - exists [Fetch (txlist_url address (String c k)); ResponseJson].
    split; [reflexivity | right; reflexivity].
Qed.

Lemma history_transport_failure_witness :
  state_after (getLastTransactions unreachable_explorer alice) (form bob "5" "1.0000")
  = form bob "5" "1.0000".
Proof.
  refine (proj1 (proj2 (history_transport_failure unreachable_explorer
                          (form bob "5" "1.0000") alice "scan-key" eq_refl _ _))).
  - discriminate.
  - left. eexists. reflexivity.
Defined.

(** X17.  In every world the history fetch completes without throwing,
    issues at most one request, and writes at most the history slot:
    every other slot is the one from before. *)
Theorem history_fetch_frame (w : World) (s : State) (address : string) :
  (completion_of (getLastTransactions w address) s = Normal tt \/
   completion_of (getLastTransactions w address) s = Return tt) /\
  state_after (getLastTransactions w address) s
  = with_transactions (transactions (state_after (getLastTransactions w address) s)) s /\
  (List.length (List.filter (fun ev => match ev with Fetch _ => true | _ => false end)
                            (calls_of (getLastTransactions w address) s)) <= 1)%nat.
Proof.
  assert (Hs : s = with_transactions (transactions s) s) by (destruct s; reflexivity).
  unfold completion_of, state_after, calls_of.
  destruct (NEXT_PUBLIC_SCAN w) as [[| c k] |] eqn:Hkey.
  - unfold run, getLastTransactions. rewrite Hkey. cbn. repeat split; auto.
  - destruct (fetch_result w (txlist_url address (String c k))) as [[d | e] | e] eqn:Hf.
    + rewrite (getLastTransactions_answered w address (String c k) d s Hkey
                 ltac:(discriminate) Hf).
      destruct d as [| st r]; [cbn; repeat split; auto |].
      destruct (strict_equal st "1"); [| cbn; repeat split; auto].
      destruct r as [txs |]; [| cbn; repeat split; auto].
      destruct (format_all txs); cbn; repeat split; auto.
    + unfold run, getLastTransactions. rewrite Hkey. js_unfold. rewrite Hf.
      cbn. repeat split; auto.
    + unfold run, getLastTransactions. rewrite Hkey. js_unfold. rewrite Hf.
      cbn. repeat split; auto.
  - unfold run, getLastTransactions. rewrite Hkey. cbn. repeat split; auto.
Qed.

(* ===================================================================== *)
(** * Further properties: connecting *)
(* ===================================================================== *)

(** The network guard never throws and writes only the network-error
    slot. *)
Lemma guard_frame (w : World) (s : State) :
  exists c n l,
    checkAndSwitchNetwork w s [] = (c, with_networkError n s, l) /\
    (c = Normal tt \/ c = Return tt).
Proof.
  unfold checkAndSwitchNetwork. js_unfold. cbn [chainId OPBNB_TESTNET_CONFIG app].
  destruct (ethereum w).
  2:{ exists (Return tt), (networkError s), []. split; [destruct s; reflexivity | auto]. }
  destruct (request_result w (wallet_switchEthereumChain "0x15eb")) as [[] | e].
  { eexists _, EmptyString, _. split; [reflexivity | auto]. }
  destruct (has_code e 4902).
  - destruct (request_result w _) as [[] | e'].
    + eexists _, EmptyString, _. split; [reflexivity | auto].
    + eexists _, _, _. split; [reflexivity | auto].
  - eexists _, _, _. split; [reflexivity | auto].
Qed.

(** X18.  Connecting without a wallet makes no call at all: it records
    "No wallet found! Please install MetaMask." in the error slot, sets
    the connection flag to false and changes nothing else. *)
Theorem connect_without_wallet (w : World) (answer : outcome Accounts) (s : State) :
  ethereum w = false ->
  run_connect (connectWallet w answer) s
  = (Normal tt,
     mkState (account s) false "No wallet found! Please install MetaMask."
       (balance s) (networkError s) (recipientAddress s) (amount s) (isLoading s)
       (txStatus s) (txHash s) (transactions s),
     []).
Proof.
  intros Hw. unfold run_connect, connectWallet, connect_try_catch, connect_bind, inner.
  rewrite Hw. reflexivity.
Qed.

Lemma connect_without_wallet_witness :
  run_connect (connectWallet offline (Rejected (rejection "offline" None))) initial_state
  = (Normal tt,
     mkState EmptyString false "No wallet found! Please install MetaMask."
       "0" EmptyString EmptyString EmptyString false EmptyString EmptyString [],
     []).
Proof.
  exact (connect_without_wallet offline (Rejected (rejection "offline" None))
           initial_state eq_refl).
Defined.

(** X19.  When the account request is rejected, the session stays
    disconnected: the connection flag is false, the error slot holds the
    rejection's message (or "An unknown error occurred" when the
    rejection is not an Error), the account and the balance are as they
    were, and after the guard's calls and the account request nothing
    more is called. *)
Theorem connect_rejected (w : World) (e : thrown) (s : State) :
  ethereum w = true ->
  run_connect (connectWallet w (Rejected e)) s
  = (Normal tt,
     mkState (account s) false
       (if is_Error e then message e else "An unknown error occurred")
       (balance s) (networkError (state_after (checkAndSwitchNetwork w) s))
       (recipientAddress s) (amount s) (isLoading s) (txStatus s) (txHash s)
       (transactions s),
     (List.map Logged (calls_of (checkAndSwitchNetwork w) s) ++ [RequestAccounts])%list).
Proof.
  intros Hw.
  unfold run_connect, connectWallet, connect_try_catch, connect_bind, inner,
    request_accounts, state_after, calls_of, run.
  rewrite Hw. js_unfold.
  destruct (guard_frame w s) as (c & n & l & Hg & [-> | ->]); rewrite Hg;
    cbn [fst snd app List.map with_networkError account connected error balance
         networkError recipientAddress amount isLoading txStatus txHash transactions];
    rewrite ?app_nil_r; reflexivity.
Qed.

Lemma connect_rejected_witness :
  connected (connect_state
     (connectWallet (online 0 JsonNull)
        (Rejected (mkThrown false "User rejected the request." (Some 4001))))
     (form bob "5" "1.0000")) = false.
Proof.
  unfold connect_state.
  rewrite (connect_rejected (online 0 JsonNull)
             (mkThrown false "User rejected the request." (Some 4001))
             (form bob "5" "1.0000") eq_refl).
  reflexivity.
Defined.

(** X20.  When the account request is granted, whatever the network guard
    achieved before it, the session is connected: the account is the
    first address returned, the connection flag is true, the error slot
    is empty, and a balance refresh for that address closes the run.  The
    calls are the guard's, then the account request, then the
    refresh's. *)
Theorem connect_granted (w : World) (accounts : Accounts) (s : State) :
  ethereum w = true ->
  fst (fst (run_connect (connectWallet w (Resolved accounts)) s)) = Normal tt /\
  connect_state (connectWallet w (Resolved accounts)) s
  = state_after (getBalance w (first_account accounts))
      (granted (first_account accounts) (state_after (checkAndSwitchNetwork w) s)) /\
  account (connect_state (connectWallet w (Resolved accounts)) s)
  = first_account accounts /\
  connected (connect_state (connectWallet w (Resolved accounts)) s) = true /\
  error (connect_state (connectWallet w (Resolved accounts)) s) = EmptyString /\
  connect_calls (connectWallet w (Resolved accounts)) s
  = (List.map Logged (calls_of (checkAndSwitchNetwork w) s)
     ++ [RequestAccounts]
     ++ List.map Logged (calls_of (getBalance w (first_account accounts)) s))%list.
Proof.
  intros Hw.
  unfold connect_state, connect_calls, run_connect, connectWallet, connect_try_catch,
    connect_bind, inner, request_accounts, state_after, calls_of, run, granted.
  rewrite Hw. js_unfold.
  destruct (guard_frame w s) as (c & n & l & Hg & Hc). rewrite Hg.
  destruct Hc as [-> | ->];
    cbn [fst snd app List.map with_networkError account connected error balance
         networkError recipientAddress amount isLoading txStatus txHash transactions];
    rewrite !getBalance_run;
    cbn [fst snd app];
    match goal with
    | |- context [fst (fst (refresh w ?a ?s1))] =>
        rewrite (refresh_calls_state w a s s1);
        destruct (refresh_frame w a s1) as (Hr & Ha & Hcn & He & _)
    end;
    cbn [account connected error] in Ha, Hcn, He;
    destruct Hr as [Hr | Hr]; rewrite Hr;
    cbn [fst snd app List.map]; rewrite Ha, Hcn, He;
    repeat split; rewrite ?app_nil_r, <- ?app_assoc; reflexivity.
Qed.

Lemma connect_granted_witness :
  account (connect_state
             (connectWallet foreign_chain (Resolved (mkAccounts alice [bob])))
             initial_state) = alice /\
  networkError (connect_state
             (connectWallet foreign_chain (Resolved (mkAccounts alice [bob])))
             initial_state) = wrong_network.
Proof.
  split.
  - exact (proj1 (proj2 (proj2
      (connect_granted foreign_chain (mkAccounts alice [bob]) initial_state eq_refl)))).
  - vm_compute. reflexivity.
Defined.

(* ===================================================================== *)
(** * From the raw balance to the displayed one *)
(* ===================================================================== *)

Module EtherText.
Import StrFacts Roundtrip.

Lemma list_of_append (a b : string) :
  list_ascii_of_string (a ++ b)
  = (list_ascii_of_string a ++ list_ascii_of_string b)%list.
Proof. induction a as [| c a IH]; cbn; [reflexivity | now rewrite IH]. Qed.

Lemma rev_append (a b : string) :
  Str.rev (a ++ b) = (Str.rev b ++ Str.rev a)%string.
Proof.
  unfold Str.rev. now rewrite list_of_append, rev_app_distr, of_list_app.
Qed.

Lemma list_of_repeat (c : ascii) (n : nat) :
  list_ascii_of_string (Str.repeat c n) = List.repeat c n.
Proof. induction n as [| n IH]; cbn; [reflexivity | now rewrite IH]. Qed.

Lemma rev_list_repeat (c : ascii) (n : nat) :
  List.rev (List.repeat c n) = List.repeat c n.
Proof.
  induction n as [| n IH]; [reflexivity |].
  cbn [List.repeat List.rev]. rewrite IH. symmetry. apply repeat_cons.
Qed.

Lemma rev_repeat (c : ascii) (n : nat) : Str.rev (Str.repeat c n) = Str.repeat c n.
Proof.
  unfold Str.rev. rewrite list_of_repeat, rev_list_repeat, <- list_of_repeat.
  apply string_of_list_ascii_of_string.
Qed.

Lemma rev_nonempty (s : string) : s <> EmptyString -> Str.rev s <> EmptyString.
Proof.
  intros Hs H. apply Hs. rewrite <- (rev_rev s), H. reflexivity.
Qed.

(** Trailing zeros multiply the value read by a power of ten. *)
Lemma digits_value_trailing (s : string) (z : nat) :
  Str.digits_value 10 (s ++ Str.repeat "0" z)
  = Str.digits_value 10 s * 10 ^ Z.of_nat z.
Proof.
  unfold Str.digits_value. rewrite digits_value_from_append.
  generalize (Str.digits_value_from 10 0 s). intros acc.
  revert acc. induction z as [| z IH]; intros acc.
  - cbn. lia.
  - cbn [Str.repeat Str.digits_value_from].
    change (Chars.digit_value 10 "0") with (Some 0). cbv iota.
    rewrite IH, Nat2Z.inj_succ, Z.pow_succ_r by lia. lia.
Qed.

(** What trim_whole removes is a run of leading zeros, and it leaves a
    digit. *)
Lemma trim_whole_zeros (s : string) :
  exists z, s = (Str.repeat "0" z ++ Ethers.trim_whole s)%string /\
            (s <> EmptyString -> Ethers.trim_whole s <> EmptyString).
Proof.
  induction s as [| c r IH].
  - exists O. split; [reflexivity | intros H; exact H].
  - destruct r as [| c' r'].
    + exists O. split; [reflexivity | discriminate].
    + cbn [Ethers.trim_whole].
      destruct (Ascii.eqb c "0") eqn:Hc.
      * apply Ascii.eqb_eq in Hc. subst c.
        destruct IH as (z & Hz & Hne). exists (S z). split.
        -- cbn [Str.repeat append]. f_equal. exact Hz.
        -- intros _. apply Hne. discriminate.
      * exists O. split; [reflexivity | discriminate].
Qed.

Lemma trim_fraction_zeros (s : string) :
  exists z, s = (Ethers.trim_fraction s ++ Str.repeat "0" z)%string /\
            (s <> EmptyString -> Ethers.trim_fraction s <> EmptyString).
Proof.
  unfold Ethers.trim_fraction.
  destruct (trim_whole_zeros (Str.rev s)) as (z & Hz & Hne).
  exists z. split.
  - rewrite <- (rev_rev s) at 1. rewrite Hz at 1.
    now rewrite rev_append, rev_repeat.
  - intros Hs. apply rev_nonempty. apply Hne. apply rev_nonempty. exact Hs.
Qed.

Lemma pad_left_spec (fuel : nat) (str : string) :
  Str.all Chars.is_digit str = true ->
  Str.all Chars.is_digit (Ethers.pad_left fuel 18 str) = true /\
  Str.digits_value 10 (Ethers.pad_left fuel 18 str) = Str.digits_value 10 str /\
  (18 < String.length str + 4 * fuel -> 18 < String.length (Ethers.pad_left fuel 18 str))%nat.
Proof.
  revert str. induction fuel as [| fuel IH]; intros str Hall.
  - cbn. repeat split; [exact Hall | lia].
  - cbn [Ethers.pad_left].
    destruct (String.length str <=? 18)%nat eqn:Hlen.
    + destruct (IH ("0000" ++ str)%string) as (Ha & Hv & Hl).
      { cbn. exact Hall. }
      repeat split; [exact Ha | |].
      * rewrite Hv. apply (digits_value_zeros 4 str).
      * intros Hf. apply Hl. cbn [append String.length]. lia.
    + apply Nat.leb_gt in Hlen. repeat split; [exact Hall | lia].
Qed.

(** The text of a non-negative fixed-point value with 18 decimals: a
    digit string, a point, a digit string of at most 18 digits, reading
    as the value once its trimmed zeros are put back. *)
Lemma toString_shape (val : Z) :
  0 <= val ->
  exists W F z,
    Ethers.toString val 18 = (W ++ String "." F)%string /\
    W <> EmptyString /\ Str.all Chars.is_digit W = true /\
    F <> EmptyString /\ Str.all Chars.is_digit F = true /\
    (String.length F + z = 18)%nat /\
    Str.digits_value 10 (W ++ F) * 10 ^ Z.of_nat z = val.
Proof.
  intros Hval. unfold Ethers.toString.
  replace (val <? 0) with false by (symmetry; apply Z.ltb_ge; exact Hval).
  rewrite Z.abs_eq by exact Hval.
  destruct (of_Z_spec val Hval) as (Hne & Hall & Hv).
  destruct (pad_left_spec 19 (Str.of_Z 10 val) Hall) as (Hpa & Hpv & Hpl).
  assert (Hlen : (18 < String.length (Ethers.pad_left 19 18 (Str.of_Z 10 val)))%nat)
    by (apply Hpl; lia).
  set (padded := Ethers.pad_left 19 18 (Str.of_Z 10 val)) in *.
  set (index := (String.length padded - 18)%nat).
  pose proof (take_drop index padded) as Hsplit.
  assert (Hparts : Str.all Chars.is_digit (Str.take index padded) = true /\
                   Str.all Chars.is_digit (Str.drop index padded) = true).
  { rewrite <- Hsplit in Hpa. rewrite all_append in Hpa.
    apply andb_prop in Hpa. exact Hpa. }
  destruct Hparts as [Hwa Hfa].
  assert (Hwl : String.length (Str.take index padded) = index)
    by (apply length_take; unfold index; lia).
  assert (Hfl : String.length (Str.drop index padded) = 18%nat)
    by (rewrite length_drop; unfold index; lia).
  destruct (trim_whole_zeros (Str.take index padded)) as (z1 & Hz1 & Hn1).
  destruct (trim_fraction_zeros (Str.drop index padded)) as (z2 & Hz2 & Hn2).
  exists (Ethers.trim_whole (Str.take index padded)),
         (Ethers.trim_fraction (Str.drop index padded)), z2.
  cbn [append].
  assert (Hwne : Str.take index padded <> EmptyString).
  { intros H. rewrite H in Hwl. change (String.length EmptyString) with O in Hwl.
    unfold index in Hwl. lia. }
  assert (Hfne : Str.drop index padded <> EmptyString).
  { intros H. rewrite H in Hfl. discriminate Hfl. }
  split; [reflexivity |].
  split; [exact (Hn1 Hwne) |].
  split.
  { rewrite Hz1 in Hwa. rewrite all_append in Hwa.
    apply andb_prop in Hwa. exact (proj2 Hwa). }
  split; [exact (Hn2 Hfne) |].
  split.
  { rewrite Hz2 in Hfa. rewrite all_append in Hfa.
    apply andb_prop in Hfa. exact (proj1 Hfa). }
  split.
  { rewrite Hz2 in Hfl at 1. rewrite length_append, length_repeat in Hfl. exact Hfl. }
  set (W := Ethers.trim_whole (Str.take index padded)) in *.
  set (F := Ethers.trim_fraction (Str.drop index padded)) in *.
  assert (Hpad : padded = ((Str.repeat "0" z1 ++ W) ++ (F ++ Str.repeat "0" z2))%string)
    by (rewrite <- Hz1, <- Hz2; symmetry; exact Hsplit).
  transitivity (Str.digits_value 10 padded); [| rewrite Hpv; exact Hv].
  transitivity (Str.digits_value 10
                  ((Str.repeat "0" z1 ++ W) ++ (F ++ Str.repeat "0" z2)));
    [| f_equal; symmetry; exact Hpad].
  rewrite append_assoc, digits_value_zeros.
  rewrite <- append_assoc, digits_value_trailing. reflexivity.
Qed.

End EtherText.

Module FloatText.
Import StrFacts Roundtrip.

Lemma digit_is_plain (c : ascii) :
  Chars.is_digit c = true ->
  Ascii.eqb "I" c = false /\
  forall r : string,
    match String c r with
    | String "-" t => (true, t)
    | String "+" t => (false, t)
    | _ => (false, String c r)
    end = (false, String c r).
Proof.
  destruct c as [[] [] [] [] [] [] [] []]; intros H;
    solve [discriminate H | split; [reflexivity | intros r; reflexivity]].
Qed.

(** parseFloat on digits, a point and digits reads the decimal and rounds
    it to the nearest Number. *)
Lemma parseFloat_decimal (W F : string) :
  W <> EmptyString -> Str.all Chars.is_digit W = true ->
  F <> EmptyString -> Str.all Chars.is_digit F = true ->
  JS.parseFloat (W ++ String "." F)
  = JS.round_ratio false (Str.digits_value 10 (W ++ F))
      (10 ^ Z.of_nat (String.length F)).
Proof.
  intros HW HWa HF HFa.
  unfold JS.parseFloat, JS.trim_start.
  destruct W as [| c W']; [contradiction HW; reflexivity |].
  pose proof HWa as HWa'. cbn [Str.all] in HWa'. apply andb_prop in HWa' as [Hc _].
  destruct (digit_facts c Hc) as (_ & _ & _ & _ & Hsp & _).
  destruct (digit_is_plain c Hc) as [HI Hsign].
  cbn [append Str.drop_while]. rewrite Hsp, Hsign.
  cbn [Str.strip_prefix]. rewrite HI.
  change (String c (W' ++ String "." F)) with ((String c W') ++ String "." F)%string.
  rewrite (span_stop Chars.is_digit (String c W') "." F HWa eq_refl).
  rewrite (span_all Chars.is_digit F HFa).
  cbn [JS.nonempty negb andb JS.exponent_part].
  unfold Str.len.
  assert (Hlen : (0 < String.length F)%nat)
    by (destruct F; [contradiction HF; reflexivity | cbn; lia]).
  replace (0 <=? 0 - Z.of_nat (String.length F)) with false
    by (symmetry; apply Z.leb_gt; lia).
  replace (- (0 - Z.of_nat (String.length F))) with (Z.of_nat (String.length F)) by lia.
  reflexivity.
Qed.

End FloatText.

Module FloatBounds.

Lemma pow2_split (a b : Z) : 0 <= a -> 0 <= b -> 2 ^ (a + b) = 2 ^ a * 2 ^ b.
Proof. intros. apply Z.pow_add_r; assumption. Qed.

(** Rounding a positive ratio below 2^50 with a denominator below 2^60:
    the result is a normal Number [m / 2^t] within half a unit in the last
    place of the ratio. *)
Lemma round_ratio_small (n d : Z) :
  0 < n -> 0 < d -> d < 2 ^ 60 -> n < 2 ^ 50 * d ->
  exists m t,
    JS.round_ratio false n d = JS.Fin false m (- t) /\
    0 < t <= 1074 /\ 2 ^ 52 <= m < 2 ^ 53 /\
    2 * Z.abs (m * d - n * 2 ^ t) <= d.
Proof.
  intros Hn Hd Hd60 Hnd.
  pose proof (Z.log2_spec n Hn) as [HnL HnU].
  pose proof (Z.log2_spec d Hd) as [HdL HdU].
  pose proof (Z.log2_nonneg n) as Hln0.
  pose proof (Z.log2_nonneg d) as Hld0.
  set (ln := Z.log2 n) in *. set (ld := Z.log2 d) in *.
  assert (Hld : ld <= 59).
  { destruct (Z_le_gt_dec ld 59) as [H | H]; [exact H | exfalso].
    assert (2 ^ 60 <= 2 ^ ld) by (apply Z.pow_le_mono_r; lia). lia. }
  assert (Hk : ln - ld <= 50).
  { destruct (Z_le_gt_dec (ln - ld) 50) as [H | H]; [exact H | exfalso].
    assert (2 ^ (ld + 51) <= 2 ^ ln) by (apply Z.pow_le_mono_r; lia).
    rewrite pow2_split in H0 by lia.
    replace (Z.succ ld) with (ld + 1) in HdU by lia.
    rewrite pow2_split in HdU by lia. change (2 ^ 1) with 2 in HdU.
    change (2 ^ 51) with (2 * 2 ^ 50) in H0. nia. }
  set (t1 := 53 - (ln - ld)).
  assert (Ht1 : 3 <= t1 <= 112) by (unfold t1; lia).
  (* n * 2^t1 lies in [2^52 d, 2^54 d) *)
  assert (HP : 2 ^ ln * 2 ^ t1 = 2 ^ 53 * 2 ^ ld).
  { rewrite <- !pow2_split by lia. f_equal. unfold t1. lia. }
  assert (Hp1 : 0 < 2 ^ t1) by (apply Z.pow_pos_nonneg; lia).
  replace (Z.succ ln) with (ln + 1) in HnU by lia.
  replace (Z.succ ld) with (ld + 1) in HdU by lia.
  rewrite pow2_split in HnU, HdU by lia. change (2 ^ 1) with 2 in HnU, HdU.
  assert (Hlo1 : 2 ^ 52 * d < n * 2 ^ t1) by (change (2 ^ 53) with (2 * 2 ^ 52) in HP; nia).
  assert (Hhi1 : n * 2 ^ t1 < 2 ^ 54 * d) by (change (2 ^ 54) with (2 * 2 ^ 53); nia).
  (* the tail of the computation at an exponent -t with n 2^t in [2^52 d, 2^53 d) *)
  assert (Htail : forall t, 2 <= t <= 112 ->
            2 ^ 52 * d <= n * 2 ^ t < 2 ^ 53 * d ->
            forall m0,
              m0 = (if 2 * ((n * 2 ^ t) mod d) <? d then n * 2 ^ t / d
                    else if d <? 2 * ((n * 2 ^ t) mod d) then n * 2 ^ t / d + 1
                    else if Z.even (n * 2 ^ t / d) then n * 2 ^ t / d
                    else n * 2 ^ t / d + 1) ->
            exists m t',
              (let '(m1, e) := if m0 =? 2 ^ 53 then (2 ^ 52, - t + 1) else (m0, - t) in
               if 971 <? e then JS.Inf false else JS.Fin false m1 e)
              = JS.Fin false m (- t') /\
              0 < t' <= 1074 /\ 2 ^ 52 <= m < 2 ^ 53 /\
              2 * Z.abs (m * d - n * 2 ^ t') <= d).
  { intros t Ht [Hlo Hhi] m0 Hm0.
    assert (Hpt : 0 < 2 ^ t) by (apply Z.pow_pos_nonneg; lia).
    pose proof (Z.div_mod (n * 2 ^ t) d ltac:(lia)) as Hdm.
    pose proof (Z.mod_pos_bound (n * 2 ^ t) d Hd) as Hmod.
    set (q := n * 2 ^ t / d) in *. set (r := (n * 2 ^ t) mod d) in *.
    assert (Hq : 2 ^ 52 <= q < 2 ^ 53) by nia.
    assert (Hm : (m0 = q \/ m0 = q + 1) /\ 2 * Z.abs (m0 * d - n * 2 ^ t) <= d).
    { subst m0.
      destruct (Z.ltb_spec (2 * r) d); [split; [auto | nia] |].
      destruct (Z.ltb_spec d (2 * r)); [split; [auto | nia] |].
      destruct (Z.even q); split; auto; nia. }
    destruct Hm as [Hmq Hmd].
    destruct (Z.eqb_spec m0 (2 ^ 53)) as [Heq | Hneq].
    - exists (2 ^ 52), (t - 1). cbv iota.
      replace (971 <? - t + 1) with false by (symmetry; apply Z.ltb_ge; lia).
      replace (- t + 1) with (- (t - 1)) by lia.
      split; [reflexivity |]. split; [lia |]. split; [lia |].
      replace (2 ^ t) with (2 * 2 ^ (t - 1)) in *
        by (replace t with ((t - 1) + 1) at 2 by lia;
            rewrite pow2_split by lia; change (2 ^ 1) with 2; lia).
      change (2 ^ 53) with (2 * 2 ^ 52) in *. nia.
    - exists m0, t. cbv iota.
      replace (971 <? - t) with false by (symmetry; apply Z.ltb_ge; lia).
      split; [reflexivity |]. split; [lia |]. split; [lia | exact Hmd]. }
  unfold JS.round_ratio.
  replace (n =? 0) with false by (symmetry; apply Z.eqb_neq; lia).
  fold ln ld.
  replace (ln - ld - 53) with (- t1) by (unfold t1; lia).
  replace (0 <=? - t1) with false by (symmetry; apply Z.leb_gt; lia).
  cbv iota. rewrite Z.opp_involutive.
  destruct (Z.leb_spec (2 ^ 53) (n * 2 ^ t1 / d)) as [Hbig | Hsmall].
  - (* one binade up *)
    rewrite Z.max_l by lia.
    replace (0 <=? - t1 + 1) with false by (symmetry; apply Z.leb_gt; lia).
    cbv iota.
    replace (- (- t1 + 1)) with (t1 - 1) by lia.
    assert (H2 : 2 ^ t1 = 2 * 2 ^ (t1 - 1)).
    { replace t1 with ((t1 - 1) + 1) at 1 by lia.
      rewrite pow2_split by lia. change (2 ^ 1) with 2. lia. }
    assert (Hrange : 2 ^ 52 * d <= n * 2 ^ (t1 - 1) < 2 ^ 53 * d).
    { assert (2 ^ 53 * d <= n * 2 ^ t1).
      { pose proof (Z.mul_div_le (n * 2 ^ t1) d Hd). nia. }
      change (2 ^ 53) with (2 * 2 ^ 52) in *.
      change (2 ^ 54) with (2 * (2 * 2 ^ 52)) in *. nia. }
    replace (- t1 + 1) with (- (t1 - 1)) by lia.
    destruct (Htail (t1 - 1) ltac:(lia) Hrange _ eq_refl) as (m & t' & Heq & Hrest).
    replace (- (t1 - 1) + 1) with (- (t1 - 1) + 1) in Heq by lia.
    exists m, t'. split; [| exact Hrest].
    rewrite <- Heq. reflexivity.
  - rewrite Z.max_l by lia.
    replace (0 <=? - t1) with false by (symmetry; apply Z.leb_gt; lia).
    cbv iota. rewrite Z.opp_involutive.
    assert (Hrange : 2 ^ 52 * d <= n * 2 ^ t1 < 2 ^ 53 * d).
    { split; [lia |].
      pose proof (Z.div_mod (n * 2 ^ t1) d ltac:(lia)) as Hdm.
      pose proof (Z.mod_pos_bound (n * 2 ^ t1) d Hd) as Hmod. nia. }
    destruct (Htail t1 ltac:(lia) Hrange _ eq_refl) as (m & t' & Heq & Hrest).
    exists m, t'. split; [| exact Hrest].
    rewrite <- Heq. reflexivity.
Qed.

(** The display integer of a Number [m / 2^t] differs from [m * 10^4 / 2^t]
    by at most one half. *)
Lemma scaled_nearest_error (m t : Z) :
  0 <= m -> 0 < t ->
  2 * Z.abs (JS.scaled_nearest m (- t) 4 * 2 ^ t - m * 10 ^ 4) <= 2 ^ t.
Proof.
  intros Hm Ht. unfold JS.scaled_nearest.
  replace (0 <=? - t) with false by (symmetry; apply Z.leb_gt; lia).
  change (10 ^ Z.of_nat 4) with (10 ^ 4).
  rewrite Z.opp_involutive.
  replace (1 - - t) with (t + 1) by lia.
  rewrite pow2_split by lia. change (2 ^ 1) with 2.
  assert (Hp : 0 < 2 ^ t) by (apply Z.pow_pos_nonneg; lia).
  pose proof (Z.div_mod (2 * m * 10 ^ 4 + 2 ^ t) (2 ^ t * 2) ltac:(lia)) as Hdm.
  pose proof (Z.mod_pos_bound (2 * m * 10 ^ 4 + 2 ^ t) (2 ^ t * 2) ltac:(lia)) as Hmod.
  set (N := (2 * m * 10 ^ 4 + 2 ^ t) / (2 ^ t * 2)) in *.
  set (r := (2 * m * 10 ^ 4 + 2 ^ t) mod (2 ^ t * 2)) in *.
  lia.
Qed.

End FloatBounds.

(* ===================================================================== *)
(** * Further properties: what the validator sees of the balance *)
(* ===================================================================== *)

Lemma formatEther_in_range (wei : Z) :
  0 <= wei < 2 ^ 511 -> Ethers.formatEther wei = Some (Ethers.toString wei 18).
Proof.
  intros [H0 H1]. unfold Ethers.formatEther, Ethers.formatUnits, Ethers.checkValue.
  replace (- 2 ^ 511 <=? wei) with true.
  - replace (wei <? 2 ^ 511) with true by (symmetry; apply Z.ltb_lt; exact H1).
    reflexivity.
  - symmetry. apply Z.leb_le.
    assert (- 2 ^ 511 <= 0) by (vm_compute; discriminate). lia.
Qed.

(** The display string of a raw balance below 10^33 wei always converts
    back, to within half a display unit and one part in 2^53. *)
Lemma displayed_balance_accuracy (wei : Z) (eth : string) :
  0 <= wei < 10 ^ 33 ->
  Ethers.formatEther wei = Some eth ->
  exists operand,
    Ethers.parseUnits (JS.toFixed (JS.parseFloat eth) 4) "ether" = Some operand /\
    operand mod 10 ^ 14 = 0 /\
    (2 ^ 53 - 1) * Z.abs (operand - wei) <= (2 ^ 53 - 1) * (5 * 10 ^ 13) + wei.
Proof.
  intros [Hw0 Hw1] Hfmt.
  rewrite formatEther_in_range in Hfmt.
  2:{ assert (10 ^ 33 < 2 ^ 511) by (vm_compute; reflexivity). lia. }
  assert (Heth : Ethers.toString wei 18 = eth) by congruence.
  rewrite <- Heth. clear Hfmt Heth eth.
  destruct (Z.eq_dec wei 0) as [-> | Hnz].
  { exists 0. repeat split; vm_compute; try reflexivity. discriminate. }
  destruct (EtherText.toString_shape wei Hw0)
    as (W & F & z & Hs & HW & HWa & HF & HFa & Hlen & Hval).
  rewrite Hs, (FloatText.parseFloat_decimal W F HW HWa HF HFa).
  set (n := Str.digits_value 10 (W ++ F)) in *.
  set (d := 10 ^ Z.of_nat (String.length F)).
  assert (Hd : 0 < d) by (apply Z.pow_pos_nonneg; lia).
  assert (Hdz : d * 10 ^ Z.of_nat z = 10 ^ 18).
  { unfold d. rewrite <- Z.pow_add_r by lia. f_equal. lia. }
  assert (Hz : 0 < 10 ^ Z.of_nat z) by (apply Z.pow_pos_nonneg; lia).
  assert (Hnd : n * 10 ^ 18 = wei * d) by nia.
  assert (Hn : 0 < n) by nia.
  assert (Hd60 : d < 2 ^ 60).
  { assert (10 ^ 18 < 2 ^ 60) by (vm_compute; reflexivity). nia. }
  assert (Hn50 : n < 2 ^ 50 * d).
  { assert (10 ^ 33 <= 2 ^ 50 * 10 ^ 18) by (vm_compute; discriminate). nia. }
  destruct (FloatBounds.round_ratio_small n d Hn Hd Hd60 Hn50)
    as (m & t & Hround & Ht & Hm & Herr).
  rewrite Hround.
  assert (Hp : 0 < 2 ^ t) by (apply Z.pow_pos_nonneg; lia).
  assert (Hint : JS.integer_part m (- t) < 10 ^ 21).
  { unfold JS.integer_part.
    replace (0 <=? - t) with false by (symmetry; apply Z.leb_gt; lia).
    rewrite Z.opp_involutive.
    apply Z.div_lt_upper_bound; [exact Hp |].
    assert (m * d < 10 ^ 21 * 2 ^ t * d); [| nia].
    assert (2 ^ 50 + 1 <= 10 ^ 21) by (vm_compute; discriminate).
    assert (1 <= 2 ^ t) by lia. nia. }
  rewrite (Display.parseUnits_toFixed m (- t) ltac:(lia) Hint).
  pose proof (FloatBounds.scaled_nearest_error m t ltac:(lia) ltac:(lia)) as HerrN.
  set (N := JS.scaled_nearest m (- t) 4) in *.
  exists (N * 10 ^ 14). split; [reflexivity |]. split; [apply Z.mod_mul; lia |].
  (* X d 2^t = 10^14 d E1 + 10^18 E2 *)
  set (X := N * 10 ^ 14 - wei).
  assert (Hid : X * (d * 2 ^ t)
                = 10 ^ 14 * d * (N * 2 ^ t - m * 10 ^ 4) + 10 ^ 18 * (m * d - n * 2 ^ t)).
  { unfold X. change (10 ^ 18) with (10 ^ 14 * 10 ^ 4) in *. nia. }
  assert (Hstep1 : 2 * Z.abs X * (d * 2 ^ t) <= 10 ^ 14 * d * 2 ^ t + 10 ^ 18 * d).
  { assert (Habs : Z.abs (X * (d * 2 ^ t)) = Z.abs X * (d * 2 ^ t))
      by (rewrite Z.abs_mul; f_equal; apply Z.abs_eq; nia).
    assert (Htri : Z.abs (X * (d * 2 ^ t))
                   <= 10 ^ 14 * d * Z.abs (N * 2 ^ t - m * 10 ^ 4)
                      + 10 ^ 18 * Z.abs (m * d - n * 2 ^ t)).
    { rewrite Hid. eapply Z.le_trans; [apply Z.abs_triangle |].
      rewrite !Z.abs_mul.
      rewrite (Z.abs_eq (10 ^ 14)) by (vm_compute; discriminate).
      rewrite (Z.abs_eq (10 ^ 18)) by (vm_compute; discriminate).
      rewrite (Z.abs_eq d) by lia. lia. }
    assert (H14 : 0 <= 10 ^ 14 * d)
      by (apply Z.mul_nonneg_nonneg; [vm_compute; discriminate | lia]).
    assert (H18 : 0 <= 10 ^ 18) by (vm_compute; discriminate).
    pose proof (Z.mul_le_mono_nonneg_l _ _ _ H14 HerrN) as A1.
    pose proof (Z.mul_le_mono_nonneg_l _ _ _ H18 Herr) as A2.
    lia. }
  assert (Hstep2 : 2 * Z.abs X * 2 ^ t <= 10 ^ 14 * 2 ^ t + 10 ^ 18).
  { apply (Z.mul_le_mono_pos_r _ _ d Hd). nia. }
  assert (Hstep3 : (2 ^ 53 - 1) * 10 ^ 18 <= 2 * wei * 2 ^ t).
  { assert (Hmd : 2 ^ 52 * d <= m * d)
      by (apply Z.mul_le_mono_nonneg_r; lia).
    assert (Hlow : (2 ^ 53 - 1) * d <= 2 * n * 2 ^ t)
      by (change (2 ^ 53) with (2 * 2 ^ 52); lia).
    apply (Z.mul_le_mono_pos_r _ _ d Hd).
    assert (H18 : 0 <= 10 ^ 18) by (vm_compute; discriminate).
    pose proof (Z.mul_le_mono_nonneg_r _ _ _ H18 Hlow) as Hlow'.
    assert (E : n * 2 ^ t * 10 ^ 18 = wei * 2 ^ t * d).
    { transitivity (n * 10 ^ 18 * 2 ^ t); [ring |]. rewrite Hnd. ring. }
    lia. }
  assert (Habs0 : 0 <= Z.abs X) by apply Z.abs_nonneg.
  apply (Z.mul_le_mono_pos_r _ _ (2 * 2 ^ t) ltac:(lia)).
  assert (H53 : 0 <= 2 ^ 53 - 1) by (vm_compute; discriminate).
  pose proof (Z.mul_le_mono_nonneg_l _ _ _ H53 Hstep2) as B1.
  lia.
Qed.

(** X21.  A refresh that succeeds on a raw balance below 10^33 wei stores
    a display string that the validator can always convert back: the
    balance operand exists, is a whole number of display units (10^14
    wei), and differs from the raw balance by at most half a display unit
    plus one part in 2^53 - 1 of the raw balance, the share of the
    passage through binary64. *)
Theorem refreshed_balance_accuracy (w : World) (s : State) (address : string)
        (wei : Z) :
  ethereum w = true ->
  getNetwork_result w = Resolved 5611 ->
  getBalance_result w address = Resolved wei ->
  0 <= wei < 10 ^ 33 ->
  exists operand,
    balance_operand (state_after (getBalance w address) s) = Some operand /\
    operand mod 10 ^ 14 = 0 /\
    (2 ^ 53 - 1) * Z.abs (operand - wei) <= (2 ^ 53 - 1) * (5 * 10 ^ 13) + wei.
Proof.
  intros Hw Hnet Hbal Hrange.
  assert (Hfmt : Ethers.formatEther wei = Some (Ethers.toString wei 18)).
  { apply formatEther_in_range.
    assert (10 ^ 33 < 2 ^ 511) by (vm_compute; reflexivity). lia. }
  unfold balance_operand, state_after, run. rewrite getBalance_run.
  unfold refresh. rewrite Hw, Hnet, Z.eqb_refl, Hbal, Hfmt.
  cbn [fst snd with_networkError with_balance balance].
  exact (displayed_balance_accuracy wei _ Hrange Hfmt).
Qed.

Lemma refreshed_balance_accuracy_witness :
  exists operand,
    balance_operand (state_after (getBalance dust_world alice) initial_state)
      = Some operand /\
    operand mod 10 ^ 14 = 0 /\
    (2 ^ 53 - 1) * Z.abs (operand - (10 ^ 18 + 1))
      <= (2 ^ 53 - 1) * (5 * 10 ^ 13) + (10 ^ 18 + 1).
Proof.
  refine (refreshed_balance_accuracy dust_world initial_state alice (10 ^ 18 + 1)
            eq_refl eq_refl eq_refl _).
  split; [discriminate | reflexivity].
Defined.

(* ===================================================================== *)
(** * Concrete runs *)
(* ===================================================================== *)

(** EIP-55 checksummed addresses are accepted, and rejected once a single
    letter changes case; all-lower-case and ICAP forms are accepted. *)
Example isAddress_samples :
  List.map Ethers.isAddress
    [ "0x5aAeb6053F3E94C9b9A09f33669435E7Ef1BeAed";
      "0x5aaeb6053F3E94C9b9A09f33669435E7Ef1BeAed";
      "0x5aaeb6053f3e94c9b9a09f33669435e7ef1beaed";
      "5aaeb6053f3e94c9b9a09f33669435e7ef1beaed";
      "XE65GB6LDNXYOFTX0NSV3FUWKOWIXAMJK36";
      "XE66GB6LDNXYOFTX0NSV3FUWKOWIXAMJK36";
      "0x5aaeb6053f3e94c9b9a09f33669435e7ef1beae";
      EmptyString ]
  = [true; false; true; true; true; false; false; false].
Proof. vm_compute. reflexivity. Qed.

Example keccak256_empty :
  Keccak.keccak256 []
  = [ 0xc5; 0xd2; 0x46; 0x01; 0x86; 0xf7; 0x23; 0x3c; 0x92; 0x7e; 0x7d; 0xb2;
      0xdc; 0xc7; 0x03; 0xc0; 0xe5; 0x00; 0xb6; 0x53; 0xca; 0x82; 0x27; 0x3b;
      0x7b; 0xfa; 0xd8; 0x04; 0x5d; 0x85; 0xa4; 0x70 ].
Proof. vm_compute. reflexivity. Qed.

Example parseUnits_wei_samples :
  List.map (fun s => Ethers.parseUnits s "wei")
    [ "1"; "0"; "-1"; "1.0"; "1.5"; "abc"; EmptyString; " 1"; "1e3" ]
  = [ Some 1; Some 0; Some (-1); Some 1; None; None; None; None; None ].
Proof. vm_compute. reflexivity. Qed.

Example parseUnits_ether_samples :
  List.map (fun s => Ethers.parseUnits s "ether")
    [ "1.0000"; "0"; "0.0001"; "Error"; "1e+21"; "NaN" ]
  = [ Some (10 ^ 18); Some 0; Some (10 ^ 14); None; None; None ].
Proof. vm_compute. reflexivity. Qed.

Example formatEther_samples :
  List.map Ethers.formatEther
    [ 10 ^ 18; 0; 1; 1500000000000000000; -1230000000000000000; 2 ^ 511 ]
  = [ Some "1.0"; Some "0.0"; Some "0.000000000000000001"; Some "1.5";
      Some "-1.23"; None ].
Proof. vm_compute. reflexivity. Qed.

Example toFixed_samples :
  List.map (fun s => JS.toFixed (JS.parseFloat s) 4)
    [ "1.0"; "1.000000000000000001"; "2.00045"; "0.03125"; "0.00005";
      "1e21"; "1e23"; "abc" ]
  = [ "1.0000"; "1.0000"; "2.0004"; "0.0313"; "0.0001"; "1e+21"; "1e+23"; "NaN" ].
Proof. vm_compute. reflexivity. Qed.

Example BigInt_samples :
  List.map JS.BigInt
    [ "1000000000000000000"; EmptyString; " 12 "; "0x10"; "-5"; "1.5"; "1e3" ]
  = [ Some (10 ^ 18); Some 0; Some 12; Some 16; Some (-5); None; None ].
Proof. vm_compute. reflexivity. Qed.

Example parseInt_samples :
  List.map (fun s => JS.to_Z (JS.parseInt s 0))
    [ "1700000000"; "12px"; " -7"; "0x1f"; "abc"; "9007199254740993" ]
  = [ Some 1700000000; Some 12; Some (-7); Some 31; None;
      Some 9007199254740992 ].
Proof. vm_compute. reflexivity. Qed.

(** The guard registers a chain the wallet does not know, once. *)
Example guard_registers_unknown_chain :
  run (checkAndSwitchNetwork unknown_chain)
      (with_networkError wrong_network initial_state)
  = (Normal tt, initial_state,
     [EthereumRequest switch_request; EthereumRequest (add_request unknown_chain)]).
Proof. vm_compute. reflexivity. Qed.

(** Without a wallet the submission fails after validation and keeps the
    form. *)
Example submit_without_wallet :
  run (sendTransaction offline (form bob "5" "1.0000")) (form bob "5" "1.0000")
  = (Normal tt,
     {| account := alice; connected := true; error := "No wallet found!";
        balance := "1.0000"; networkError := EmptyString;
        recipientAddress := bob; amount := "5"; isLoading := false;
        txStatus := "Transaction failed!"; txHash := EmptyString;
        transactions := [] |},
     [PreventDefault; ConsoleError "Transaction error:"]).
Proof. vm_compute. reflexivity. Qed.

(** A confirmed submission: signer, send, wait, then the refresh. *)
Example submit_confirmed :
  run (sendTransaction (online (10 ^ 18) JsonNull) (form bob "5" "1.0000"))
      (form bob "5" "1.0000")
  = (Normal tt,
     {| account := alice; connected := true; error := EmptyString;
        balance := "1.0000"; networkError := EmptyString;
        recipientAddress := EmptyString; amount := EmptyString;
        isLoading := false; txStatus := "Transaction confirmed!";
        txHash := "0xfeed"; transactions := [] |},
     [PreventDefault; GetSigner; SendTransaction bob 5; Wait "0xfeed";
      GetNetwork; GetBalance alice]).
Proof. vm_compute. reflexivity. Qed.
